(** * ztest: scan orchestration, report aggregation and the URL monitor

    A shallow embedding of [index.js] (category selection and [runTests]),
    [src/reporter.js] (the [Reporter] class), [src/logger.js],
    [src/monitor.js] (the [Monitor] class) and the probes that need no
    browser ([src/tests/httpTests.js], [src/tests/securityTests.js] and
    [src/tests/sslTests.js]), followed by the properties proved about
    them.

    JavaScript values are modelled as follows.
    - Strings are [string], holding the UTF-8 encoding of the text, as
      the source files and the console do; [substring] and [length]
      count UTF-16 code units.
    - Numbers that the code uses as integers (epoch milliseconds, HTTP
      status codes, counters) are [Z] or [nat].
    - [null] / [undefined] / an absent property are [None].
    - Asynchronous functions run one after the other (every call is
      awaited), so they are computations in a state-and-exception monad
      over the console and the outside world. *)

From Stdlib Require Import ZArith String Ascii List Lia.
From stdpp Require Import base option list strings gmap pretty sorting.

Local Open Scope string_scope.
Local Open Scope Z_scope.

(* ===================================================================== *)
(** * JavaScript helpers *)
(* ===================================================================== *)

Module Js.

(** A thrown value. What the probes, [axios], [https] and [JSON.parse]
    throw are [Error] objects, and the handlers read only [message]. *)
Record Error := mkError { message : string }.

(** Outcome of running a piece of code: a value, or a thrown error. *)
Inductive Result (A : Type) : Type :=
| Ok (a : A)
| Throw (e : Error).
Arguments Ok {A} a.
Arguments Throw {A} e.

(** [s.split(sep)] for a one-character separator. *)
Fixpoint split (sep : ascii) (s : string) : list string :=
  match s with
  | EmptyString => [EmptyString]
  | String c s' =>
      if Ascii.eqb c sep then EmptyString :: split sep s'
      else match split sep s' with
           | [] => [String c EmptyString]
           | w :: ws => String c w :: ws
           end
  end.

(** [s.startsWith(p)]. *)
Fixpoint startsWith (p s : string) : bool :=
  match p, s with
  | EmptyString, _ => true
  | String a p', String b s' => Ascii.eqb a b && startsWith p' s'
  | String _ _, EmptyString => false
  end.

(** A byte [10xxxxxx] continues the code point begun before it; a lead
    byte [11110xxx] begins a code point above U+FFFF, which takes two
    UTF-16 code units. *)
Definition is_continuation (c : ascii) : bool :=
  ((128 <=? nat_of_ascii c) && (nat_of_ascii c <? 192))%nat.

Definition is_astral_lead (c : ascii) : bool := (240 <=? nat_of_ascii c)%nat.

(** U+FFFD, which a lone surrogate is written out as. *)
Definition replacement_character : string :=
  String (ascii_of_nat 239) (String (ascii_of_nat 191)
    (String (ascii_of_nat 189) EmptyString)).

(** [s.substring(0, n)]: the first [n] UTF-16 code units. A cut in the
    middle of a surrogate pair leaves a lone surrogate. *)
Fixpoint substring0 (n : nat) (s : string) : string :=
  match s with
  | EmptyString => EmptyString
  | String c s' =>
      if is_continuation c then String c (substring0 n s')
      else
        match n with
        | O => EmptyString
        | S n' =>
            if is_astral_lead c then
              match n' with
              | O => replacement_character
              | S n'' => String c (substring0 n'' s')
              end
            else String c (substring0 n' s')
        end
  end.

(** [s.length]: the number of UTF-16 code units. *)
Fixpoint length_utf16 (s : string) : nat :=
  match s with
  | EmptyString => O
  | String c s' =>
      ((if is_continuation c then 0 else if is_astral_lead c then 2 else 1)
       + length_utf16 s')%nat
  end.

Definition newline : ascii := Ascii.ascii_of_nat 10.

(** [s.replace(/\n/g, ' ')]. *)
Fixpoint replace_newlines (s : string) : string :=
  match s with
  | EmptyString => EmptyString
  | String c s' =>
      String (if Ascii.eqb c newline then " "%char else c) (replace_newlines s')
  end.

(** [s.repeat(n)]. *)
Fixpoint repeat (s : string) (n : nat) : string :=
  match n with
  | O => EmptyString
  | S n' => s +:+ repeat s n'
  end.

(** Truthiness of a string-or-absent value: [undefined], [null] and the
    empty string are falsy. *)
Definition truthy (v : option string) : bool :=
  match v with
  | None => false
  | Some EmptyString => false
  | Some (String _ _) => true
  end.

(** [arr.slice(-k)]: the last [k] elements. *)
Definition slice_last {A} (k : nat) (l : list A) : list A :=
  drop (length l - k)%nat l.

(** Interpolation of an absent value in a template literal. *)
Definition show_opt (v : option string) : string :=
  match v with
  | Some s => s
  | None => "undefined"
  end.

End Js.

Import Js.

(* ===================================================================== *)
(** * The computation monad *)
(* ===================================================================== *)

(** State [S] is threaded through; an uncaught exception keeps the state
    reached so far, as side effects done before a [throw] stay done. *)
Definition M (S A : Type) : Type := S -> Result A * S.

Definition ret {S A} (a : A) : M S A := fun s => (Ok a, s).

Definition bind {S A B} (m : M S A) (k : A -> M S B) : M S B :=
  fun s =>
    match m s with
    | (Ok a, s') => k a s'
    | (Throw e, s') => (Throw e, s')
    end.

Definition throw {S A} (e : Error) : M S A := fun s => (Throw e, s).

(** [try { body } catch (error) { handler }]. *)
Definition try_catch {S A} (body : M S A) (handler : Error -> M S A) : M S A :=
  fun s =>
    match body s with
    | (Ok a, s') => (Ok a, s')
    | (Throw e, s') => handler e s'
    end.

Definition gets {S A} (f : S -> A) : M S A := fun s => (Ok (f s), s).
Definition modify {S} (f : S -> S) : M S unit := fun s => (Ok tt, f s).

(** [if (c) { m }] with no [else]. *)
Definition when {S} (c : bool) (m : M S unit) : M S unit :=
  if c then m else ret tt.

Declare Scope js_scope.
Delimit Scope js_scope with js.
Notation "x <- m ;; k" := (bind m (fun x => k))
  (at level 100, m at next level, right associativity) : js_scope.
Notation "m ;;; k" := (bind m (fun _ => k))
  (at level 100, k at level 200, right associativity) : js_scope.
Local Open Scope js_scope.

(** [for (const x of l) { acc = body(x, acc) }]: the loop's mutable locals
    are carried in [acc]. *)
Fixpoint for_of {S A B} (l : list A) (body : A -> B -> M S B) (acc : B) : M S B :=
  match l with
  | [] => ret acc
  | x :: l' => acc' <- body x acc ;; for_of l' body acc'
  end.

(** [returns m Q]: from every state, [m] returns a value (it does not
    throw), and the value satisfies [Q]. *)
Definition returns {S A} (m : M S A) (Q : A -> Prop) : Prop :=
  forall s, exists a s', m s = (Ok a, s') /\ Q a.

(* ===================================================================== *)
(** * The outside world *)
(* ===================================================================== *)

(** What every part of the program uses of the host: the clock, the
    formatting of dates and numbers, and URL parsing. Date formatting
    depends on the host's locale and time zone, and [toFixed] on floating
    point; they are pure functions of their argument, supplied by the
    host. *)
Class Host (W : Type) := {
  (** [Date.now()] / [new Date()]: epoch milliseconds. *)
  Date_now : W -> Z * W;
  (** [date.toLocaleString('es-ES')], [date.toLocaleString()],
      [date.toLocaleDateString()], [date.toISOString()]. *)
  toLocaleString_esES : Z -> string;
  toLocaleString : Z -> string;
  toLocaleDateString : Z -> string;
  toISOString : Z -> string;
  (** [(millis / 1000).toFixed(1)]. *)
  seconds_toFixed1 : Z -> string;
  (** [new URL(url).hostname] for a URL that parses. Whether a URL
      parses is the monitor host's [URL_canParse]. *)
  hostname : string -> string;
}.

(** The process state: the host world and the lines written to the
    console, oldest first. Colours ([chalk]) and the spinner ([ora], on
    stderr) are not part of the text. *)
Record Env (W : Type) := mkEnv {
  world : W;
  console : list string;
}.
Arguments mkEnv {W} _ _.
Arguments world {W} _.
Arguments console {W} _.

Section Console.
Context {W : Type} `{Host W}.

Definition console_log (line : string) : M (Env W) unit :=
  modify (fun e => mkEnv (world e) (console e ++ [line])).

(** [new Date()], as epoch milliseconds. *)
Definition new_Date : M (Env W) Z :=
  fun e => let '(t, w) := Date_now (world e) in (Ok t, mkEnv w (console e)).

End Console.

(* ===================================================================== *)
(** * src/logger.js *)
(* ===================================================================== *)

Record Logger := mkLogger { verbose : bool }.

Section LoggerMethods.
Context {W : Type} `{Host W}.

Definition Logger_explain (logger : Logger) (msg : string) : M (Env W) unit :=
  when (verbose logger) (console_log msg).

Definition Logger_error (logger : Logger) (msg : string) : M (Env W) unit :=
  console_log ("✗ " +:+ msg).

Definition Logger_header (logger : Logger) (msg : string) : M (Env W) unit :=
  console_log "" ;;;
  console_log (Js.repeat "━" 60) ;;;
  console_log ("  " +:+ msg) ;;;
  console_log (Js.repeat "━" 60) ;;;
  console_log "".

Definition Logger_step (logger : Logger) (step total : nat) (msg : string)
  : M (Env W) unit :=
  let progress := "[" +:+ pretty step +:+ "/" +:+ pretty total +:+ "]" in
  console_log "" ;;;
  console_log (progress +:+ " " +:+ msg).

End LoggerMethods.

(* ===================================================================== *)
(** * Findings and the Reporter's accumulated state (src/reporter.js) *)
(* ===================================================================== *)

(** [test.value] is a string or a number. *)
Inductive Value :=
| VString (s : string)
| VNumber (n : Z).

(** One entry of a probe's [tests] array. The probes build these as object
    literals; [status] and [severity] are free strings, and [severity] and
    [recommendation] may be absent ([recommendation] may also be [null]). *)
Record Finding := mkFinding {
  name : string;
  status : string;
  value : Value;
  details : string;
  severity : option string;
  recommendation : option string;
}.

(** What a probe returns: [{ name, tests }]. *)
Record CategoryResults := mkCategoryResults {
  cr_name : string;
  tests : list Finding;
}.

Record Reporter := mkReporter {
  results : list CategoryResults;
  url : string;
  startTime : option Z;
  endTime : option Z;
}.

(** [new Reporter()]. *)
Definition Reporter_new : Reporter :=
  {| results := []; url := ""; startTime := None; endTime := None |}.

Definition setUrl (u : string) (r : Reporter) : Reporter :=
  {| results := results r; url := u;
     startTime := startTime r; endTime := endTime r |}.

Definition addResults (categoryResults : CategoryResults) (r : Reporter) : Reporter :=
  {| results := results r ++ [categoryResults]; url := url r;
     startTime := startTime r; endTime := endTime r |}.

Section ReporterTimer.
Context {W : Type} `{Host W}.

Definition startTimer (r : Reporter) : M (Env W) Reporter :=
  t <- new_Date ;;
  ret {| results := results r; url := url r;
         startTime := Some t; endTime := endTime r |}.

Definition endTimer (r : Reporter) : M (Env W) Reporter :=
  t <- new_Date ;;
  ret {| results := results r; url := url r;
         startTime := startTime r; endTime := Some t |}.

End ReporterTimer.

(* ===================================================================== *)
(** * index.js: the category registry, category selection and runTests *)
(* ===================================================================== *)

(** A probe: [async (url, logger) => results]. It talks to the network,
    may throw, and prints through [logger] and [console.log]; a program
    cannot read the console back, so a probe is a function of the world
    alone that also yields the lines it printed. *)
Definition Probe (W : Type) : Type :=
  string -> Logger -> W -> Result CategoryResults * list string * W.

(** The probe functions imported at the top of index.js. *)
Record Probes (W : Type) := mkProbes {
  testHttpResponse : Probe W;
  testRedirects : Probe W;
  testSSL : Probe W;
  testSecurityHeaders : Probe W;
  testCookieSecurity : Probe W;
  testCORS : Probe W;
  testWithBrowser : Probe W;
  testPerformance : Probe W;
  testResponsive : Probe W;
  takeScreenshots : Probe W;
}.
Arguments testHttpResponse {W} _.
Arguments testRedirects {W} _.
Arguments testSSL {W} _.
Arguments testSecurityHeaders {W} _.
Arguments testCookieSecurity {W} _.
Arguments testCORS {W} _.
Arguments testWithBrowser {W} _.
Arguments testPerformance {W} _.
Arguments testResponsive {W} _.
Arguments takeScreenshots {W} _.

Record Category (W : Type) := mkCategory {
  cat_name : string;
  description : string;
  cat_tests : list (Probe W);
}.
Arguments mkCategory {W} _ _ _.
Arguments cat_name {W} _.
Arguments description {W} _.
Arguments cat_tests {W} _.

(** The result of reading [TEST_CATEGORIES[key]]. The registry is a plain
    object literal, so besides its own six keys the read also finds what
    [Object.prototype] provides: functions (whose [name] is a string) and,
    under [__proto__], the prototype object itself (no [name]). None of
    those has a [description] or a [tests] property. *)
Inductive Property (W : Type) :=
| Own (c : Category W)
| Inherited (fname : option string)
| Undefined.
Arguments Own {W} c.
Arguments Inherited {W} fname.
Arguments Undefined {W}.

Definition Object_prototype : list (string * option string) :=
  [ ("constructor", Some "Object");
    ("__defineGetter__", Some "__defineGetter__");
    ("__defineSetter__", Some "__defineSetter__");
    ("hasOwnProperty", Some "hasOwnProperty");
    ("__lookupGetter__", Some "__lookupGetter__");
    ("__lookupSetter__", Some "__lookupSetter__");
    ("isPrototypeOf", Some "isPrototypeOf");
    ("propertyIsEnumerable", Some "propertyIsEnumerable");
    ("toString", Some "toString");
    ("valueOf", Some "valueOf");
    ("__proto__", None);
    ("toLocaleString", Some "toLocaleString") ].

(** Association-list lookup, first match. *)
Fixpoint assoc {A} (key : string) (l : list (string * A)) : option A :=
  match l with
  | [] => None
  | (k, v) :: l' => if String.eqb key k then Some v else assoc key l'
  end.

Record Options := mkOptions {
  only : option string;
  skip : option string;
  quiet : bool;
}.

Section Scan.
Context {W : Type} `{Host W}.
Variable probes : Probes W.

Definition TEST_CATEGORIES : list (string * Category W) :=
  [ ("http",
     mkCategory "📡 HTTP/Response"
       "Códigos de estado, tiempos de respuesta, redirecciones"
       [testHttpResponse probes; testRedirects probes]);
    ("ssl",
     mkCategory "🔒 SSL/TLS"
       "Certificados, protocolos, cifrado"
       [testSSL probes]);
    ("security",
     mkCategory "🛡️ Headers de Seguridad"
       "CSP, HSTS, X-Frame-Options, Cookies"
       [testSecurityHeaders probes; testCookieSecurity probes; testCORS probes]);
    ("browser",
     mkCategory "🌐 Análisis de Navegador"
       "JS errors, recursos, contenido mixto"
       [testWithBrowser probes]);
    ("performance",
     mkCategory "⚡ Rendimiento"
       "TTFB, tiempos de carga, memoria"
       [testPerformance probes]);
    ("responsive",
     mkCategory "📱 Responsive"
       "Mobile, tablet, desktop - diseño adaptativo"
       [testResponsive probes; takeScreenshots probes]) ].

(** [Object.keys(TEST_CATEGORIES)]: own keys in insertion order. *)
Definition Object_keys : list string := map fst TEST_CATEGORIES.

(** [TEST_CATEGORIES[key]]. *)
Definition TEST_CATEGORIES_get (key : string) : Property W :=
  match assoc key TEST_CATEGORIES with
  | Some c => Own c
  | None =>
      match assoc key Object_prototype with
      | Some fname => Inherited fname
      | None => Undefined
      end
  end.

(** Truthiness of [TEST_CATEGORIES[c]]: objects and functions are truthy,
    [undefined] is not. *)
Definition registered (c : string) : bool :=
  match TEST_CATEGORIES_get c with
  | Own _ => true
  | Inherited _ => true
  | Undefined => false
  end.

(** [arr.includes(c)]. *)
Definition includes (arr : list string) (c : string) : bool :=
  existsb (String.eqb c) arr.

(** The first lines of [automaticMode]: the category list handed to
    [runTests]. *)
Definition selectCategories (options : Options) : list string :=
  let categories := Object_keys in
  let categories :=
    if truthy (only options)
    then List.filter registered (split "," (default "" (only options)))
    else categories in
  let categories :=
    if truthy (skip options)
    then let skip := split "," (default "" (skip options)) in
         List.filter (fun c => negb (includes skip c)) categories
    else categories in
  categories.

(** [await testFn(url, logger)]. *)
Definition call_probe (testFn : Probe W) (u : string) (logger : Logger)
  : M (Env W) CategoryResults :=
  fun e =>
    let '(r, printed, w) := testFn u logger (world e) in
    (r, mkEnv w (console e ++ printed)).

(** The body of the inner loop of [runTests]: the [try]/[catch] around
    one probe. *)
Definition tryProbe (u : string) (logger : Logger) (testFn : Probe W)
    (reporter : Reporter) : M (Env W) Reporter :=
  try_catch
    (results <- call_probe testFn u logger ;;
     ret (addResults results reporter))
    (fun error =>
       Logger_error logger ("Error en test: " +:+ message error) ;;;
       ret reporter).

(** The inner loop of [runTests], over [category.tests]. *)
Definition runCategoryTests (u : string) (logger : Logger)
    (tests : list (Probe W)) (reporter : Reporter) : M (Env W) Reporter :=
  for_of tests (tryProbe u logger) reporter.

(** The body of the outer loop, for one [categoryKey]; the accumulator is
    [(currentTest, reporter)]. *)
Definition runCategory (u : string) (logger : Logger) (totalTests : nat)
    (categoryKey : string) (acc : nat * Reporter) : M (Env W) (nat * Reporter) :=
  let '(currentTest, reporter) := acc in
  match TEST_CATEGORIES_get categoryKey with
  | Undefined =>
      throw (mkError "Cannot read properties of undefined (reading 'name')")
  | Inherited fname =>
      let currentTest := S currentTest in
      Logger_step logger currentTest totalTests (show_opt fname) ;;;
      Logger_explain logger "   undefined" ;;;
      throw (mkError "category.tests is not iterable")
  | Own category =>
      let currentTest := S currentTest in
      Logger_step logger currentTest totalTests (cat_name category) ;;;
      Logger_explain logger ("   " +:+ description category) ;;;
      reporter <- runCategoryTests u logger (cat_tests category) reporter ;;
      ret (currentTest, reporter)
  end.

Definition runTests (u : string) (categories : list string) (verbose : bool)
  : M (Env W) Reporter :=
  let logger := mkLogger verbose in
  let reporter := Reporter_new in
  let reporter := setUrl u reporter in
  reporter <- startTimer reporter ;;
  Logger_header logger ("Analizando: " +:+ u) ;;;
  let totalTests := length categories in
  acc <- for_of categories (runCategory u logger totalTests) (O, reporter) ;;
  reporter <- endTimer (snd acc) ;;
  ret reporter.

(** [automaticMode] up to the scan itself (the banner and the output of
    the report are left out). *)
Definition automaticMode (u : string) (options : Options) : M (Env W) Reporter :=
  runTests u (selectCategories options) (negb (quiet options)).

End Scan.

(* ===================================================================== *)
(** * Specification vocabulary for category selection *)
(* ===================================================================== *)

Section SelectionSpec.
Context {W : Type} `{Host W}.
Variable probes : Probes W.

(** The names a selection lists: the [only] list when there is one, the
    registry's keys otherwise. *)
Definition listed (options : Options) : list string :=
  if truthy (only options)
  then split "," (default "" (only options))
  else Object_keys probes.

(** The names a selection removes. *)
Definition skipped (options : Options) : list string :=
  if truthy (skip options)
  then split "," (default "" (skip options))
  else [].

End SelectionSpec.

(* ===================================================================== *)
(** * src/reporter.js: summary and the markdown report *)
(* ===================================================================== *)

(** [v === s] for a possibly absent string [v]. *)
Definition str_is (v : option string) (s : string) : bool :=
  match v with
  | Some x => String.eqb x s
  | None => false
  end.

(** How a value found on [Object.prototype] prints in a template literal. *)
Definition show_inherited (fname : option string) : string :=
  match fname with
  | Some f => "function " +:+ f +:+ "() { [native code] }"
  | None => "[object Object]"
  end.

(** [table[key] || fallback] for an object literal [table] whose own values
    are non-empty strings. *)
Definition lookup_or (table : list (string * string)) (key : option string)
    (fallback : string) : string :=
  match key with
  | None => fallback
  | Some k =>
      match assoc k table with
      | Some v => v
      | None =>
          match assoc k Object_prototype with
          | Some fname => show_inherited fname
          | None => fallback
          end
      end
  end.

Definition getSeverityEmoji (severity : option string) : string :=
  lookup_or
    [ ("critical", "🔴"); ("high", "🟠"); ("medium", "🟡");
      ("low", "🔵"); ("info", "⚪") ]
    severity "⚪".

Definition getStatusEmoji (status : string) : string :=
  lookup_or
    [ ("pass", "✅"); ("fail", "❌"); ("warning", "⚠️"); ("info", "ℹ️") ]
    (Some status) "❓".

Record Summary := mkSummary {
  critical : nat;
  high : nat;
  medium : nat;
  low : nat;
  passed : nat;
}.

(** The body of the inner [forEach] of [getSummary]. *)
Definition tally (acc : Summary) (test : Finding) : Summary :=
  let passed' :=
    if String.eqb (status test) "pass" then S (passed acc) else passed acc in
  if str_is (severity test) "critical" then
    mkSummary (S (critical acc)) (high acc) (medium acc) (low acc) passed'
  else if str_is (severity test) "high" then
    mkSummary (critical acc) (S (high acc)) (medium acc) (low acc) passed'
  else if str_is (severity test) "medium" then
    mkSummary (critical acc) (high acc) (S (medium acc)) (low acc) passed'
  else if str_is (severity test) "low" then
    mkSummary (critical acc) (high acc) (medium acc) (S (low acc)) passed'
  else
    mkSummary (critical acc) (high acc) (medium acc) (low acc) passed'.

Definition getSummary (r : Reporter) : Summary :=
  fold_left (fun acc category => fold_left tally (tests category) acc)
    (results r) (mkSummary 0 0 0 0 0).

(** An entry of the [recommendations] array. *)
Record Recommendation := mkRecommendation {
  rec_severity : option string;
  rec_name : string;
  rec_text : string;
}.

(** The "Collect all recommendations" loops. *)
Definition collectRecommendations (r : Reporter) : list Recommendation :=
  flat_map (fun category =>
    flat_map (fun test =>
      if truthy (recommendation test)
      then [mkRecommendation (severity test) (name test)
              (default "" (recommendation test))]
      else [])
      (tests category))
    (results r).

(** [severityOrder[sev]]: a number for the five keys of the literal, and
    otherwise a value ([undefined], or something inherited) that turns the
    subtraction into [NaN]; [None] stands for that. *)
Definition severityOrder (sev : option string) : option Z :=
  match sev with
  | None => None
  | Some s =>
      assoc s [ ("critical", 0); ("high", 1); ("medium", 2);
                ("low", 3); ("info", 4) ]
  end.

(** The comparator [(a, b) => severityOrder[a.severity] -
    severityOrder[b.severity]]; [None] is [NaN]. *)
Definition bySeverity (a b : Recommendation) : option Z :=
  match severityOrder (rec_severity a), severityOrder (rec_severity b) with
  | Some x, Some y => Some (x - y)
  | _, _ => None
  end.

(** [Array.prototype.sort(comparefn)] as V8 runs it on an array of fewer
    than 64 elements (third_party/v8/builtins/array-sort.tq):
    [CountAndMakeRun] takes the longest prefix that is ascending or
    strictly descending and reverses a descending one, and
    [BinaryInsertionSort] inserts each further element at the place a
    binary search gives it. From 64 elements on V8 sorts stretches of 32
    to 64 elements in this way and merges them: for a consistent
    comparator that gives the same stable sorted order as the model; for
    a comparator that is not consistent, as [bySeverity] is on severities
    outside [severityOrder] (their difference is [NaN]), the model is
    V8's order for fewer than 64 elements only.

    [SortCompareUserFn]: a [NaN] from the comparator counts as [+0]. *)
Definition sortCompare {A} (comparefn : A -> A -> option Z) (x y : A) : Z :=
  default 0 (comparefn x y).

(** The loop of [CountAndMakeRun]: the elements that continue the run
    after [previousElement], and the rest of the array. *)
Fixpoint run_while {A} (continues : A -> A -> bool) (previousElement : A)
    (l : list A) : list A * list A :=
  match l with
  | [] => ([], [])
  | currentElement :: l' =>
      if continues currentElement previousElement then
        let '(run, rest) := run_while continues currentElement l' in
        (currentElement :: run, rest)
      else ([], l)
  end.

(** [CountAndMakeRun]: the first run, in ascending order, and the rest of
    the array. *)
Definition CountAndMakeRun {A} (comparefn : A -> A -> option Z) (l : list A)
  : list A * list A :=
  match l with
  | elementHigh :: elementLow :: l' =>
      if sortCompare comparefn elementLow elementHigh <? 0 then
        let '(run, rest) :=
          run_while (fun current previous =>
                       sortCompare comparefn current previous <? 0)
            elementLow l' in
        (rev (elementHigh :: elementLow :: run), rest)
      else
        let '(run, rest) :=
          run_while (fun current previous =>
                       negb (sortCompare comparefn current previous <? 0))
            elementLow l' in
        (elementHigh :: elementLow :: run, rest)
  | _ => (l, [])
  end.

(** The [while (left < right)] loop of [BinaryInsertionSort]; every round
    halves [right - left], so [fuel = right - left] rounds are enough. *)
Fixpoint insertion_point {A} (comparefn : A -> A -> option Z) (pivot : A)
    (workArray : list A) (fuel left right : nat) : nat :=
  match fuel with
  | O => left
  | S fuel' =>
      if (left <? right)%nat then
        let mid := (left + Nat.div2 (right - left))%nat in
        match workArray !! mid with
        | Some element =>
            if sortCompare comparefn pivot element <? 0
            then insertion_point comparefn pivot workArray fuel' left mid
            else insertion_point comparefn pivot workArray fuel' (S mid) right
        | None => left
        end
      else left
  end.

(** One round of the outer loop of [BinaryInsertionSort]: [pivot] moves to
    its insertion point in the sorted stretch before it. *)
Definition binary_insert {A} (comparefn : A -> A -> option Z) (sorted : list A)
    (pivot : A) : list A :=
  let left :=
    insertion_point comparefn pivot sorted (length sorted) O (length sorted) in
  (take left sorted ++ pivot :: drop left sorted)%list.

Definition Array_sort {A} (comparefn : A -> A -> option Z) (l : list A) : list A :=
  let '(run, rest) := CountAndMakeRun comparefn l in
  fold_left (binary_insert comparefn) rest run.

(** The sorted [recommendations] array that the report prints. *)
Definition recommendations (r : Reporter) : list Recommendation :=
  Array_sort bySeverity (collectRecommendations r).

(** Every line of the text ends with a line feed. *)
Definition nl : string := String newline EmptyString.

Definition unlines (ls : list string) : string :=
  fold_right (fun l acc => l +:+ nl +:+ acc) "" ls.

Definition concat_map {A} (f : A -> string) (l : list A) : string :=
  fold_right (fun x acc => f x +:+ acc) "" l.

(** [test.value.toString()]. *)
Definition Value_toString (v : Value) : string :=
  match v with
  | VString s => s
  | VNumber n => pretty n
  end.

(** All findings of the report whose severity is [sev], in report order. *)
Definition findingsOf (sev : string) (r : Reporter) : list Finding :=
  flat_map (fun category =>
    List.filter (fun test => str_is (severity test) sev) (tests category))
    (results r).

(** One "Hallazgos Principales" block. *)
Definition findingsSection (title : string) (fs : list Finding) : string :=
  match fs with
  | [] => ""
  | _ :: _ =>
      title +:+ nl +:+ nl +:+
      concat_map (fun f =>
        "- **" +:+ name f +:+ "**: " +:+ details f +:+ nl +:+
        (if truthy (recommendation f)
         then "  - 💡 *Recomendación:* " +:+ default "" (recommendation f) +:+ nl
         else "")) fs +:+
      nl
  end.

(** One table of "Detalle por Categoría". *)
Definition categoryDetail (category : CategoryResults) : string :=
  "### " +:+ cr_name category +:+ nl +:+ nl +:+
  "| Test | Estado | Valor | Detalles |" +:+ nl +:+
  "|------|--------|-------|----------|" +:+ nl +:+
  concat_map (fun test =>
    let status := getStatusEmoji (status test) in
    let value := substring0 30 (Value_toString (value test)) in
    let details := replace_newlines (substring0 50 (details test)) in
    "| " +:+ name test +:+ " | " +:+ status +:+ " | " +:+ value +:+
    " | " +:+ details +:+ "... |" +:+ nl) (tests category) +:+
  nl.

(** The numbered recommendation lines, starting at [index]. *)
Fixpoint recommendationLines (index : nat) (recs : list Recommendation) : string :=
  match recs with
  | [] => ""
  | rec :: recs' =>
      pretty (index + 1)%nat +:+ ". " +:+ getSeverityEmoji (rec_severity rec) +:+
      " **" +:+ rec_name rec +:+ "**: " +:+ rec_text rec +:+ nl +:+
      recommendationLines (S index) recs'
  end.

(** The report text before the date. *)
Definition reportHead (r : Reporter) : string :=
  unlines
    [ "# 🔍 Reporte de Seguridad y Testing Web";
      "";
      "**URL Analizada:** " +:+ url r ] +:+
  "**Fecha:** ".

Section Report.
Context {W : Type} `{Host W}.

(** The report text after the date. *)
Definition reportTail (r : Reporter) : string :=
  let summary := getSummary r in
  let duration :=
    match endTime r, startTime r with
    | Some e, Some s => seconds_toFixed1 (e - s)
    | _, _ => "?"
    end in
  nl +:+
  unlines
    [ "**Duración del Análisis:** " +:+ duration +:+ " segundos";
      "";
      "---";
      "";
      "## 📊 Resumen Ejecutivo";
      "";
      "| Severidad | Cantidad |";
      "|-----------|----------|";
      "| 🔴 Crítico | " +:+ pretty (critical summary) +:+ " |";
      "| 🟠 Alto | " +:+ pretty (high summary) +:+ " |";
      "| 🟡 Medio | " +:+ pretty (medium summary) +:+ " |";
      "| 🔵 Bajo | " +:+ pretty (low summary) +:+ " |";
      "| ✅ Pasados | " +:+ pretty (passed summary) +:+ " |";
      "";
      "---";
      "";
      "## 🎯 Hallazgos Principales";
      "" ] +:+
  findingsSection "### 🔴 Problemas Críticos" (findingsOf "critical" r) +:+
  findingsSection "### 🟠 Problemas de Alta Prioridad" (findingsOf "high" r) +:+
  findingsSection "### 🟡 Problemas de Prioridad Media" (findingsOf "medium" r) +:+
  unlines
    [ "---";
      "";
      "## 📋 Detalle por Categoría";
      "" ] +:+
  concat_map categoryDetail (results r) +:+
  unlines
    [ "---";
      "";
      "## 🛠️ Recomendaciones de Acción";
      "" ] +:+
  (match recommendations r with
   | [] =>
       "¡No hay recomendaciones pendientes! El sitio parece estar bien configurado."
       +:+ nl
   | recs => recommendationLines 0 recs
   end) +:+
  unlines
    [ "";
      "---";
      "";
      "## 📝 Notas para Linear";
      "";
      "**Labels sugeridos:** `security`, `testing`, `web`";
      "**Prioridad sugerida:** " +:+
        (if (0 <? critical summary)%nat then "Urgent"
         else if (0 <? high summary)%nat then "High"
         else if (0 <? medium summary)%nat then "Medium"
         else "Low");
      "";
      "---";
      "";
      "*Reporte generado automáticamente por WebTester v1.0*" ].

(** [generateLinearReport()]: the clock is read once, for the "Fecha"
    line; nothing of the reporter is assigned to. *)
Definition generateLinearReport (r : Reporter) : M (Env W) string :=
  now <- new_Date ;;
  ret (reportHead r +:+ toLocaleString_esES now +:+ reportTail r).

Definition copyToClipboard (r : Reporter) : M (Env W) string :=
  report <- generateLinearReport r ;;
  ret report.

End Report.

(* ===================================================================== *)
(** * src/linearClient.js and src/monitor.js *)
(* ===================================================================== *)

Record Checks := mkChecks {
  httpStatus : bool;
  responseTime : bool;
  sslExpiry : bool;
  jsErrors : bool;
}.

Record Thresholds := mkThresholds {
  th_responseTime : Z;
  sslExpiryDays : Z;
}.

Record MonitorConfig := mkMonitorConfig {
  urls : list string;
  teamId : option string;
  assigneeId : string;
  checks : Checks;
  thresholds : Thresholds;
}.

(** One entry of [state.history]: [{ timestamp, results: [{url, status}] }]. *)
Record HistoryEntry := mkHistoryEntry {
  timestamp : string;
  h_results : list (string * string);
}.

(** [state.alerts] is an object used as a map from alert key to epoch
    milliseconds. Every key has the form [url-type-title] and so contains
    a hyphen; no property of [Object.prototype] does, and reads never see
    inherited values. *)
Record MonitorState := mkMonitorState {
  lastCheck : option string;
  alerts : gmap string Z;
  history : list HistoryEntry;
}.

Record LinearClient := mkLinearClient { apiKey : option string }.

Record Monitor := mkMonitor {
  config : MonitorConfig;
  state : MonitorState;
  linear : LinearClient;
}.

Record Issue := mkIssue {
  type : string;
  title : string;
  i_description : string;
  priority : Z;
}.

(** [{ ...issue, url }]. *)
Record UrlIssue := mkUrlIssue {
  issue : Issue;
  i_url : string;
}.

(** [sslInfo], as resolved by [checkSSL]. *)
Record SslInfo := mkSslInfo {
  valid : bool;
  expiryDate : option string;
  daysUntilExpiry : option Z;
  issuer : option string;
}.

(** [results.checks]. *)
Record CheckValues := mkCheckValues {
  chk_httpStatus : option (Z + string);
  chk_responseTime : option Z;
  chk_error : option string;
  chk_ssl : option (SslInfo + string);
}.

(** The object returned by [checkUrl]. *)
Record CheckResult := mkCheckResult {
  r_url : string;
  r_timestamp : string;
  r_status : string;
  r_checks : CheckValues;
  issues : list Issue;
}.

(** What the TLS handshake of [checkSSL] delivers: the peer certificate's
    [valid_to] (epoch milliseconds; absent when there is no certificate),
    [socket.authorized] and the issuer's organisation. *)
Record PeerCertificate := mkPeerCertificate {
  valid_to : option Z;
  authorized : bool;
  issuer_O : option string;
}.

(** The variables of the [issueCreate] mutation. *)
Record IssueCreateInput := mkIssueCreateInput {
  in_teamId : string;
  in_title : string;
  in_description : string;
  in_priority : Z;
  in_assigneeId : string;
}.

(** [issueCreate.issue]. *)
Record CreatedIssue := mkCreatedIssue {
  id : string;
  identifier : string;
  ci_url : string;
  ci_title : string;
}.

Record IssueCreatePayload := mkIssueCreatePayload {
  success : bool;
  created : CreatedIssue;
}.

(** [response.data] of the tracker: the message of the first entry of
    [errors] when there is one, and [data.issueCreate] ([None] for
    [null]). *)
Record GraphQLResponse := mkGraphQLResponse {
  errors : option string;
  issueCreate : option IssueCreatePayload;
}.

(** The monitor's view of the host: HTTP, TLS, the tracker's endpoint and
    the file system. [JSON.parse] of a file is typed by what the file is
    for: a text that parses yields a value of the expected shape, any
    other text throws. *)
Class MonitorHost (W : Type) := {
  (** [axios.get(url, ...)]: the response status, or a thrown error. *)
  axios_get : string -> W -> Result Z * W;
  (** The handshake of [https.request]; it throws on [error] and on the
      10 s timeout. *)
  tls_handshake : string -> W -> Result PeerCertificate * W;
  (** [axios.post(baseUrl, { query, variables }, { headers })] with the
      given API key. *)
  axios_post : string -> IssueCreateInput -> W -> Result GraphQLResponse * W;
  fs_existsSync : string -> W -> bool;
  fs_readFileSync : string -> W -> Result string;
  fs_writeFileSync : string -> string -> W -> W;
  JSON_parse_config : string -> Result MonitorConfig;
  JSON_parse_state : string -> Result MonitorState;
  JSON_parse_apiKey : string -> Result (option string);
  JSON_stringify_config : MonitorConfig -> string;
  JSON_stringify_state : MonitorState -> string;
  (** [URL.canParse(url)]: whether [new URL(url)] returns. On a string
      that is not an absolute URL, such as [example.com], it throws a
      [TypeError]. *)
  URL_canParse : string -> bool;
}.

Definition CONFIG_PATH : string := ".monitor-config.json".
Definition STATE_PATH : string := ".monitor-state.json".
Definition LINEAR_CONFIG_PATH : string := ".linear-config.json".

Definition DEFAULT_ASSIGNEE : string := "09375327-6e18-4035-ac85-233f290392bb".

(** The object literal returned at the end of [loadConfig]. *)
Definition default_config : MonitorConfig :=
  {| urls := [];
     teamId := None;
     assigneeId := DEFAULT_ASSIGNEE;
     checks := {| httpStatus := true; responseTime := true;
                  sslExpiry := true; jsErrors := false |};
     thresholds := {| th_responseTime := 5000; sslExpiryDays := 14 |} |}.

(** The object literal returned at the end of [loadState]. *)
Definition default_state : MonitorState :=
  {| lastCheck := None; alerts := ∅; history := [] |}.

(** The alert cooldown, [4 * 60 * 60 * 1000] ms. *)
Definition COOLDOWN : Z := 4 * 60 * 60 * 1000.

(** [1000 * 60 * 60 * 24] ms. *)
Definition DAY : Z := 1000 * 60 * 60 * 24.

(** [Math.ceil(a / b)] for integers [a] and [b > 0]. *)
Definition ceil_div (a b : Z) : Z := - ((- a) / b).

(** [`${url}-${issue.type}-${issue.title}`]. *)
Definition alertKey (u : string) (i : Issue) : string :=
  u +:+ "-" +:+ type i +:+ "-" +:+ title i.

(** [!lastAlert || (now - lastAlert) > 4 * 60 * 60 * 1000]; a stored [0]
    is falsy like a missing entry. *)
Definition isNewAlert (lastAlert : option Z) (now : Z) : bool :=
  match lastAlert with
  | None => true
  | Some t => (t =? 0) || (COOLDOWN <? now - t)
  end.

(** [issues.length > 0 ? (issues.some(i => i.type === 'critical') ?
    'critical' : 'warning') : 'ok']. *)
Definition overallStatus (issues : list Issue) : string :=
  match issues with
  | [] => "ok"
  | _ :: _ =>
      if existsb (fun i => String.eqb (type i) "critical") issues
      then "critical" else "warning"
  end.

(** [s.toUpperCase()] on ASCII letters. *)
Definition upper_char (c : ascii) : ascii :=
  let n := nat_of_ascii c in
  if ((97 <=? n) && (n <=? 122))%nat then ascii_of_nat (n - 32) else c.

Fixpoint toUpperCase (s : string) : string :=
  match s with
  | EmptyString => EmptyString
  | String c s' => String (upper_char c) (toUpperCase s')
  end.

Section MonitorMethods.
Context {W : Type} `{Host W} `{MonitorHost W}.

(** Lift a host call that may throw into the monad. *)
Definition host_call {A} (f : W -> Result A * W) : M (Env W) A :=
  fun e => let '(r, w) := f (world e) in (r, mkEnv w (console e)).

(** Lift a read of the host that may throw. *)
Definition host_read {A} (f : W -> Result A) : M (Env W) A :=
  fun e => (f (world e), e).

(** [LinearClient.loadConfig], called by the constructor. *)
Definition LinearClient_new : M (Env W) LinearClient :=
  try_catch
    (ex <- gets (fun e => fs_existsSync LINEAR_CONFIG_PATH (world e)) ;;
     if ex : bool then
       text <- host_read (fs_readFileSync LINEAR_CONFIG_PATH) ;;
       key <- host_read (fun _ => JSON_parse_apiKey text) ;;
       ret (mkLinearClient key)
     else ret (mkLinearClient None))
    (fun _ => ret (mkLinearClient None)).

Definition isConfigured (l : LinearClient) : bool := truthy (apiKey l).

(** [LinearClient.query], for the [issueCreate] mutation. *)
Definition LinearClient_query (l : LinearClient) (input : IssueCreateInput)
  : M (Env W) (option IssueCreatePayload) :=
  if negb (truthy (apiKey l)) then
    throw (mkError "Linear API key not configured. Run: node index.js linear-setup")
  else
    response <- host_call (axios_post (default "" (apiKey l)) input) ;;
    match errors response with
    | Some msg => throw (mkError msg)
    | None => ret (issueCreate response)
    end.

Definition loadConfig : M (Env W) MonitorConfig :=
  try_catch
    (ex <- gets (fun e => fs_existsSync CONFIG_PATH (world e)) ;;
     if ex : bool then
       text <- host_read (fs_readFileSync CONFIG_PATH) ;;
       host_read (fun _ => JSON_parse_config text)
     else ret default_config)
    (fun _ => ret default_config).

Definition loadState : M (Env W) MonitorState :=
  try_catch
    (ex <- gets (fun e => fs_existsSync STATE_PATH (world e)) ;;
     if ex : bool then
       text <- host_read (fs_readFileSync STATE_PATH) ;;
       host_read (fun _ => JSON_parse_state text)
     else ret default_state)
    (fun _ => ret default_state).

(** [new Monitor()]. *)
Definition Monitor_new : M (Env W) Monitor :=
  config <- loadConfig ;;
  state <- loadState ;;
  linear <- LinearClient_new ;;
  ret (mkMonitor config state linear).

Definition saveState (m : Monitor) : M (Env W) unit :=
  modify (fun e =>
    mkEnv (fs_writeFileSync STATE_PATH (JSON_stringify_state (state m)) (world e))
          (console e)).

Definition saveConfig (m : Monitor) : M (Env W) unit :=
  modify (fun e =>
    mkEnv (fs_writeFileSync CONFIG_PATH (JSON_stringify_config (config m)) (world e))
          (console e)).

(** [checkSSL(url)]: resolves with the certificate's expiry, rejects on a
    connection error or timeout. *)
Definition checkSSL (u : string) : M (Env W) SslInfo :=
  cert <- host_call (tls_handshake u) ;;
  match valid_to cert with
  | Some expiry =>
      now <- new_Date ;;
      let daysUntilExpiry := ceil_div (expiry - now) DAY in
      ret {| valid := authorized cert;
             expiryDate := Some (toLocaleDateString expiry);
             daysUntilExpiry := Some daysUntilExpiry;
             issuer := Some (if truthy (issuer_O cert)
                             then default "" (issuer_O cert)
                             else "Unknown") |}
  | None =>
      ret {| valid := false; expiryDate := None;
             daysUntilExpiry := None; issuer := None |}
  end.

(** [new URL(url).hostname], where the URL may fail to parse. *)
Definition URL_hostname (u : string) : M (Env W) string :=
  if URL_canParse u then ret (hostname u)
  else throw (mkError "Invalid URL").

(** The "HTTP Status Check" block of [checkUrl]: the issues it pushes and
    the entries it writes to [results.checks]. In the [try] block the
    titles are built after the request was answered, so the URL has
    parsed and [hostname] is its host name. The [catch] block parses the
    URL again, for whatever reason the request failed: there
    [new URL(url)] can throw, and then the block throws. *)
Definition httpStatusCheck (cfg : MonitorConfig) (u : string)
  : M (Env W) (list Issue * CheckValues) :=
  try_catch
    (startTime <- new_Date ;;
     status <- host_call (axios_get u) ;;
     endTime <- new_Date ;;
     let responseTime := endTime - startTime in
     let checks := mkCheckValues (Some (inl status)) (Some responseTime) None None in
     statusIssues <-
       (if 500 <=? status then
          now <- new_Date ;;
          ret [ {| type := "critical";
                   title := "🔴 ERROR " +:+ pretty status +:+ " en " +:+ hostname u;
                   i_description :=
                     "El servidor respondió con error " +:+ pretty status +:+ "."
                     +:+ nl +:+ nl +:+ "URL: " +:+ u +:+ nl +:+
                     "Tiempo: " +:+ toLocaleString now;
                   priority := 1 |} ]
        else if 400 <=? status then
          now <- new_Date ;;
          ret [ {| type := "error";
                   title := "🟠 ERROR " +:+ pretty status +:+ " en " +:+ hostname u;
                   i_description :=
                     "La página respondió con error " +:+ pretty status +:+ "."
                     +:+ nl +:+ nl +:+ "URL: " +:+ u +:+ nl +:+
                     "Tiempo: " +:+ toLocaleString now;
                   priority := 2 |} ]
        else ret []) ;;
     timeIssues <-
       (if th_responseTime (thresholds cfg) <? responseTime then
          now <- new_Date ;;
          ret [ {| type := "warning";
                   title := "🟡 Respuesta lenta en " +:+ hostname u;
                   i_description :=
                     "El sitio tardó " +:+ pretty responseTime +:+
                     "ms en responder (umbral: " +:+
                     pretty (th_responseTime (thresholds cfg)) +:+ "ms)."
                     +:+ nl +:+ nl +:+ "URL: " +:+ u +:+ nl +:+
                     "Tiempo: " +:+ toLocaleString now;
                   priority := 3 |} ]
        else ret []) ;;
     ret ((statusIssues ++ timeIssues)%list, checks))
    (fun error =>
       host <- URL_hostname u ;;
       now <- new_Date ;;
       ret ([ {| type := "critical";
                 title := "🔴 SITIO CAÍDO: " +:+ host;
                 i_description :=
                   "No se pudo conectar al sitio." +:+ nl +:+ nl +:+
                   "URL: " +:+ u +:+ nl +:+
                   "Error: " +:+ message error +:+ nl +:+
                   "Tiempo: " +:+ toLocaleString now;
                 priority := 1 |} ],
            mkCheckValues (Some (inr "error")) None (Some (message error)) None)).

(** The "SSL Check" block of [checkUrl]. *)
Definition sslCheck (cfg : MonitorConfig) (u : string)
  : M (Env W) (list Issue * option (SslInfo + string)) :=
  try_catch
    (sslInfo <- checkSSL u ;;
     sslIssues <-
       match daysUntilExpiry sslInfo with
       | Some days =>
           if days <? 0 then
             now <- new_Date ;;
             ret [ {| type := "critical";
                      title := "🔴 CERTIFICADO SSL EXPIRADO: " +:+ hostname u;
                      i_description :=
                        "El certificado SSL expiró hace " +:+ pretty (Z.abs days)
                        +:+ " días." +:+ nl +:+ nl +:+ "URL: " +:+ u +:+ nl +:+
                        "Expiró: " +:+ show_opt (expiryDate sslInfo) +:+ nl +:+
                        "Tiempo: " +:+ toLocaleString now;
                      priority := 1 |} ]
           else if days <? sslExpiryDays (thresholds cfg) then
             now <- new_Date ;;
             ret [ {| type := "warning";
                      title := "🟡 SSL por expirar: " +:+ hostname u;
                      i_description :=
                        "El certificado SSL expira en " +:+ pretty days
                        +:+ " días." +:+ nl +:+ nl +:+ "URL: " +:+ u +:+ nl +:+
                        "Expira: " +:+ show_opt (expiryDate sslInfo) +:+ nl +:+
                        "Tiempo: " +:+ toLocaleString now;
                      priority := 2 |} ]
           else ret []
       | None => ret []
       end ;;
     ret (sslIssues, Some (inl sslInfo)))
    (fun error => ret ([], Some (inr (message error)))).

Definition checkUrl (m : Monitor) (u : string) : M (Env W) CheckResult :=
  let cfg := config m in
  now <- new_Date ;;
  let timestamp := toISOString now in
  http <-
    (if httpStatus (checks cfg) then httpStatusCheck cfg u
     else ret ([], mkCheckValues None None None None)) ;;
  ssl <-
    (if sslExpiry (checks cfg) && startsWith "https://" u then sslCheck cfg u
     else ret ([], None)) ;;
  let issues := (fst http ++ fst ssl)%list in
  let checks :=
    mkCheckValues (chk_httpStatus (snd http)) (chk_responseTime (snd http))
      (chk_error (snd http)) (snd ssl) in
  ret {| r_url := u;
         r_timestamp := timestamp;
         r_status := overallStatus issues;
         r_checks := checks;
         issues := issues |}.

(** [this.state.alerts[alertKey] = now]. *)
Definition setAlert (key : string) (now : Z) (m : Monitor) : Monitor :=
  mkMonitor (config m)
    (mkMonitorState (lastCheck (state m)) (<[key := now]> (alerts (state m)))
       (history (state m)))
    (linear m).

(** The body of the loop over [result.issues] in [runChecks]; the
    accumulator is [(this, newIssues)]. *)
Definition dedupIssue (u : string) (i : Issue) (acc : Monitor * list UrlIssue)
  : M (Env W) (Monitor * list UrlIssue) :=
  let '(m, newIssues) := acc in
  let key := alertKey u i in
  let lastAlert := alerts (state m) !! key in
  now <- new_Date ;;
  if isNewAlert lastAlert now
  then ret (setAlert key now m, (newIssues ++ [mkUrlIssue i u])%list)
  else ret (m, newIssues).

(** The accumulator of the loop over [config.urls]. *)
Record CycleAcc := mkCycleAcc {
  acc_self : Monitor;
  acc_results : list CheckResult;
  acc_newIssues : list UrlIssue;
}.

Definition checkAndDedup (verbose : bool) (u : string) (acc : CycleAcc)
  : M (Env W) CycleAcc :=
  when verbose (console_log ("  Checking " +:+ u +:+ "...")) ;;;
  result <- checkUrl (acc_self acc) u ;;
  let results := (acc_results acc ++ [result])%list in
  d <- for_of (issues result) (dedupIssue u) (acc_self acc, acc_newIssues acc) ;;
  when verbose
    (let statusIcon :=
       if String.eqb (r_status result) "ok" then "✅"
       else if String.eqb (r_status result) "critical" then "🔴" else "🟡" in
     let ms := default 0 (chk_responseTime (r_checks result)) in
     console_log ("    " +:+ statusIcon +:+ " " +:+ toUpperCase (r_status result)
                  +:+ " - " +:+ pretty ms +:+ "ms")) ;;;
  ret (mkCycleAcc (fst d) results (snd d)).

(** The end of [runChecks]: [lastCheck], the history entry and its
    truncation. *)
Definition recordHistory (lastCheck : string) (results : list CheckResult)
    (m : Monitor) : Monitor :=
  let entry :=
    mkHistoryEntry lastCheck (map (fun r => (r_url r, r_status r)) results) in
  let history := (history (state m) ++ [entry])%list in
  let history :=
    if (100 <? length history)%nat then slice_last 100 history else history in
  mkMonitor (config m)
    (mkMonitorState (Some lastCheck) (alerts (state m)) history)
    (linear m).

(** What [runChecks] returns, together with the updated [this]. When a
    check rejects, [runChecks] rejects at that point: what the loop has
    written to [this.state.alerts] until then stays in memory in the
    code, and is not part of what the model hands back; nothing is saved
    to the state file. *)
Record CycleOutput := mkCycleOutput {
  out_results : list CheckResult;
  newIssues : list UrlIssue;
}.

Definition runChecks (m : Monitor) (verbose : bool)
  : M (Env W) (Monitor * CycleOutput) :=
  when verbose
    (console_log (nl +:+ "🔍 Monitoreando " +:+ pretty (length (urls (config m)))
                  +:+ " URL(s)..." +:+ nl)) ;;;
  acc <- for_of (urls (config m)) (checkAndDedup verbose) (mkCycleAcc m [] []) ;;
  now <- new_Date ;;
  let m := recordHistory (toISOString now) (acc_results acc) (acc_self acc) in
  saveState m ;;;
  ret (m, mkCycleOutput (acc_results acc) (acc_newIssues acc)).

(** The body of the loop of [sendAlerts]; the accumulator is
    [createdIssues]. *)
Definition sendAlert (m : Monitor) (verbose : bool) (i : UrlIssue)
    (createdIssues : list CreatedIssue) : M (Env W) (list CreatedIssue) :=
  try_catch
    (let description :=
       i_description (issue i) +:+ nl +:+ nl +:+ "---" +:+ nl +:+
       "*Alerta automática de ZTEST Monitor*" in
     result <- LinearClient_query (linear m)
       {| in_teamId := default "" (teamId (config m));
          in_title := title (issue i);
          in_description := description;
          in_priority := priority (issue i);
          in_assigneeId := assigneeId (config m) |} ;;
     match result with
     | None =>
         throw (mkError "Cannot read properties of null (reading 'success')")
     | Some payload =>
         if success payload then
           when verbose
             (console_log ("  📨 Alerta enviada: " +:+ identifier (created payload)
                           +:+ " → Gonzalo")) ;;;
           ret ((createdIssues ++ [created payload])%list)
         else ret createdIssues
     end)
    (fun error =>
       when verbose
         (console_log ("  ❌ Error enviando alerta: " +:+ message error)) ;;;
       ret createdIssues).

Definition sendAlerts (m : Monitor) (issues : list UrlIssue) (verbose : bool)
  : M (Env W) (list CreatedIssue) :=
  if negb (truthy (teamId (config m))) then
    when verbose
      (console_log "⚠️  No hay equipo configurado. Usa: node index.js monitor setup") ;;;
    ret []
  else if negb (isConfigured (linear m)) then
    when verbose (console_log "⚠️  Linear no está configurado.") ;;;
    ret []
  else
    for_of issues (sendAlert m verbose) [].

(** What [monitor] returns, together with the updated [this]. *)
Record MonitorOutput := mkMonitorOutput {
  mo_results : list CheckResult;
  mo_alerts : list CreatedIssue;
}.

Definition monitor (m : Monitor) (verbose : bool)
  : M (Env W) (Monitor * MonitorOutput) :=
  r <- runChecks m verbose ;;
  let '(m, out) := r in
  if (0 <? length (newIssues out))%nat then
    when verbose
      (console_log (nl +:+ "🚨 " +:+ pretty (length (newIssues out))
                    +:+ " nueva(s) alerta(s) detectada(s):")) ;;;
    created <- sendAlerts m (newIssues out) verbose ;;
    ret (m, mkMonitorOutput (out_results out) created)
  else
    when verbose (console_log (nl +:+ "✅ Todo OK, sin alertas nuevas.")) ;;;
    ret (m, mkMonitorOutput (out_results out) []).

End MonitorMethods.

(* ===================================================================== *)
(** * A scripted host, for running the definitions on concrete inputs *)
(* ===================================================================== *)

Module Sample.

(** A world with a clock that advances by one second at every reading,
    fixed answers from the network and an in-memory file system. *)
Record World := mkWorld {
  time : Z;
  http : string -> Result Z;
  tls : string -> Result PeerCertificate;
  tracker : IssueCreateInput -> Result GraphQLResponse;
  files : list (string * string);
}.

(** The host name of [scheme://host/path]: what lies between the first
    [//] and the next [/]. *)
Fixpoint upto_slash (s : string) : string :=
  match s with
  | EmptyString => EmptyString
  | String c s' => if Ascii.eqb c "/" then EmptyString else String c (upto_slash s')
  end.

Fixpoint after_slashes (s : string) : string :=
  match s with
  | String "/" (String "/" rest) => rest
  | String _ s' => after_slashes s'
  | EmptyString => EmptyString
  end.

(** Seconds with one decimal, rounded half up. *)
Definition fixed1 (millis : Z) : string :=
  let tenths := (millis + 50) / 100 in
  pretty (tenths / 10) +:+ "." +:+ pretty (tenths mod 10).

Definition pad2 (n : Z) : string :=
  if n <? 10 then "0" +:+ pretty n else pretty n.

Definition pad3 (n : Z) : string :=
  if n <? 10 then "00" +:+ pretty n
  else if n <? 100 then "0" +:+ pretty n else pretty n.

(** Year, month and day of a day count since 1970-01-01 (proleptic
    Gregorian calendar). *)
Definition civil (days : Z) : Z * Z * Z :=
  let z := days + 719468 in
  let era := z / 146097 in
  let doe := z - era * 146097 in
  let yoe := (doe - doe / 1460 + doe / 36524 - doe / 146096) / 365 in
  let doy := doe - (365 * yoe + yoe / 4 - yoe / 100) in
  let mp := (5 * doy + 2) / 153 in
  let d := doy - (153 * mp + 2) / 5 + 1 in
  let m := if mp <? 10 then mp + 3 else mp - 9 in
  let y := yoe + era * 400 + (if m <=? 2 then 1 else 0) in
  (y, m, d).

(** [d/M/yyyy], the es-ES date in UTC. *)
Definition date_esES (t : Z) : string :=
  let '(y, m, d) := civil (t / DAY) in
  pretty d +:+ "/" +:+ pretty m +:+ "/" +:+ pretty y.

(** [d/M/yyyy, H:mm:ss], the es-ES date and time in UTC. *)
Definition datetime_esES (t : Z) : string :=
  let s := (t mod DAY) / 1000 in
  date_esES t +:+ ", " +:+ pretty (s / 3600) +:+ ":" +:+
  pad2 ((s / 60) mod 60) +:+ ":" +:+ pad2 (s mod 60).

(** [yyyy-MM-ddTHH:mm:ss.sssZ] for years 1000 to 9999. *)
Definition datetime_ISO (t : Z) : string :=
  let '(y, m, d) := civil (t / DAY) in
  let s := (t mod DAY) / 1000 in
  pretty y +:+ "-" +:+ pad2 m +:+ "-" +:+ pad2 d +:+ "T" +:+
  pad2 (s / 3600) +:+ ":" +:+ pad2 ((s / 60) mod 60) +:+ ":" +:+
  pad2 (s mod 60) +:+ "." +:+ pad3 (t mod 1000) +:+ "Z".

(** The host runs in UTC with es-ES as its default locale. *)
#[global] Instance host : Host World := {|
  Date_now := fun w =>
    (time w, mkWorld (time w + 1000) (http w) (tls w) (tracker w) (files w));
  toLocaleString_esES := datetime_esES;
  toLocaleString := datetime_esES;
  toLocaleDateString := date_esES;
  toISOString := datetime_ISO;
  seconds_toFixed1 := fixed1;
  hostname := fun u => upto_slash (after_slashes u);
|}.

(** The host parses URLs of the forms [https://...] and [http://...]. *)
Definition canParse (u : string) : bool :=
  startsWith "https://" u || startsWith "http://" u.

(** A decimal number. *)
Fixpoint decimal (s : string) (acc : Z) : Z :=
  match s with
  | EmptyString => acc
  | String c s' => decimal s' (10 * acc + (Z.of_nat (nat_of_ascii c) - 48))
  end.

(** The state file is written in a length-prefixed text form that reads
    back: a stand-in for JSON that keeps every field of the state. A
    string is written as its length, a colon and its text; a list as its
    length, a semicolon and its items. *)
Definition put_string (s : string) : string :=
  pretty (String.length s) +:+ ":" +:+ s.

Definition put_list {A} (put : A -> string) (l : list A) : string :=
  pretty (length l) +:+ ";" +:+ concat_map put l.

Definition put_state (s : MonitorState) : string :=
  put_list put_string (option_list (lastCheck s)) +:+
  put_list (fun kv => put_string (fst kv) +:+ put_string (pretty (snd kv)))
    (map_to_list (alerts s)) +:+
  put_list (fun h =>
      put_string (timestamp h) +:+
      put_list (fun p => put_string (fst p) +:+ put_string (snd p)) (h_results h))
    (history s).

Fixpoint get_count (stop : ascii) (acc : nat) (s : string) : option (nat * string) :=
  match s with
  | EmptyString => None
  | String c s' =>
      if Ascii.eqb c stop then Some (acc, s')
      else if ((48 <=? nat_of_ascii c) && (nat_of_ascii c <=? 57))%nat
           then get_count stop (10 * acc + (nat_of_ascii c - 48))%nat s'
           else None
  end.

Fixpoint take_chars (n : nat) (s : string) : option (string * string) :=
  match n, s with
  | O, _ => Some (EmptyString, s)
  | S _, EmptyString => None
  | S n', String c s' =>
      match take_chars n' s' with
      | Some (t, rest) => Some (String c t, rest)
      | None => None
      end
  end.

Definition get_string (s : string) : option (string * string) :=
  match get_count ":" 0 s with
  | Some (n, rest) => take_chars n rest
  | None => None
  end.

Fixpoint get_items {A} (get : string -> option (A * string)) (n : nat)
    (s : string) : option (list A * string) :=
  match n with
  | O => Some ([], s)
  | S n' =>
      match get s with
      | Some (x, rest) =>
          match get_items get n' rest with
          | Some (xs, rest') => Some (x :: xs, rest')
          | None => None
          end
      | None => None
      end
  end.

Definition get_list {A} (get : string -> option (A * string)) (s : string)
  : option (list A * string) :=
  match get_count ";" 0 s with
  | Some (n, rest) => get_items get n rest
  | None => None
  end.

Definition get_pair {A B} (get1 : string -> option (A * string))
    (get2 : string -> option (B * string)) (s : string)
  : option ((A * B) * string) :=
  match get1 s with
  | Some (a, rest) =>
      match get2 rest with
      | Some (b, rest') => Some ((a, b), rest')
      | None => None
      end
  | None => None
  end.

Definition get_Z (s : string) : option (Z * string) :=
  match get_string s with
  | Some (String "-" digits, rest) => Some (- decimal digits 0, rest)
  | Some (digits, rest) => Some (decimal digits 0, rest)
  | None => None
  end.

Definition get_entry (s : string) : option (HistoryEntry * string) :=
  match get_pair get_string (get_list (get_pair get_string get_string)) s with
  | Some ((t, rs), rest) => Some (mkHistoryEntry t rs, rest)
  | None => None
  end.

Definition get_state (text : string) : Result MonitorState :=
  match get_list get_string text with
  | Some (last, rest) =>
      match get_list (get_pair get_string get_Z) rest with
      | Some (ledger, rest') =>
          match get_list get_entry rest' with
          | Some (entries, EmptyString) =>
              Ok {| lastCheck := head last;
                    alerts := list_to_map ledger;
                    history := entries |}
          | _ => Throw (mkError "Unexpected token in JSON")
          end
      | None => Throw (mkError "Unexpected token in JSON")
      end
  | None => Throw (mkError "Unexpected token in JSON")
  end.

(** A request for a URL that does not parse is rejected before anything
    is sent. The config file holds the text ["config"] when it was
    written by the monitor; any other text does not parse. *)
#[global] Instance monitor_host : MonitorHost World := {|
  axios_get := fun u w =>
    if canParse u then (http w u, w) else (Throw (mkError "Invalid URL"), w);
  tls_handshake := fun u w =>
    if canParse u then (tls w u, w) else (Throw (mkError "Invalid URL"), w);
  axios_post := fun key input w => (tracker w input, w);
  fs_existsSync := fun path w => bool_decide (is_Some (assoc path (files w)));
  fs_readFileSync := fun path w =>
    match assoc path (files w) with
    | Some text => Ok text
    | None => Throw (mkError "ENOENT: no such file or directory")
    end;
  fs_writeFileSync := fun path text w =>
    mkWorld (time w) (http w) (tls w) (tracker w) ((path, text) :: files w);
  JSON_parse_config := fun text =>
    if String.eqb text "config" then Ok default_config
    else Throw (mkError "Unexpected token in JSON");
  JSON_parse_state := get_state;
  JSON_parse_apiKey := fun text =>
    if String.eqb text "{}" then Ok None
    else Throw (mkError "Unexpected token in JSON");
  JSON_stringify_config := fun _ => "config";
  JSON_stringify_state := put_state;
  URL_canParse := canParse;
|}.

(** A world where every site answers 200, no TLS peer answers, the tracker
    is unreachable and no file exists. *)
Definition quiet_world (t : Z) : World :=
  {| time := t;
     http := fun _ => Ok 200;
     tls := fun _ => Throw (mkError "ECONNREFUSED");
     tracker := fun _ => Throw (mkError "Network Error");
     files := [] |}.

(** The same world, except that every site answers with [status]. *)
Definition answering (status : Z) (t : Z) : World :=
  {| time := t;
     http := fun _ => Ok status;
     tls := fun _ => Throw (mkError "ECONNREFUSED");
     tracker := fun _ => Throw (mkError "Network Error");
     files := [] |}.

Definition env0 (w : World) : Env World := mkEnv w [].

(** A monitor of one URL, with a team and an API key configured. *)
Definition configured (alerts : gmap string Z) : Monitor :=
  {| config :=
       {| urls := ["https://example.com/"];
          teamId := Some "team-1";
          assigneeId := DEFAULT_ASSIGNEE;
          checks := checks default_config;
          thresholds := thresholds default_config |};
     state := {| lastCheck := None; alerts := alerts; history := [] |};
     linear := mkLinearClient (Some "lin_api_key") |}.

(** The issue [checkUrl] raises for a 503 from example.com. *)
Definition issue503 : Issue :=
  {| type := "critical";
     title := "🔴 ERROR 503 en example.com";
     i_description := "";
     priority := 1 |}.

(** A probe that returns the given findings under the given name. *)
Definition returning (nm : string) (fs : list Finding) : Probe World :=
  fun _ _ w => (Ok (mkCategoryResults nm fs), [], w).

(** A probe that throws. *)
Definition throwing (msg : string) : Probe World :=
  fun _ _ w => (Throw (mkError msg), [], w).

Definition finding (nm st : string) (sev rec : option string) : Finding :=
  {| name := nm; status := st; value := VString "v"; details := "d";
     severity := sev; recommendation := rec |}.

(** The registry's probes; [testRedirects] fails with an exception. *)
Definition probes : Probes World :=
  {| testHttpResponse :=
       returning "Respuesta HTTP" [finding "Código de Estado" "pass" (Some "info") None];
     testRedirects := throwing "socket hang up";
     testSSL :=
       returning "SSL/TLS" [finding "Certificado" "fail" (Some "critical") (Some "Renovar")];
     testSecurityHeaders := returning "Headers" [];
     testCookieSecurity := returning "Cookies" [];
     testCORS := returning "CORS" [];
     testWithBrowser := returning "Navegador" [];
     testPerformance := returning "Rendimiento" [];
     testResponsive := returning "Diseño Responsive" [];
     takeScreenshots := returning "Screenshots" [] |}.

End Sample.

(* ===================================================================== *)
(** * Specification vocabulary for the scan *)
(* ===================================================================== *)

Section ScanSpec.
Context {W : Type}.

(** The probes of the given categories, category by category and in
    registry order within each: the calls a scan is expected to make. *)
Definition planned (registry : list (string * Category W)) (categories : list string)
  : list (Probe W) :=
  flat_map (fun key =>
    match assoc key registry with
    | Some c => cat_tests c
    | None => []
    end) categories.

(** Calling the probes of a plan one after the other: the outcome of each
    call, and the world left behind. *)
Fixpoint probe_outcomes (u : string) (logger : Logger) (plan : list (Probe W))
    (w : W) : list (Result CategoryResults) * W :=
  match plan with
  | [] => ([], w)
  | testFn :: plan' =>
      let '(r, _, w') := testFn u logger w in
      let '(rs, w'') := probe_outcomes u logger plan' w' in
      (r :: rs, w'')
  end.

(** The values of the calls that did not throw, in call order. *)
Definition returned {A} (outcomes : list (Result A)) : list A :=
  omap (fun r => match r with Ok a => Some a | Throw _ => None end) outcomes.

(** The line [runTests] prints for a probe that threw. *)
Definition error_line (err : Error) : string :=
  "✗ Error en test: " +:+ message err.

End ScanSpec.

Section ReporterSpec.

(** A reporter after [rs] were added, in that order, by [addResults]. *)
Definition addAllResults (rs : list CategoryResults) (r : Reporter) : Reporter :=
  {| results := results r ++ rs; url := url r;
     startTime := startTime r; endTime := endTime r |}.

End ReporterSpec.

(* ===================================================================== *)
(** * Specification vocabulary for the report *)
(* ===================================================================== *)

Section RankSpec.
Context {A : Type}.
Variable rank : A -> option Z.

(** A comparator of the shape [(a, b) => rank[a] - rank[b]], where a
    missing rank makes the difference [NaN]. *)
Definition byRank (a b : A) : option Z :=
  match rank a, rank b with
  | Some x, Some y => Some (x - y)
  | _, _ => None
  end.

Definition ranked (x : A) : Prop := is_Some (rank x).
Definition rk (x : A) : Z := default 4 (rank x).
Definition rank_le (x y : A) : Prop := rk x <= rk y.
Definition rank_is (k : Z) (x : A) : bool := bool_decide (rank x = Some k).

End RankSpec.

Section ReportSpec.

(** Every finding of the report, category by category. *)
Definition allFindings (r : Reporter) : list Finding :=
  flat_map tests (results r).

(** The same finding with another severity. *)
Definition setSeverity (sev : option string) (t : Finding) : Finding :=
  {| name := name t; status := status t; value := value t;
     details := details t; severity := sev;
     recommendation := recommendation t |}.

(** The same report with every finding's severity replaced by [f]. *)
Definition mapSeverity (f : Finding -> option string) (r : Reporter) : Reporter :=
  {| results :=
       map (fun c => mkCategoryResults (cr_name c)
                       (map (fun t => setSeverity (f t) t) (tests c)))
           (results r);
     url := url r; startTime := startTime r; endTime := endTime r |}.

(** [test.status === 'pass']. *)
Definition is_pass (t : Finding) : bool := String.eqb (status t) "pass".

(** The recommendation entry made from a finding. *)
Definition toRecommendation (t : Finding) : Recommendation :=
  mkRecommendation (severity t) (name t) (default "" (recommendation t)).

(** The rank the sort gives an entry, when its severity has one. *)
Definition rankOf (x : Recommendation) : option Z :=
  severityOrder (rec_severity x).

Definition has_rank (k : Z) (x : Recommendation) : bool :=
  bool_decide (rankOf x = Some k).

(** The ranking as the claim words it: critical, high, medium, low, and
    then info together with entries that name no (known) severity. *)
Definition claimed_rank (x : Recommendation) : Z :=
  default 4 (rankOf x).

End ReportSpec.

(* ===================================================================== *)
(** * Specification vocabulary for the monitor *)
(* ===================================================================== *)

Section MonitorSpec.
Context {W : Type} `{Host W} `{MonitorHost W}.

(** A persisted file that cannot be used: it is missing, cannot be read,
    or its text does not parse. *)
Definition unusable {A} (parse : string -> Result A) (path : string) (w : W) : Prop :=
  fs_existsSync path w = false
  \/ (exists err, fs_readFileSync path w = Throw err)
  \/ (exists text err, fs_readFileSync path w = Ok text /\ parse text = Throw err).

(** The condition of the claim for an issue to be new: no entry under its
    key, or more than four hours since the stored time. *)
Definition due (lastAlert : option Z) (now : Z) : Prop :=
  lastAlert = None
  \/ exists t, lastAlert = Some t /\ 4 * 60 * 60 * 1000 < now - t.

(** The status rule in the order the claim states it. *)
Definition claimed_status (issues : list Issue) : string :=
  if existsb (fun i => String.eqb (type i) "critical") issues then "critical"
  else match issues with
       | _ :: _ => "warning"
       | [] => "ok"
       end.

(** [n] monitoring cycles, one after the other, on the same monitor. *)
Fixpoint cycles (n : nat) (m : Monitor) (verbose : bool) : M (Env W) Monitor :=
  match n with
  | O => ret m
  | S n' =>
      r <- runChecks m verbose ;;
      cycles n' (fst r) verbose
  end.

(** The variables [sendAlerts] sends for an issue. *)
Definition alertInput (m : Monitor) (i : UrlIssue) : IssueCreateInput :=
  {| in_teamId := default "" (teamId (config m));
     in_title := title (issue i);
     in_description :=
       i_description (issue i) +:+ nl +:+ nl +:+ "---" +:+ nl +:+
       "*Alerta automática de ZTEST Monitor*";
     in_priority := priority (issue i);
     in_assigneeId := assigneeId (config m) |}.

(** Posting the issues of a batch one after the other: the outcome of each
    request, and the world left behind. *)
Fixpoint post_outcomes (m : Monitor) (batch : list UrlIssue) (w : W)
  : list (Result GraphQLResponse) * W :=
  match batch with
  | [] => ([], w)
  | i :: batch' =>
      let '(r, w') := axios_post (default "" (apiKey (linear m))) (alertInput m i) w in
      let '(rs, w'') := post_outcomes m batch' w' in
      (r :: rs, w'')
  end.

(** The issue a request created, if it did. *)
Definition created_by (outcome : Result GraphQLResponse) : option CreatedIssue :=
  match outcome with
  | Ok {| errors := None; issueCreate := Some payload |} =>
      if success payload then Some (created payload) else None
  | _ => None
  end.

(** The error [sendAlerts] catches for a request that did not go through,
    if any. *)
Definition dispatch_error (outcome : Result GraphQLResponse) : option Error :=
  match outcome with
  | Throw err => Some err
  | Ok {| errors := Some msg |} => Some (mkError msg)
  | Ok {| errors := None; issueCreate := None |} =>
      Some (mkError "Cannot read properties of null (reading 'success')")
  | Ok {| errors := None; issueCreate := Some _ |} => None
  end.

(** The lines [sendAlerts] prints for one request. *)
Definition alert_lines (verbose : bool) (outcome : Result GraphQLResponse)
  : list string :=
  if verbose then
    match dispatch_error outcome, created_by outcome with
    | Some err, _ => ["  ❌ Error enviando alerta: " +:+ message err]
    | None, Some c => ["  📨 Alerta enviada: " +:+ identifier c +:+ " → Gonzalo"]
    | None, None => []
    end
  else [].

End MonitorSpec.

(* ===================================================================== *)
(** * src/monitor.js: managing the configuration *)
(* ===================================================================== *)

(** [arr.indexOf(x)]: the first index holding [x], if any ([-1] in
    JavaScript when there is none). *)
Fixpoint indexOf (x : string) (arr : list string) : option nat :=
  match arr with
  | [] => None
  | y :: arr' =>
      if String.eqb x y then Some O
      else match indexOf x arr' with
           | Some i => Some (S i)
           | None => None
           end
  end.

(** [arr.splice(index, 1)]: the array without the element at [index]. *)
Fixpoint splice1 {A} (index : nat) (arr : list A) : list A :=
  match index, arr with
  | _, [] => []
  | O, _ :: arr' => arr'
  | S i, y :: arr' => y :: splice1 i arr'
  end.

(** [this.config.urls = urls]. *)
Definition setUrls (urls : list string) (m : Monitor) : Monitor :=
  mkMonitor
    (mkMonitorConfig urls (teamId (config m)) (assigneeId (config m))
       (checks (config m)) (thresholds (config m)))
    (state m) (linear m).

(** What [getStatus] returns. *)
Record Status := mkStatus {
  st_configured : bool;
  st_urls : list string;
  st_teamId : option string;
  st_assigneeId : string;
  st_lastCheck : option string;
  st_thresholds : Thresholds;
}.

Section MonitorConfigMethods.
Context {W : Type} `{Host W} `{MonitorHost W}.

Definition addUrl (u : string) (m : Monitor) : M (Env W) (bool * Monitor) :=
  if negb (includes (urls (config m)) u) then
    let m := setUrls (urls (config m) ++ [u]) m in
    saveConfig m ;;;
    ret (true, m)
  else ret (false, m).

Definition removeUrl (u : string) (m : Monitor) : M (Env W) (bool * Monitor) :=
  match indexOf u (urls (config m)) with
  | Some index =>
      let m := setUrls (splice1 index (urls (config m))) m in
      saveConfig m ;;;
      ret (true, m)
  | None => ret (false, m)
  end.

Definition setTeam (team : option string) (m : Monitor) : M (Env W) Monitor :=
  let m :=
    mkMonitor
      (mkMonitorConfig (urls (config m)) team (assigneeId (config m))
         (checks (config m)) (thresholds (config m)))
      (state m) (linear m) in
  saveConfig m ;;;
  ret m.

Definition setAssignee (assignee : string) (m : Monitor) : M (Env W) Monitor :=
  let m :=
    mkMonitor
      (mkMonitorConfig (urls (config m)) (teamId (config m)) assignee
         (checks (config m)) (thresholds (config m)))
      (state m) (linear m) in
  saveConfig m ;;;
  ret m.

(** [configured: this.config.urls.length > 0 && this.config.teamId],
    taken as a condition. *)
Definition getStatus (m : Monitor) : Status :=
  {| st_configured :=
       (0 <? length (urls (config m)))%nat && truthy (teamId (config m));
     st_urls := urls (config m);
     st_teamId := teamId (config m);
     st_assigneeId := assigneeId (config m);
     st_lastCheck := lastCheck (state m);
     st_thresholds := thresholds (config m) |}.

End MonitorConfigMethods.

(* ===================================================================== *)
(** * Specification vocabulary for the monitor's extras *)
(* ===================================================================== *)

Section MonitorExtraSpec.
Context {W : Type} `{Host W} `{MonitorHost W}.

(** The host's files behave like files for the state document: what is
    written under [STATE_PATH] exists and is read back, and the state's
    JSON text parses back to the state. *)
Definition state_file_faithful (s : MonitorState) (w : W) : Prop :=
  let w' := fs_writeFileSync STATE_PATH (JSON_stringify_state s) w in
  fs_existsSync STATE_PATH w' = true
  /\ fs_readFileSync STATE_PATH w' = Ok (JSON_stringify_state s)
  /\ JSON_parse_state (JSON_stringify_state s) = Ok s.

(** The type and priority of each issue, in order. *)
Definition kinds (issues : list Issue) : list (string * Z) :=
  map (fun i => (type i, priority i)) issues.

(** Every issue of a cycle's results, tagged with its URL, in the order
    in which the cycle meets them. *)
Definition producedIssues (results : list CheckResult) : list UrlIssue :=
  flat_map (fun r => map (fun i => mkUrlIssue i (r_url r)) (issues r)) results.

(** The HTTP part of [checkUrl], with its guard. *)
Definition httpBlock (cfg : MonitorConfig) (u : string)
  : M (Env W) (list Issue * CheckValues) :=
  if httpStatus (checks cfg) then httpStatusCheck cfg u
  else ret ([], mkCheckValues None None None None).

(** Every configured URL parses. [addUrl] does not check this. *)
Definition parsable (m : Monitor) : Prop :=
  Forall (fun u => URL_canParse u = true) (urls (config m)).

(** [observes w w']: the world [w'] is reached from [w] by reading the
    clock, by HTTP requests and by TLS handshakes, and by nothing else: no
    file was written and nothing was posted to the tracker. *)
Inductive observes : W -> W -> Prop :=
| observes_refl w : observes w w
| observes_clock w w' : observes w w' -> observes w (snd (Date_now w'))
| observes_get u w w' : observes w w' -> observes w (snd (axios_get u w'))
| observes_tls u w w' : observes w w' -> observes w (snd (tls_handshake u w')).

(** A computation that only observes the world, whether it returns or
    throws. *)
Definition tracks {A} (c : M (Env W) A) : Prop :=
  forall e r e', c e = (r, e') -> observes (world e) (world e').

(** [reading w now]: [now] was read from the clock in a world reached
    from [w]. *)
Definition reading (w : W) (now : Z) : Prop :=
  exists w', observes w w' /\ now = fst (Date_now w').

(** The dedup key as the claim words it: URL, type and title. *)
Definition claimed_key (ui : UrlIssue) : string :=
  i_url ui +:+ "-" +:+ type (issue ui) +:+ "-" +:+ title (issue ui).

(** The dedup rule applied to the issues of a cycle, in the order in
    which they are produced, starting from a ledger: an issue that is
    [fresh] at the clock reading [now] joins the batch and its key's
    timestamp becomes [now]; any other issue is suppressed and leaves the
    ledger alone. *)
Inductive dedup_run (fresh : option Z -> Z -> Prop) (w0 : W)
  : gmap string Z -> list UrlIssue -> list UrlIssue -> gmap string Z -> Prop :=
| dedup_done ledger : dedup_run fresh w0 ledger [] [] ledger
| dedup_include ledger ui produced batch ledger' now :
    reading w0 now ->
    fresh (ledger !! claimed_key ui) now ->
    dedup_run fresh w0 (<[claimed_key ui := now]> ledger) produced batch ledger' ->
    dedup_run fresh w0 ledger (ui :: produced) (ui :: batch) ledger'
| dedup_suppress ledger ui produced batch ledger' now :
    reading w0 now ->
    ~ fresh (ledger !! claimed_key ui) now ->
    dedup_run fresh w0 ledger produced batch ledger' ->
    dedup_run fresh w0 ledger (ui :: produced) batch ledger'.

(** Freshness as the code evaluates it. *)
Definition code_fresh (lastAlert : option Z) (now : Z) : Prop :=
  isNewAlert lastAlert now = true.

End MonitorExtraSpec.

(* ===================================================================== *)
(** * The probes that need no browser: src/tests/httpTests.js,
      src/tests/securityTests.js and src/tests/sslTests.js *)
(* ===================================================================== *)

(** The double-quote character, as a string. *)
Definition dquote : string := String (ascii_of_nat 34) EmptyString.

(** [hay.includes(needle)] for strings. *)
Fixpoint String_includes (needle hay : string) : bool :=
  startsWith needle hay ||
  match hay with
  | EmptyString => false
  | String _ hay' => String_includes needle hay'
  end.

(** [s.toLowerCase()] on ASCII letters. Header values and cookie strings
    are ASCII; the flags looked for contain no letter that a non-ASCII
    character lowers to. *)
Definition lower_char (c : ascii) : ascii :=
  let n := nat_of_ascii c in
  if ((65 <=? n) && (n <=? 90))%nat then ascii_of_nat (n + 32) else c.

Fixpoint toLowerCase (s : string) : string :=
  match s with
  | EmptyString => EmptyString
  | String c s' => String (lower_char c) (toLowerCase s')
  end.

(** [arr.join(sep)]. *)
Fixpoint join (sep : string) (arr : list string) : string :=
  match arr with
  | [] => ""
  | x :: arr' =>
      match arr' with
      | [] => x
      | _ :: _ => x +:+ sep +:+ join sep arr'
      end
  end.

(** [s.split(', ').length]: one more than the number of separators. The
    two characters of the separator differ, so matches cannot overlap. *)
Fixpoint split_comma_space_length (s : string) : nat :=
  match s with
  | EmptyString => 1
  | String _ s' =>
      ((if startsWith ", " s then 1 else 0) + split_comma_space_length s')%nat
  end.

(** [a || b] for values that are strings or absent. *)
Definition or_opt (a b : option string) : option string :=
  if truthy a then a else b.

(** [a || 'fallback']. *)
Definition or_else (a : option string) (fallback : string) : string :=
  if truthy a then default "" a else fallback.

(** The options handed to [axios.get] that differ between the probes. *)
Record Request := mkRequest {
  req_url : string;
  req_timeout : option Z;
  req_maxRedirects : option Z;
  req_headers : list (string * string);
}.

(** What the probes read of an axios response: the status, the headers
    (lower-case names, string values), [headers['set-cookie']] (which Node
    delivers as an array, when present) and the [href]s the
    [beforeRedirect] hook was called with, in order. *)
Record Response := mkResponse {
  resp_status : Z;
  resp_headers : list (string * string);
  resp_set_cookie : option (list string);
  resp_redirects : list string;
}.

(** [response.headers[name]] for the literal names the probes use. *)
Definition header (response : Response) (name : string) : option string :=
  assoc name (resp_headers response).

(** What [testSSL] reads of [new URL(url)]. *)
Record UrlObj := mkUrlObj {
  url_protocol : string;
  url_hostname : string;
  url_port : string;
}.

(** What [testSSL] reads of the peer certificate: [issuer] (its [O] and
    [CN]), [valid_to] and [subjectaltname]. *)
Record Certificate := mkCertificate {
  c_issuer : option (option string * option string);
  c_valid_to : option string;
  c_subjectaltname : option string;
}.

(** The object the handshake promise of [testSSL] resolves to;
    [s_protocol] is [None] for [null], [s_cipher] holds [cipher.name]. *)
Record TlsSession := mkTlsSession {
  s_cert : Certificate;
  s_authorized : bool;
  s_authorizationError : string;
  s_protocol : option string;
  s_cipher : option string;
}.

(** The probes' view of the host: HTTP requests, URL parsing, the TLS
    handshake (it throws on [error] and on the 10 s timeout) and the
    parsing of a certificate date into epoch milliseconds. *)
Class ProbeHost (W : Type) := {
  axios_request : Request -> W -> Result Response * W;
  new_URL : string -> Result UrlObj;
  https_request : string -> string -> W -> Result TlsSession * W;
  Date_parse : string -> Z;
}.

Module Tests.

(* --------------------------------------------------------------------- *)
(** ** src/tests/httpTests.js *)
(* --------------------------------------------------------------------- *)

(** The findings pushed in the [try] block of [testHttpResponse]. *)
Definition httpResponseTests (response : Response) (responseTime : Z)
  : list Finding :=
  let statusOk := (200 <=? resp_status response) && (resp_status response <? 400) in
  let timeOk := responseTime <? 3000 in
  let contentType := or_else (header response "content-type") "No especificado" in
  let serverHeader := header response "server" in
  let poweredBy := header response "x-powered-by" in
  [ {| name := "Código de Estado";
       status := if statusOk then "pass" else "fail";
       value := VNumber (resp_status response);
       details :=
         if statusOk
         then "El servidor respondió con código " +:+
              pretty (resp_status response) +:+ " (OK)"
         else "El servidor respondió con código " +:+
              pretty (resp_status response) +:+ " - Posible problema";
       severity := Some (if statusOk then "info" else "high");
       recommendation := None |};
    {| name := "Tiempo de Respuesta";
       status := if timeOk then "pass" else "warning";
       value := VString (pretty responseTime +:+ "ms");
       details :=
         if timeOk
         then "Respuesta en " +:+ pretty responseTime +:+ "ms - Buen rendimiento"
         else "Respuesta en " +:+ pretty responseTime +:+
              "ms - Considerar optimización";
       severity := Some (if timeOk then "info" else "medium");
       recommendation := None |};
    {| name := "Content-Type";
       status := if String_includes "text/html" contentType then "pass" else "info";
       value := VString contentType;
       details := "El servidor devuelve: " +:+ contentType;
       severity := Some "info";
       recommendation := None |} ]
  ++ (if truthy serverHeader then
        [ {| name := "Header Server Expuesto";
             status := "warning";
             value := VString (default "" serverHeader);
             details :=
               "El servidor expone su versión: " +:+ dquote +:+
               default "" serverHeader +:+ dquote +:+
               " - Esto puede ayudar a atacantes a encontrar vulnerabilidades conocidas";
             severity := Some "low";
             recommendation :=
               Some "Considerar ocultar o modificar el header Server" |} ]
      else [])
  ++ (if truthy poweredBy then
        [ {| name := "X-Powered-By Expuesto";
             status := "warning";
             value := VString (default "" poweredBy);
             details :=
               "Tecnología expuesta: " +:+ dquote +:+ default "" poweredBy +:+
               dquote +:+ " - Revela información del stack tecnológico";
             severity := Some "low";
             recommendation :=
               Some "Eliminar el header X-Powered-By en producción" |} ]
      else []).

(** The findings pushed in the [try] block of [testRedirects]. *)
Definition redirectTests (u : string) (redirects : list string) : list Finding :=
  if (0 <? length redirects)%nat then
    [ {| name := "Cadena de Redirecciones";
         status := "info";
         value := VString (pretty (length redirects) +:+ " redirección(es)");
         details := "Redirecciones: " +:+ join " → " redirects;
         severity := Some "info";
         recommendation := None |} ]
    ++ (if startsWith "http://" u && existsb (startsWith "https://") redirects
        then
          [ {| name := "Redirección HTTP→HTTPS";
               status := "pass";
               value := VString "Sí";
               details := "El sitio redirige correctamente de HTTP a HTTPS";
               severity := Some "info";
               recommendation := None |} ]
        else [])
  else
    [ {| name := "Redirecciones";
         status := "info";
         value := VString "Ninguna";
         details := "No hay redirecciones configuradas";
         severity := Some "info";
         recommendation := None |} ].

(* --------------------------------------------------------------------- *)
(** ** src/tests/securityTests.js *)
(* --------------------------------------------------------------------- *)

(** The findings [testSecurityHeaders] pushes, one definition for each
    [push], in the order of the source. *)
Definition cspTest (response : Response) : Finding :=
  let csp := header response "content-security-policy" in
  {| name := "Content-Security-Policy (CSP)";
     status := if truthy csp then "pass" else "fail";
     value := VString (if truthy csp then "Configurado" else "No configurado");
     details :=
       if truthy csp
       then "CSP configurado: " +:+ dquote +:+
            substring0 100 (default "" csp) +:+
            (if (100 <? length_utf16 (default "" csp))%nat then "..." else "") +:+
            dquote
       else "No hay Content-Security-Policy - El sitio es vulnerable a ataques XSS";
     severity := Some (if truthy csp then "info" else "high");
     recommendation :=
       if truthy csp then None
       else Some "Implementar Content-Security-Policy para prevenir XSS" |}.

Definition xfoTest (response : Response) : Finding :=
  let xfo := header response "x-frame-options" in
  {| name := "X-Frame-Options";
     status := if truthy xfo then "pass" else "warning";
     value := VString (or_else xfo "No configurado");
     details :=
       if truthy xfo
       then "Protección contra clickjacking: " +:+ default "" xfo
       else "Sin protección contra clickjacking - El sitio puede ser embebido en iframes maliciosos";
     severity := Some (if truthy xfo then "info" else "medium");
     recommendation :=
       if truthy xfo then None
       else Some "Agregar header X-Frame-Options: DENY o SAMEORIGIN" |}.

Definition xctoTest (response : Response) : Finding :=
  let xcto := header response "x-content-type-options" in
  {| name := "X-Content-Type-Options";
     status := if str_is xcto "nosniff" then "pass" else "warning";
     value := VString (or_else xcto "No configurado");
     details :=
       if str_is xcto "nosniff"
       then "Protección contra MIME sniffing activada"
       else "Sin protección contra MIME sniffing - Riesgo de ataques de tipo MIME";
     severity := Some (if str_is xcto "nosniff" then "info" else "low");
     recommendation :=
       if str_is xcto "nosniff" then None
       else Some "Agregar header X-Content-Type-Options: nosniff" |}.

(** The HSTS findings, pushed for [https://] URLs only. *)
Definition hstsTests (u : string) (response : Response) : list Finding :=
  let hsts := header response "strict-transport-security" in
  if startsWith "https://" u then
    [ {| name := "Strict-Transport-Security (HSTS)";
         status := if truthy hsts then "pass" else "warning";
         value := VString (if truthy hsts then "Configurado" else "No configurado");
         details :=
           if truthy hsts
           then "HSTS activado: " +:+ default "" hsts
           else "Sin HSTS - Los usuarios pueden ser víctimas de ataques de downgrade";
         severity := Some (if truthy hsts then "info" else "medium");
         recommendation :=
           if truthy hsts then None
           else Some "Agregar header Strict-Transport-Security con max-age apropiado" |} ]
    ++ (if truthy hsts then
          let hasPreload := String_includes "preload" (default "" hsts) in
          let hasSubdomains :=
            String_includes "includeSubDomains" (default "" hsts) in
          if negb hasPreload || negb hasSubdomains then
            [ {| name := "HSTS Configuración Completa";
                 status := "info";
                 value :=
                   VString ("preload: " +:+ (if hasPreload then "Sí" else "No") +:+
                            ", includeSubDomains: " +:+
                            (if hasSubdomains then "Sí" else "No"));
                 details :=
                   "Considerar agregar preload e includeSubDomains para máxima protección";
                 severity := Some "info";
                 recommendation := None |} ]
          else []
        else [])
  else [].

Definition xxssTest (response : Response) : Finding :=
  let xxss := header response "x-xss-protection" in
  {| name := "X-XSS-Protection";
     status := if truthy xxss then "info" else "info";
     value := VString (or_else xxss "No configurado");
     details :=
       if truthy xxss
       then "Configurado: " +:+ default "" xxss +:+
            " (Nota: Este header está deprecado, usar CSP en su lugar)"
       else "No configurado (Este header está deprecado, CSP es la solución moderna)";
     severity := Some "info";
     recommendation := None |}.

Definition referrerTest (response : Response) : Finding :=
  let referrer := header response "referrer-policy" in
  {| name := "Referrer-Policy";
     status := if truthy referrer then "pass" else "info";
     value := VString (or_else referrer "No configurado");
     details :=
       if truthy referrer
       then "Política de referrer: " +:+ default "" referrer
       else "Sin Referrer-Policy - Puede filtrar información de URLs a sitios externos";
     severity := Some (if truthy referrer then "info" else "low");
     recommendation :=
       if truthy referrer then None
       else Some "Considerar agregar Referrer-Policy: strict-origin-when-cross-origin" |}.

Definition permissionsTest (response : Response) : Finding :=
  let permissions :=
    or_opt (header response "permissions-policy")
           (header response "feature-policy") in
  {| name := "Permissions-Policy";
     status := if truthy permissions then "pass" else "info";
     value :=
       VString (if truthy permissions then "Configurado" else "No configurado");
     details :=
       if truthy permissions
       then "Política de permisos configurada"
       else "Sin Permissions-Policy - Considerar restringir acceso a APIs del navegador";
     severity := Some "info";
     recommendation :=
       if truthy permissions then None
       else Some "Considerar agregar Permissions-Policy para restringir features del navegador" |}.

Definition cacheControlTest (response : Response) : Finding :=
  let cacheControl := header response "cache-control" in
  {| name := "Cache-Control";
     status := "info";
     value := VString (or_else cacheControl "No configurado");
     details :=
       if truthy cacheControl
       then "Configuración de caché: " +:+ default "" cacheControl
       else "Sin Cache-Control explícito";
     severity := Some "info";
     recommendation := None |}.

(** The findings pushed in the [try] block of [testSecurityHeaders]. *)
Definition securityHeaderTests (u : string) (response : Response)
  : list Finding :=
  [cspTest response; xfoTest response; xctoTest response]
  ++ hstsTests u response
  ++ [xxssTest response; referrerTest response; permissionsTest response;
      cacheControlTest response].

(** The flags [testCookieSecurity] looks for in a cookie. *)
Definition hasHttpOnly (cookie : string) : bool :=
  String_includes "httponly" (toLowerCase cookie).
Definition hasSecure (cookie : string) : bool :=
  String_includes "secure" (toLowerCase cookie).
Definition hasSameSite (cookie : string) : bool :=
  String_includes "samesite" (toLowerCase cookie).

(** The body of [cookies.forEach]: the finding pushed for one cookie. *)
Definition cookieTest (cookie : string) : Finding :=
  let cookieName := hd "" (split "="%char cookie) in
  let issues :=
    ((if negb (hasHttpOnly cookie) then ["Sin HttpOnly"] else []) ++
     (if negb (hasSecure cookie) then ["Sin Secure"] else []) ++
     (if negb (hasSameSite cookie) then ["Sin SameSite"] else []))%list in
  let isSecure := hasHttpOnly cookie && hasSecure cookie && hasSameSite cookie in
  {| name := "Cookie: " +:+ cookieName;
     status := if isSecure then "pass" else "warning";
     value := VString (if isSecure then "Segura" else join ", " issues);
     details :=
       if isSecure
       then "Cookie " +:+ dquote +:+ cookieName +:+ dquote +:+
            " tiene todas las flags de seguridad"
       else "Cookie " +:+ dquote +:+ cookieName +:+ dquote +:+
            " le faltan: " +:+ join ", " issues;
     severity := Some (if isSecure then "info" else "medium");
     recommendation :=
       if isSecure then None else Some ("Agregar flags: " +:+ join ", " issues) |}.

(** The findings pushed in the [try] block of [testCORS]. *)
Definition corsTests (response : Response) : list Finding :=
  let acao := header response "access-control-allow-origin" in
  let acac := header response "access-control-allow-credentials" in
  if negb (truthy acao) then
    [ {| name := "CORS Habilitado";
         status := "info";
         value := VString "No";
         details :=
           "CORS no está habilitado (lo cual está bien si no es una API pública)";
         severity := Some "info";
         recommendation := None |} ]
  else if str_is acao "*" then
    [ {| name := "CORS Abierto";
         status := "warning";
         value := VString "Access-Control-Allow-Origin: *";
         details :=
           "CORS permite cualquier origen - Verificar si esto es intencional";
         severity := Some "medium";
         recommendation :=
           Some "Si no es una API pública, restringir los orígenes permitidos" |} ]
    ++ (if str_is acac "true" then
          [ {| name := "CORS con Credenciales";
               status := "fail";
               value := VString "Configuración insegura";
               details :=
                 "CORS permite todos los orígenes Y credenciales - Esto es inseguro";
               severity := Some "high";
               recommendation :=
                 Some "No usar Access-Control-Allow-Credentials: true con origen comodín" |} ]
        else [])
  else if str_is acao "https://evil-site.com" then
    [ {| name := "CORS Refleja Origen";
         status := "fail";
         value := VString "Origen reflejado";
         details :=
           "El servidor refleja cualquier origen en ACAO - Vulnerabilidad de CORS";
         severity := Some "high";
         recommendation :=
           Some "Implementar una whitelist de orígenes permitidos" |} ]
  else
    [ {| name := "CORS Configurado";
         status := "pass";
         value := VString (default "" acao);
         details := "CORS permite origen específico: " +:+ default "" acao;
         severity := Some "info";
         recommendation := None |} ].

(* --------------------------------------------------------------------- *)
(** ** src/tests/sslTests.js *)
(* --------------------------------------------------------------------- *)

(** Interpolation of a value that is a string or [null]. *)
Definition show_null (v : option string) : string :=
  match v with
  | Some s => s
  | None => "null"
  end.

(** The finding pushed when the URL is not an https URL. *)
Definition httpsTest : Finding :=
  {| name := "HTTPS";
     status := "fail";
     value := VString "No";
     details := "El sitio no usa HTTPS - La conexión no está cifrada";
     severity := Some "critical";
     recommendation := Some "Implementar HTTPS con un certificado SSL válido" |}.

Definition validityTest (certificate : TlsSession) : Finding :=
  {| name := "Certificado Válido";
     status := if s_authorized certificate then "pass" else "fail";
     value := VString (if s_authorized certificate then "Sí" else "No");
     details :=
       if s_authorized certificate
       then "El certificado SSL es válido y confiable"
       else "Certificado no válido: " +:+ s_authorizationError certificate;
     severity := Some (if s_authorized certificate then "info" else "critical");
     recommendation :=
       if s_authorized certificate then None
       else Some "Renovar o reconfigurar el certificado SSL" |}.

Definition issuerTests (certificate : TlsSession) : list Finding :=
  match c_issuer (s_cert certificate) with
  | Some (org, cn) =>
      let issuer := or_else (or_opt org cn) "Desconocido" in
      [ {| name := "Emisor del Certificado";
           status := "info";
           value := VString issuer;
           details := "Certificado emitido por: " +:+ issuer;
           severity := Some "info";
           recommendation := None |} ]
  | None => []
  end.

Definition protocolTests (certificate : TlsSession) : list Finding :=
  if truthy (s_protocol certificate) then
    let protocol := default "" (s_protocol certificate) in
    let isSecure := includes ["TLSv1.2"; "TLSv1.3"] protocol in
    [ {| name := "Versión de Protocolo";
         status := if isSecure then "pass" else "warning";
         value := VString protocol;
         details :=
           if isSecure
           then "Usando " +:+ protocol +:+ " - Protocolo seguro"
           else "Usando " +:+ protocol +:+ " - Protocolo obsoleto";
         severity := Some (if isSecure then "info" else "medium");
         recommendation :=
           if isSecure then None else Some "Actualizar a TLS 1.2 o superior" |} ]
  else [].

Definition cipherTests (certificate : TlsSession) : list Finding :=
  match s_cipher certificate with
  | Some cipher_name =>
      let isWeak :=
        existsb (fun weak => String_includes weak (toUpperCase cipher_name))
          ["RC4"; "DES"; "3DES"; "MD5"] in
      [ {| name := "Suite de Cifrado";
           status := if isWeak then "warning" else "pass";
           value := VString cipher_name;
           details :=
             if isWeak
             then "Cifrado débil detectado: " +:+ cipher_name
             else "Cifrado seguro: " +:+ cipher_name;
           severity := Some (if isWeak then "medium" else "info");
           recommendation :=
             if isWeak
             then Some "Configurar cifrados más fuertes en el servidor"
             else None |} ]
  | None => []
  end.

Definition sanTests (certificate : TlsSession) : list Finding :=
  if truthy (c_subjectaltname (s_cert certificate)) then
    let subjectaltname := default "" (c_subjectaltname (s_cert certificate)) in
    let sans := split_comma_space_length subjectaltname in
    [ {| name := "Dominios Cubiertos (SAN)";
         status := "info";
         value := VString (pretty sans +:+ " dominio(s)");
         details := "El certificado cubre: " +:+ subjectaltname;
         severity := Some "info";
         recommendation := None |} ]
  else [].

Section Probes.
Context {W : Type} `{Host W} `{ProbeHost W}.

Definition testHttpResponse (u : string) (logger : Logger)
  : M (Env W) CategoryResults :=
  Logger_explain logger "📡 Probando respuesta HTTP básica..." ;;;
  Logger_explain logger
    "   Esto verifica que el servidor responda correctamente y mide el tiempo de carga." ;;;
  tests <-
    try_catch
      (startTime <- new_Date ;;
       response <- host_call (axios_request
         {| req_url := u; req_timeout := Some 30000; req_maxRedirects := None;
            req_headers := [("User-Agent", "WebTester/1.0 Security Scanner")] |}) ;;
       now <- new_Date ;;
       let responseTime := now - startTime in
       Logger_explain logger
         ("   ✓ Completado: Código " +:+ pretty (resp_status response) +:+
          ", Tiempo " +:+ pretty responseTime +:+ "ms") ;;;
       ret (httpResponseTests response responseTime))
      (fun error =>
         Logger_explain logger ("   ✗ Error de conexión: " +:+ message error) ;;;
         ret [ {| name := "Conexión";
                  status := "fail";
                  value := VString "Error";
                  details := "No se pudo conectar: " +:+ message error;
                  severity := Some "critical";
                  recommendation := None |} ]) ;;
  ret (mkCategoryResults "Respuesta HTTP" tests).

Definition testRedirects (u : string) (logger : Logger)
  : M (Env W) CategoryResults :=
  Logger_explain logger "🔀 Analizando redirecciones..." ;;;
  Logger_explain logger
    "   Verifico si hay redirecciones HTTP→HTTPS y cómo se manejan." ;;;
  tests <-
    try_catch
      (response <- host_call (axios_request
         {| req_url := u; req_timeout := None; req_maxRedirects := Some 10;
            req_headers := [] |}) ;;
       let redirects := resp_redirects response in
       Logger_explain logger
         ("   ✓ " +:+ pretty (length redirects) +:+
          " redirección(es) encontrada(s)") ;;;
       ret (redirectTests u redirects))
      (fun error =>
         ret [ {| name := "Análisis de Redirecciones";
                  status := "warning";
                  value := VString "Error";
                  details := "No se pudo analizar: " +:+ message error;
                  severity := Some "low";
                  recommendation := None |} ]) ;;
  ret (mkCategoryResults "Redirecciones" tests).

Definition testSecurityHeaders (u : string) (logger : Logger)
  : M (Env W) CategoryResults :=
  Logger_explain logger "🛡️  Analizando headers de seguridad..." ;;;
  Logger_explain logger
    "   Los headers de seguridad protegen contra ataques comunes como XSS, clickjacking, etc." ;;;
  tests <-
    try_catch
      (response <- host_call (axios_request
         {| req_url := u; req_timeout := Some 30000; req_maxRedirects := None;
            req_headers := [] |}) ;;
       Logger_explain logger "   ✓ Headers de seguridad analizados" ;;;
       ret (securityHeaderTests u response))
      (fun error =>
         Logger_explain logger ("   ✗ Error: " +:+ message error) ;;;
         ret [ {| name := "Análisis de Headers";
                  status := "fail";
                  value := VString "Error";
                  details :=
                    "No se pudieron analizar los headers: " +:+ message error;
                  severity := Some "high";
                  recommendation := None |} ]) ;;
  ret (mkCategoryResults "Headers de Seguridad" tests).

Definition testCookieSecurity (u : string) (logger : Logger)
  : M (Env W) CategoryResults :=
  Logger_explain logger "🍪 Analizando seguridad de cookies..." ;;;
  Logger_explain logger
    "   Verifico si las cookies tienen las flags de seguridad apropiadas." ;;;
  tests <-
    try_catch
      (response <- host_call (axios_request
         {| req_url := u; req_timeout := Some 30000; req_maxRedirects := None;
            req_headers := [] |}) ;;
       match resp_set_cookie response with
       | None | Some [] =>
           Logger_explain logger "   ℹ No se encontraron cookies" ;;;
           ret [ {| name := "Cookies";
                    status := "info";
                    value := VString "Ninguna";
                    details := "No se establecen cookies en esta página";
                    severity := Some "info";
                    recommendation := None |} ]
       | Some cookies =>
           Logger_explain logger
             ("   ✓ " +:+ pretty (length cookies) +:+ " cookie(s) analizadas") ;;;
           ret (map cookieTest cookies)
       end)
      (fun error =>
         Logger_explain logger ("   ✗ Error: " +:+ message error) ;;;
         ret [ {| name := "Análisis de Cookies";
                  status := "fail";
                  value := VString "Error";
                  details :=
                    "No se pudieron analizar las cookies: " +:+ message error;
                  severity := Some "medium";
                  recommendation := None |} ]) ;;
  ret (mkCategoryResults "Seguridad de Cookies" tests).

Definition testCORS (u : string) (logger : Logger)
  : M (Env W) CategoryResults :=
  Logger_explain logger "🌐 Analizando configuración CORS..." ;;;
  Logger_explain logger
    "   CORS controla qué orígenes pueden acceder a los recursos del sitio." ;;;
  tests <-
    try_catch
      (response <- host_call (axios_request
         {| req_url := u; req_timeout := Some 30000; req_maxRedirects := None;
            req_headers := [("Origin", "https://evil-site.com")] |}) ;;
       Logger_explain logger "   ✓ Configuración CORS analizada" ;;;
       ret (corsTests response))
      (fun error =>
         Logger_explain logger ("   ✗ Error: " +:+ message error) ;;;
         ret [ {| name := "Análisis CORS";
                  status := "warning";
                  value := VString "Error";
                  details := "No se pudo analizar CORS: " +:+ message error;
                  severity := Some "low";
                  recommendation := None |} ]) ;;
  ret (mkCategoryResults "CORS" tests).

(** The "Certificate Expiration" finding, from the parsed [valid_to] and
    the current time. *)
Definition expirationTest (expirationDate now : Z) : Finding :=
  let daysUntilExpiry := ceil_div (expirationDate - now) DAY in
  let '(status, severity) :=
    if daysUntilExpiry <? 0 then ("fail", "critical")
    else if daysUntilExpiry <? 30 then ("warning", "high")
    else if daysUntilExpiry <? 90 then ("warning", "medium")
    else ("pass", "info") in
  {| name := "Expiración del Certificado";
     status := status;
     value := VString (pretty daysUntilExpiry +:+ " días");
     details :=
       if daysUntilExpiry <? 0
       then "¡EXPIRADO! El certificado expiró hace " +:+
            pretty (Z.abs daysUntilExpiry) +:+ " días"
       else "El certificado expira en " +:+ pretty daysUntilExpiry +:+
            " días (" +:+ toLocaleDateString expirationDate +:+ ")";
     severity := Some severity;
     recommendation :=
       if daysUntilExpiry <? 30
       then Some "Renovar el certificado SSL urgentemente"
       else None |}.

Definition testSSL (u : string) (logger : Logger)
  : M (Env W) CategoryResults :=
  Logger_explain logger "🔒 Analizando certificado SSL/TLS..." ;;;
  Logger_explain logger
    "   Verifico la validez del certificado, fechas de expiración y configuración de seguridad." ;;;
  tests <-
    try_catch
      (urlObj <- host_read (fun _ => new_URL u) ;;
       if negb (String.eqb (url_protocol urlObj) "https:") then
         Logger_explain logger "   ⚠ El sitio no usa HTTPS" ;;;
         ret [httpsTest]
       else
         certificate <- host_call (https_request (url_hostname urlObj)
           (or_else (Some (url_port urlObj)) "443")) ;;
         expiration <-
           (if truthy (c_valid_to (s_cert certificate)) then
              now <- new_Date ;;
              ret [expirationTest
                     (Date_parse (default "" (c_valid_to (s_cert certificate))))
                     now]
            else ret []) ;;
         Logger_explain logger
           ("   ✓ SSL analizado: " +:+ show_null (s_protocol certificate) +:+
            ", expira en " +:+ show_opt (c_valid_to (s_cert certificate))) ;;;
         ret ([validityTest certificate] ++ issuerTests certificate ++
              expiration ++ protocolTests certificate ++
              cipherTests certificate ++ sanTests certificate)%list)
      (fun error =>
         Logger_explain logger
           ("   ✗ Error analizando SSL: " +:+ message error) ;;;
         ret [ {| name := "Análisis SSL";
                  status := "fail";
                  value := VString "Error";
                  details := "No se pudo analizar SSL: " +:+ message error;
                  severity := Some "high";
                  recommendation := None |} ]) ;;
  ret (mkCategoryResults "SSL/TLS" tests).

(** An [async (url, logger) => results] function as the registry holds
    it: run on its own console, it yields the lines it printed. *)
Definition as_probe (testFn : string -> Logger -> M (Env W) CategoryResults)
  : Probe W :=
  fun u logger w =>
    let '(r, e) := testFn u logger (mkEnv w []) in
    (r, console e, world e).

(** The imports of index.js, with the four browser probes left open. *)
Definition imported (testWithBrowser testPerformance testResponsive
    takeScreenshots : Probe W) : Probes W :=
  mkProbes W (as_probe testHttpResponse) (as_probe testRedirects)
    (as_probe testSSL) (as_probe testSecurityHeaders)
    (as_probe testCookieSecurity) (as_probe testCORS)
    testWithBrowser testPerformance testResponsive takeScreenshots.

End Probes.

End Tests.

(* ===================================================================== *)
(** * Specification vocabulary for the probes *)
(* ===================================================================== *)

Section ProbeSpec.

(** A finding as the report expects it: one of the four statuses, one of
    the five severities; a passed check is informational and asks for
    nothing; a finding of medium severity or worse is a failure or a
    warning. *)
Definition well_formed (t : Finding) : bool :=
  includes ["pass"; "fail"; "warning"; "info"] (status t)
  && match severity t with
     | Some s => includes ["critical"; "high"; "medium"; "low"; "info"] s
     | None => false
     end
  && (if String.eqb (status t) "pass"
      then str_is (severity t) "info" && negb (truthy (recommendation t))
      else true)
  && (if str_is (severity t) "critical" || str_is (severity t) "high"
         || str_is (severity t) "medium"
      then includes ["fail"; "warning"] (status t)
      else true).

(** The requests the probes make for [u]: [testHttpResponse],
    [testRedirects], [testSecurityHeaders] and [testCookieSecurity] (the
    same options), and [testCORS]. *)
Definition httpRequest (u : string) : Request :=
  {| req_url := u; req_timeout := Some 30000; req_maxRedirects := None;
     req_headers := [("User-Agent", "WebTester/1.0 Security Scanner")] |}.

Definition redirectRequest (u : string) : Request :=
  {| req_url := u; req_timeout := None; req_maxRedirects := Some 10;
     req_headers := [] |}.

Definition plainRequest (u : string) : Request :=
  {| req_url := u; req_timeout := Some 30000; req_maxRedirects := None;
     req_headers := [] |}.

Definition corsRequest (u : string) : Request :=
  {| req_url := u; req_timeout := Some 30000; req_maxRedirects := None;
     req_headers := [("Origin", "https://evil-site.com")] |}.

(** The single finding a probe reports when its request fails. *)
Definition failureFinding (nm st sev prefix : string) (err : Error) : Finding :=
  {| name := nm; status := st; value := VString "Error";
     details := prefix +:+ message err; severity := Some sev;
     recommendation := None |}.

(** The names under which the probes of a category report. *)
Definition probe_names (key : string) : list string :=
  if String.eqb key "http" then ["Respuesta HTTP"; "Redirecciones"]
  else if String.eqb key "ssl" then ["SSL/TLS"]
  else if String.eqb key "security"
  then ["Headers de Seguridad"; "Seguridad de Cookies"; "CORS"]
  else [].

(** The outcome of a probe that returned, under the name [category], a
    non-empty list of well-formed findings. *)
Definition probe_ok {W : Type} (category : string)
    (run : Result CategoryResults * Env W) : Prop :=
  exists r e',
    run = (Ok r, e')
    /\ cr_name r = category
    /\ tests r <> []
    /\ forallb well_formed (tests r) = true.

(** The outcome of a probe call that returned, under the name [nm],
    well-formed findings. *)
Definition reported_as (outcome : Result CategoryResults) (nm : string) : Prop :=
  exists r,
    outcome = Ok r /\ cr_name r = nm /\ forallb well_formed (tests r) = true.

(** Name, status and severity of each finding. *)
Definition outline (ts : list Finding) : list (string * string * option string) :=
  map (fun t => (name t, status t, severity t)) ts.

End ProbeSpec.

(** A site for examples: a clock that advances by [latency] at every
    reading, one answer to every request and one TLS peer. *)
Module SampleSite.

Record Site := mkSite {
  clock : Z;
  latency : Z;
  answer : Request -> Result Response;
  peer : Result TlsSession;
}.

#[global] Instance host : Host Site := {|
  Date_now := fun w =>
    (clock w, mkSite (clock w + latency w) (latency w) (answer w) (peer w));
  toLocaleString_esES := Sample.datetime_esES;
  toLocaleString := Sample.datetime_esES;
  toLocaleDateString := Sample.date_esES;
  toISOString := Sample.datetime_ISO;
  seconds_toFixed1 := Sample.fixed1;
  hostname := fun u => Sample.upto_slash (Sample.after_slashes u);
|}.

(** URLs are [https://host/...] or [http://host/...]; anything else does
    not parse. Certificate dates are written as a number of days since
    the epoch. *)
#[global] Instance probe_host : ProbeHost Site := {|
  axios_request := fun req w => (answer w req, w);
  new_URL := fun u =>
    if startsWith "https://" u
    then Ok (mkUrlObj "https:" (Sample.upto_slash (Sample.after_slashes u)) "")
    else if startsWith "http://" u
    then Ok (mkUrlObj "http:" (Sample.upto_slash (Sample.after_slashes u)) "")
    else Throw (mkError "Invalid URL");
  https_request := fun _ _ w => (peer w, w);
  Date_parse := fun text => Sample.decimal text 0 * DAY;
|}.

Definition response (status : Z) (headers : list (string * string)) : Response :=
  {| resp_status := status; resp_headers := headers;
     resp_set_cookie := None; resp_redirects := [] |}.

Definition session (valid_to : string) : TlsSession :=
  {| s_cert := {| c_issuer := Some (Some "Let's Encrypt", None);
                  c_valid_to := Some valid_to;
                  c_subjectaltname := Some "DNS:example.com, DNS:www.example.com" |};
     s_authorized := true;
     s_authorizationError := "";
     s_protocol := Some "TLSv1.3";
     s_cipher := Some "TLS_AES_256_GCM_SHA384" |}.

(** A site that answers every request with [r]. *)
Definition site (r : Result Response) (p : Result TlsSession) : Site :=
  {| clock := 0; latency := 120; answer := fun _ => r; peer := p |}.

Definition down : Site :=
  site (Throw (mkError "connect ECONNREFUSED"))
       (Throw (mkError "connect ECONNREFUSED")).

End SampleSite.

(* ===================================================================== *)
(** * Properties *)
(* ===================================================================== *)

Local Open Scope list_scope.


(* --------------------------------------------------------------------- *)
(** ** Monad and list helpers *)
(* --------------------------------------------------------------------- *)

Lemma bind_ok {S A B} (m : M S A) (k : A -> M S B) s a s' :
  m s = (Ok a, s') -> bind m k s = k a s'.
Proof. unfold bind. by intros ->. Qed.

Lemma bind_throw {S A B} (m : M S A) (k : A -> M S B) s err s' :
  m s = (Throw err, s') -> bind m k s = (Throw err, s').
Proof. unfold bind. by intros ->. Qed.

Lemma try_catch_ok {S A} (body : M S A) handler s a s' :
  body s = (Ok a, s') -> try_catch body handler s = (Ok a, s').
Proof. unfold try_catch. by intros ->. Qed.

Lemma try_catch_throw {S A} (body : M S A) handler s err s' :
  body s = (Throw err, s') -> try_catch body handler s = handler err s'.
Proof. unfold try_catch. by intros ->. Qed.

Lemma for_of_cons {S A B} (x : A) (l : list A) (body : A -> B -> M S B) acc :
  for_of (x :: l) body acc = bind (body x acc) (for_of l body).
Proof. reflexivity. Qed.

Lemma List_filter_sublist {A} (f : A -> bool) (l : list A) :
  List.filter f l `sublist_of` l.
Proof.
  induction l as [|x l IH]; simpl.
  - constructor.
  - destruct (f x); by constructor.
Qed.

Lemma List_filter_filter {A} (f g : A -> bool) (l : list A) :
  List.filter g (List.filter f l) = List.filter (fun x => f x && g x) l.
Proof.
  induction l as [|x l IH]; simpl; [done|].
  destruct (f x); simpl; [destruct (g x)|]; by rewrite ?IH.
Qed.

Lemma List_filter_ext_Forall {A} (f g : A -> bool) (l : list A) :
  Forall (fun x => f x = g x) l -> List.filter f l = List.filter g l.
Proof.
  induction 1 as [|x l Hx _ IH]; simpl; [done|]. by rewrite Hx, IH.
Qed.

(* --------------------------------------------------------------------- *)
(** ** Category selection *)
(* --------------------------------------------------------------------- *)

Section SelectionProperties.
Context {W : Type} `{Host W}.
Variable probes : Probes W.

Lemma Object_keys_eq :
  Object_keys probes =
  ["http"; "ssl"; "security"; "browser"; "performance"; "responsive"].
Proof. reflexivity. Qed.

Lemma Object_keys_registered :
  Forall (fun c => registered probes c = true) (Object_keys probes).
Proof. rewrite Object_keys_eq. repeat constructor. Qed.

Lemma List_filter_all {A} (f : A -> bool) (l : list A) :
  Forall (fun x => f x = true) l -> List.filter f l = l.
Proof.
  induction 1 as [|x l Hx _ IH]; simpl; [done|]. by rewrite Hx, IH.
Qed.

Lemma List_filter_none {A} (f : A -> bool) (l : list A) :
  Forall (fun x => f x = false) l -> List.filter f l = [].
Proof.
  induction 1 as [|x l Hx _ IH]; simpl; [done|]. by rewrite Hx, IH.
Qed.

Lemma selectCategories_filter options :
  selectCategories probes options =
  List.filter (fun c => registered probes c && negb (includes (skipped options) c))
    (listed probes options).
Proof.
  unfold selectCategories, listed, skipped.
  destruct (truthy (only options)), (truthy (skip options)).
  - apply List_filter_filter.
  - apply List_filter_ext_Forall, Forall_forall. intros c _.
    simpl. by rewrite andb_true_r.
  - apply List_filter_ext_Forall.
    eapply Forall_impl; [apply Object_keys_registered|].
    simpl. intros c ->. done.
  - rewrite List_filter_all; [done|].
    eapply Forall_impl; [apply Object_keys_registered|].
    simpl. intros c ->. done.
Qed.

(** C1 (as amended). The categories handed to the scan are the listed
    names, in the order in which they are listed and as often as they
    are listed, that the registry lookup accepts and [skip] does not
    name. The listing is the [only] filter when one is given, so its order
    (not the registry's) decides; without [only] it is the registry's key
    order. [skip] removes names and never reorders. *)
Theorem selectCategories_keeps_listed_order (options : Options) :
  selectCategories probes options `sublist_of` listed probes options
  /\ selectCategories probes options =
     List.filter
       (fun c => registered probes c && negb (includes (skipped options) c))
       (listed probes options)
  /\ (truthy (only options) = false -> listed probes options = Object_keys probes)
  /\ (truthy (only options) = true ->
      listed probes options = split "," (default "" (only options))).
Proof.
  split; [|split; [apply selectCategories_filter|]].
  - rewrite selectCategories_filter. apply List_filter_sublist.
  - unfold listed. split; intros ->; reflexivity.
Qed.

End SelectionProperties.

(** C1 (as stated) fails: [--only ssl,http] runs [ssl] before [http],
    while the registry has [http] before [ssl]. *)
Lemma selectCategories_only_order_counterexample :
  selectCategories Sample.probes (mkOptions (Some "ssl,http") None false)
    = ["ssl"; "http"]
  /\ ~ (["ssl"; "http"] `sublist_of` Object_keys Sample.probes).
Proof.
  split; [reflexivity|].
  intros Hs. rewrite Object_keys_eq in Hs.
  repeat match goal with
         | Hs : _ `sublist_of` _ |- _ => inversion Hs; clear Hs; subst
         end.
Qed.

(** The amended statement at a concrete selection. *)
Lemma selectCategories_keeps_listed_order_witness :
  selectCategories Sample.probes
    (mkOptions (Some "ssl,nope,http") (Some "browser") false)
    `sublist_of` ["ssl"; "nope"; "http"]
  /\ listed Sample.probes (mkOptions (Some "ssl,nope,http") (Some "browser") false)
     = ["ssl"; "nope"; "http"].
Proof.
  destruct (selectCategories_keeps_listed_order Sample.probes
              (mkOptions (Some "ssl,nope,http") (Some "browser") false))
    as (Hsub & _ & _ & Hlisted).
  split; [exact Hsub | apply Hlisted; reflexivity].
Defined.

(* --------------------------------------------------------------------- *)
(** ** runTests: a throwing probe is skipped, the others are kept *)
(* --------------------------------------------------------------------- *)

Lemma addAllResults_nil r : addAllResults [] r = r.
Proof. destruct r. unfold addAllResults. simpl. by rewrite app_nil_r. Qed.

Lemma addAllResults_app rs1 rs2 r :
  addAllResults rs2 (addAllResults rs1 r) = addAllResults (rs1 ++ rs2) r.
Proof. unfold addAllResults. simpl. by rewrite app_assoc. Qed.

Lemma addResults_addAll a r : addResults a r = addAllResults [a] r.
Proof. reflexivity. Qed.

Lemma returned_app {A} (l1 l2 : list (Result A)) :
  returned (l1 ++ l2) = returned l1 ++ returned l2.
Proof. apply omap_app. Qed.

Lemma assoc_Some_of_key {A} (key : string) (l : list (string * A)) :
  key ∈ map fst l -> exists v, assoc key l = Some v.
Proof.
  induction l as [|[k v] l IH]; simpl.
  - intros Hin. by apply elem_of_nil in Hin.
  - intros Hin. destruct (String.eqb key k) eqn:E; [eauto|].
    apply elem_of_cons in Hin as [->|Hin]; [|auto].
    by rewrite String.eqb_refl in E.
Qed.

Section RunTestsProperties.
Context {W : Type} `{Host W}.
Variable probes : Probes W.

Lemma probe_outcomes_app u logger (p1 p2 : list (Probe W)) w :
  probe_outcomes u logger (p1 ++ p2) w =
  (fst (probe_outcomes u logger p1 w)
     ++ fst (probe_outcomes u logger p2 (snd (probe_outcomes u logger p1 w))),
   snd (probe_outcomes u logger p2 (snd (probe_outcomes u logger p1 w)))).
Proof.
  revert w. induction p1 as [|testFn p1 IH]; intros w; simpl.
  - by destruct (probe_outcomes u logger p2 w).
  - destruct (testFn u logger w) as [[r printed] w'].
    rewrite IH. by destruct (probe_outcomes u logger p1 w').
Qed.

Lemma tryProbe_ok u logger (testFn : Probe W) reporter e a printed w' :
  testFn u logger (world e) = (Ok a, printed, w') ->
  tryProbe u logger testFn reporter e =
    (Ok (addResults a reporter), mkEnv w' (console e ++ printed)).
Proof.
  intros Hcall. unfold tryProbe.
  apply try_catch_ok.
  rewrite (bind_ok _ _ e a (mkEnv w' (console e ++ printed))).
  - reflexivity.
  - unfold call_probe. by rewrite Hcall.
Qed.

Lemma tryProbe_throw u logger (testFn : Probe W) reporter e err printed w' :
  testFn u logger (world e) = (Throw err, printed, w') ->
  tryProbe u logger testFn reporter e =
    (Ok reporter, mkEnv w' ((console e ++ printed) ++ [error_line err])).
Proof.
  intros Hcall. unfold tryProbe.
  rewrite (try_catch_throw _ _ e err (mkEnv w' (console e ++ printed))).
  - reflexivity.
  - apply bind_throw. unfold call_probe. by rewrite Hcall.
Qed.

(** The inner loop: every probe of the category is called, whatever the
    earlier ones did; the values returned are appended in call order and
    each exception leaves one line on the console. *)
Lemma runCategoryTests_spec u logger (tests : list (Probe W)) :
  forall reporter e,
    exists lines,
      runCategoryTests u logger tests reporter e =
        (Ok (addAllResults
               (returned (fst (probe_outcomes u logger tests (world e)))) reporter),
         mkEnv (snd (probe_outcomes u logger tests (world e)))
               (console e ++ lines))
      /\ forall err,
           Throw err ∈ fst (probe_outcomes u logger tests (world e)) ->
           error_line err ∈ lines.
Proof.
  unfold runCategoryTests.
  induction tests as [|testFn tests IH]; intros reporter e.
  - exists []. simpl. rewrite addAllResults_nil, app_nil_r.
    split; [by destruct e|]. intros err Hin. by apply elem_of_nil in Hin.
  - rewrite for_of_cons. simpl.
    destruct (testFn u logger (world e)) as [[r printed] w'] eqn:Hcall.
    destruct (probe_outcomes u logger tests w') as [rs w''] eqn:Hrest.
    destruct r as [a|err0].
    + erewrite bind_ok; [|by apply tryProbe_ok].
      destruct (IH (addResults a reporter) (mkEnv w' (console e ++ printed)))
        as (lines & Hrun & Hlines).
      simpl in Hrun, Hlines. rewrite Hrest in Hrun, Hlines. simpl in *.
      exists (printed ++ lines). rewrite Hrun.
      rewrite addResults_addAll, addAllResults_app, app_assoc.
      split; [done|]. intros err Hin.
      apply elem_of_cons in Hin as [Heq|Hin]; [done|].
      apply elem_of_app. right. by apply Hlines.
    + erewrite bind_ok; [|by apply tryProbe_throw].
      destruct (IH reporter
                  (mkEnv w' ((console e ++ printed) ++ [error_line err0])))
        as (lines & Hrun & Hlines).
      simpl in Hrun, Hlines. rewrite Hrest in Hrun, Hlines. simpl in *.
      exists (printed ++ [error_line err0] ++ lines). rewrite Hrun.
      rewrite !app_assoc.
      split; [done|]. intros err Hin.
      apply elem_of_cons in Hin as [Heq|Hin].
      * injection Heq as <-. apply elem_of_app. left. apply elem_of_app. right.
        by apply list_elem_of_singleton.
      * apply elem_of_app. right. by apply Hlines.
Qed.

Lemma console_log_run line (e : Env W) :
  console_log line e = (Ok tt, mkEnv (world e) (console e ++ [line])).
Proof. reflexivity. Qed.

Lemma Logger_step_run logger step total msg (e : Env W) :
  exists lines,
    Logger_step logger step total msg e =
      (Ok tt, mkEnv (world e) (console e ++ lines)).
Proof.
  eexists [_; _]. unfold Logger_step.
  erewrite bind_ok; [|apply console_log_run]. rewrite console_log_run.
  simpl. by rewrite <- app_assoc.
Qed.

Lemma Logger_explain_run logger msg (e : Env W) :
  exists lines,
    Logger_explain logger msg e = (Ok tt, mkEnv (world e) (console e ++ lines)).
Proof.
  unfold Logger_explain, when. destruct (verbose logger).
  - by exists [msg].
  - exists []. rewrite app_nil_r. by destruct e.
Qed.

Lemma Logger_header_run logger msg (e : Env W) :
  exists lines,
    Logger_header logger msg e = (Ok tt, mkEnv (world e) (console e ++ lines)).
Proof.
  eexists [_; _; _; _; _]. unfold Logger_header.
  repeat (erewrite bind_ok; [|apply console_log_run]; simpl).
  rewrite console_log_run. simpl. by rewrite <- !app_assoc.
Qed.

Lemma new_Date_run (e : Env W) :
  new_Date e =
    (Ok (fst (Date_now (world e))), mkEnv (snd (Date_now (world e))) (console e)).
Proof. unfold new_Date. by destruct (Date_now (world e)). Qed.

(** The outer loop over registry categories. *)
Lemma runCategories_spec u logger total (categories : list string) :
  Forall (fun key => key ∈ Object_keys probes) categories ->
  forall n reporter e,
    exists lines,
      for_of categories (runCategory probes u logger total) (n, reporter) e =
        (Ok ((n + length categories)%nat,
             addAllResults
               (returned (fst (probe_outcomes u logger
                  (planned (TEST_CATEGORIES probes) categories) (world e))))
               reporter),
         mkEnv (snd (probe_outcomes u logger
                  (planned (TEST_CATEGORIES probes) categories) (world e)))
               (console e ++ lines))
      /\ forall err,
           Throw err ∈ fst (probe_outcomes u logger
             (planned (TEST_CATEGORIES probes) categories) (world e)) ->
           error_line err ∈ lines.
Proof.
  induction 1 as [|key categories Hkey _ IH]; intros n reporter e.
  - exists []. simpl. rewrite addAllResults_nil, app_nil_r, Nat.add_0_r.
    split; [by destruct e|]. intros err Hin. by apply elem_of_nil in Hin.
  - apply assoc_Some_of_key in Hkey as [c Hc].
    rewrite for_of_cons.
    change (planned (TEST_CATEGORIES probes) (key :: categories))
      with (match assoc key (TEST_CATEGORIES probes) with
            | Some c => cat_tests c
            | None => []
            end ++ planned (TEST_CATEGORIES probes) categories).
    rewrite Hc, probe_outcomes_app. simpl fst. simpl snd.
    destruct (Logger_step_run logger (S n) total (cat_name c) e)
      as (l1 & Hstep).
    destruct (Logger_explain_run logger ("   " +:+ description c)
                (mkEnv (world e) (console e ++ l1))) as (l2 & Hexplain).
    destruct (runCategoryTests_spec u logger (cat_tests c) reporter
                (mkEnv (world e) ((console e ++ l1) ++ l2)))
      as (l3 & Htests & Hl3).
    simpl in Hexplain, Htests, Hl3.
    set (po := probe_outcomes u logger (cat_tests c) (world e)) in *.
    destruct (IH (S n) (addAllResults (returned (fst po)) reporter)
                (mkEnv (snd po) (((console e ++ l1) ++ l2) ++ l3)))
      as (l4 & Hrest & Hl4).
    simpl in Hrest, Hl4.
    exists (l1 ++ l2 ++ l3 ++ l4).
    erewrite bind_ok; [rewrite Hrest|].
    + rewrite addAllResults_app, returned_app, !app_assoc.
      simpl length. rewrite Nat.add_succ_r.
      split; [done|]. intros err Hin.
      apply elem_of_app in Hin as [Hin|Hin].
      * apply elem_of_app. left. apply elem_of_app. right. by apply Hl3.
      * apply elem_of_app. right. by apply Hl4.
    + unfold runCategory, TEST_CATEGORIES_get. rewrite Hc.
      erewrite bind_ok; [|exact Hstep].
      erewrite bind_ok; [|exact Hexplain].
      erewrite bind_ok; [|exact Htests].
      reflexivity.
Qed.

(** C2. A scan of registry categories always returns a report. Every
    planned probe is called, in category-then-probe order, whatever the
    earlier probes did; the report holds exactly the results of the calls
    that returned, in call order; each call that threw is absent from the
    report and has left its error line on the console. *)
Theorem runTests_isolates_probe_failures u (categories : list string) verbose
    (e : Env W) :
  Forall (fun key => key ∈ Object_keys probes) categories ->
  let logger := mkLogger verbose in
  let w0 := snd (Date_now (world e)) in
  let run := probe_outcomes u logger
               (planned (TEST_CATEGORIES probes) categories) w0 in
  fst (runTests probes u categories verbose e) =
    Ok {| results := returned (fst run);
          url := u;
          startTime := Some (fst (Date_now (world e)));
          endTime := Some (fst (Date_now (snd run))) |}
  /\ world (snd (runTests probes u categories verbose e)) =
       snd (Date_now (snd run))
  /\ forall err,
       Throw err ∈ fst run ->
       error_line err ∈ console (snd (runTests probes u categories verbose e)).
Proof.
  intros Hkeys logger w0 run.
  destruct (Logger_header_run logger ("Analizando: " +:+ u)
              (mkEnv w0 (console e))) as (l1 & Hheader).
  destruct (runCategories_spec u logger (length categories) categories Hkeys
              O {| results := []; url := u;
                   startTime := Some (fst (Date_now (world e)));
                   endTime := None |}
              (mkEnv w0 (console e ++ l1))) as (l2 & Hloop & Hl2).
  simpl in Hheader, Hloop, Hl2. fold run in Hloop, Hl2.
  assert (Hrun : runTests probes u categories verbose e =
    (Ok {| results := returned (fst run); url := u;
           startTime := Some (fst (Date_now (world e)));
           endTime := Some (fst (Date_now (snd run))) |},
     mkEnv (snd (Date_now (snd run))) ((console e ++ l1) ++ l2))).
  { unfold runTests, startTimer, endTimer.
    erewrite bind_ok; [|erewrite bind_ok; [reflexivity|apply new_Date_run]].
    erewrite bind_ok; [|exact Hheader].
    erewrite bind_ok; [|exact Hloop].
    erewrite bind_ok; [|erewrite bind_ok; [reflexivity|apply new_Date_run]].
    reflexivity. }
  rewrite Hrun. simpl. split; [done|]. split; [done|].
  intros err Hin. apply elem_of_app. right. by apply Hl2.
Qed.

End RunTestsProperties.

(** C2 at a concrete scan: [testRedirects] throws in the [http] category,
    and the report holds the results of [testHttpResponse] and [testSSL]. *)
Lemma runTests_isolates_probe_failures_witness :
  fst (runTests Sample.probes "https://example.com" ["http"; "ssl"] true
         (Sample.env0 (Sample.quiet_world 0))) =
    Ok {| results :=
            [ mkCategoryResults "Respuesta HTTP"
                [Sample.finding "Código de Estado" "pass" (Some "info") None];
              mkCategoryResults "SSL/TLS"
                [Sample.finding "Certificado" "fail" (Some "critical")
                   (Some "Renovar")] ];
          url := "https://example.com";
          startTime := Some 0;
          endTime := Some 1000 |}
  /\ "✗ Error en test: socket hang up" ∈
       console (snd (runTests Sample.probes "https://example.com" ["http"; "ssl"]
                       true (Sample.env0 (Sample.quiet_world 0)))).
Proof.
  destruct (runTests_isolates_probe_failures Sample.probes "https://example.com"
              ["http"; "ssl"] true (Sample.env0 (Sample.quiet_world 0)))
    as (Hreport & _ & Hlog).
  - repeat constructor.
  - split; [exact Hreport|].
    apply (Hlog (mkError "socket hang up")). simpl.
    apply elem_of_cons. right. apply elem_of_cons. by left.
Defined.

(* --------------------------------------------------------------------- *)
(** ** getSummary: the passed count *)
(* --------------------------------------------------------------------- *)

Lemma tally_passed acc t :
  passed (tally acc t) = (passed acc + (if is_pass t then 1 else 0))%nat.
Proof.
  unfold tally, is_pass.
  destruct (String.eqb (status t) "pass");
    repeat match goal with |- context [if ?b then _ else _] => destruct b end;
    simpl; lia.
Qed.

Lemma fold_tally_passed ts acc :
  passed (fold_left tally ts acc) =
  (passed acc + length (List.filter is_pass ts))%nat.
Proof.
  revert acc. induction ts as [|t ts IH]; intros acc; simpl; [lia|].
  rewrite IH, tally_passed. destruct (is_pass t); simpl; lia.
Qed.

Lemma fold_categories_passed (cs : list CategoryResults) acc :
  passed (fold_left (fun acc c => fold_left tally (tests c) acc) cs acc) =
  (passed acc + length (List.filter is_pass (flat_map tests cs)))%nat.
Proof.
  revert acc. induction cs as [|c cs IH]; intros acc; simpl; [lia|].
  rewrite IH, fold_tally_passed, List.filter_app, length_app. lia.
Qed.

Lemma filter_is_pass_setSeverity f ts :
  length (List.filter is_pass (map (fun t => setSeverity (f t) t) ts)) =
  length (List.filter is_pass ts).
Proof.
  induction ts as [|t ts IH]; simpl; [done|].
  change (is_pass (setSeverity (f t) t)) with (is_pass t).
  destruct (is_pass t); simpl; by rewrite IH.
Qed.

Lemma allFindings_mapSeverity_passed f r :
  length (List.filter is_pass (allFindings (mapSeverity f r))) =
  length (List.filter is_pass (allFindings r)).
Proof.
  unfold allFindings, mapSeverity. simpl.
  induction (results r) as [|c cs IH]; simpl; [done|].
  rewrite !List.filter_app, !length_app, IH, filter_is_pass_setSeverity. done.
Qed.

(** C9. The summary's [passed] is the number of findings of the whole
    report whose status is ['pass']; replacing the severities of the
    findings by anything at all leaves it unchanged. *)
Theorem getSummary_passed_counts_status_pass (r : Reporter) :
  passed (getSummary r) = length (List.filter is_pass (allFindings r))
  /\ forall f : Finding -> option string,
       passed (getSummary (mapSeverity f r)) = passed (getSummary r).
Proof.
  assert (Hcount : forall r',
    passed (getSummary r') = length (List.filter is_pass (allFindings r'))).
  { intros r'. unfold getSummary, allFindings.
    by rewrite fold_categories_passed. }
  split; [apply Hcount|].
  intros f. by rewrite !Hcount, allFindings_mapSeverity_passed.
Qed.

(* --------------------------------------------------------------------- *)
(** ** Array_sort with a rank-difference comparator *)
(* --------------------------------------------------------------------- *)

Section SortByRank.
Context {A : Type}.
Variable rank : A -> option Z.

Lemma sortCompare_byRank x y :
  ranked rank x -> ranked rank y ->
  sortCompare (byRank rank) x y = rk rank x - rk rank y.
Proof.
  intros [a Ha] [b Hb]. unfold sortCompare, byRank, rk. by rewrite Ha, Hb.
Qed.

Lemma rank_is_rk k x : rank_is rank k x = true -> rk rank x = k.
Proof.
  unfold rank_is, rk. intros Hk. apply bool_decide_eq_true in Hk. by rewrite Hk.
Qed.

Lemma binary_insert_Permutation cmp (l : list A) (x : A) :
  binary_insert cmp l x ≡ₚ x :: l.
Proof.
  unfold binary_insert. rewrite <- Permutation_middle. by rewrite take_drop.
Qed.

Lemma Array_sort_fold_Permutation cmp (l acc : list A) :
  fold_left (binary_insert cmp) l acc ≡ₚ acc ++ l.
Proof.
  revert acc. induction l as [|x l IH]; intros acc; simpl.
  - by rewrite app_nil_r.
  - rewrite IH, binary_insert_Permutation. simpl. apply Permutation_middle.
Qed.

Lemma run_while_app (continues : A -> A -> bool) (l : list A) :
  forall previous,
    (run_while continues previous l).1 ++ (run_while continues previous l).2 = l.
Proof.
  induction l as [|x l IH]; intros previous; simpl; [done|].
  destruct (continues x previous); [|done].
  specialize (IH x). destruct (run_while continues x l) as [run rest].
  simpl in *. by rewrite IH.
Qed.

Lemma CountAndMakeRun_Permutation cmp (l : list A) :
  (CountAndMakeRun cmp l).1 ++ (CountAndMakeRun cmp l).2 ≡ₚ l.
Proof.
  destruct l as [|a [|b l]]; simpl; [done|done|].
  destruct (sortCompare cmp b a <? 0).
  - pose proof (run_while_app
                  (fun current previous => sortCompare cmp current previous <? 0)
                  l b) as Happ.
    destruct (run_while _ b l) as [run rest]. simpl in *.
    rewrite <- Happ.
    change ((rev run ++ [b]) ++ [a]) with (rev (a :: b :: run)).
    change (a :: b :: run ++ rest) with ((a :: b :: run) ++ rest).
    apply Permutation_app_tail. symmetry. apply Permutation_rev.
  - pose proof (run_while_app
                  (fun current previous =>
                     negb (sortCompare cmp current previous <? 0))
                  l b) as Happ.
    destruct (run_while _ b l) as [run rest]. simpl in *. by rewrite Happ.
Qed.

Lemma Array_sort_Permutation cmp (l : list A) : Array_sort cmp l ≡ₚ l.
Proof.
  unfold Array_sort. pose proof (CountAndMakeRun_Permutation cmp l) as Hrun.
  destruct (CountAndMakeRun cmp l) as [run rest].
  by rewrite Array_sort_fold_Permutation.
Qed.

(** The binary search on a sorted stretch: everything before the
    insertion point has at most the pivot's rank, everything from it on a
    greater rank. *)
Lemma insertion_point_spec x (l : list A) :
  ranked rank x -> Forall (ranked rank) l -> StronglySorted (rank_le rank) l ->
  forall fuel left right,
    (left <= right <= length l)%nat -> (right - left <= fuel)%nat ->
    Forall (fun y => rk rank y <= rk rank x) (take left l) ->
    Forall (fun y => rk rank x < rk rank y) (drop right l) ->
    let p := insertion_point (byRank rank) x l fuel left right in
    Forall (fun y => rk rank y <= rk rank x) (take p l)
    /\ Forall (fun y => rk rank x < rk rank y) (drop p l).
Proof.
  intros Hx Hl Hs. induction fuel as [|fuel IH];
    intros left right Hrange Hfuel Hbefore Hafter; simpl.
  - by replace right with left in Hafter by lia.
  - destruct (left <? right)%nat eqn:Hlt.
    2: { apply Nat.ltb_ge in Hlt. by replace right with left in Hafter by lia. }
    apply Nat.ltb_lt in Hlt.
    pose proof (Nat.lt_div2 (right - left) ltac:(lia)) as Hhalf.
    remember (Nat.div2 (right - left)) as half eqn:Hdiv2. clear Hdiv2.
    remember (left + half)%nat as mid eqn:Hmid.
    destruct (lookup_lt_is_Some_2 l mid ltac:(lia)) as [y Hy].
    rewrite Hy.
    assert (Hyr : ranked rank y).
    { rewrite Forall_forall in Hl. apply Hl. by eapply list_elem_of_lookup_2. }
    rewrite sortCompare_byRank by done.
    rewrite <- (take_drop_middle l mid y Hy) in Hs.
    destruct (rk rank x - rk rank y <? 0) eqn:Hcmp.
    + apply Z.ltb_lt in Hcmp. apply IH; [lia|lia|done|].
      rewrite (drop_S l y mid Hy). apply Forall_cons. split; [lia|].
      apply StronglySorted_app_1_r, StronglySorted_cons in Hs as [Hle _].
      eapply Forall_impl; [exact Hle|]. unfold rank_le. simpl. lia.
    + apply Z.ltb_ge in Hcmp. apply IH; [lia|lia| |done].
      rewrite (take_S_r l mid y Hy). apply Forall_app. split.
      * apply Forall_forall. intros z Hz.
        pose proof (StronglySorted_app_1_elem_of _ _ _ z y Hs Hz
                      ltac:(by left)) as Hle.
        unfold rank_le in Hle. lia.
      * apply Forall_singleton. lia.
Qed.

Lemma binary_insert_split x (l : list A) :
  ranked rank x -> Forall (ranked rank) l -> StronglySorted (rank_le rank) l ->
  exists before after,
    l = before ++ after
    /\ binary_insert (byRank rank) l x = before ++ x :: after
    /\ Forall (fun y => rk rank y <= rk rank x) before
    /\ Forall (fun y => rk rank x < rk rank y) after.
Proof.
  intros Hx Hl Hs. unfold binary_insert.
  destruct (insertion_point_spec x l Hx Hl Hs (length l) O (length l))
    as [Hbefore Hafter]; [lia|lia|by rewrite take_0|by rewrite drop_all|].
  eexists _, _. split; [symmetry; apply take_drop|]. by split.
Qed.

Lemma binary_insert_sorted x l :
  ranked rank x -> Forall (ranked rank) l ->
  StronglySorted (rank_le rank) l ->
  StronglySorted (rank_le rank) (binary_insert (byRank rank) l x).
Proof.
  intros Hx Hl Hs.
  destruct (binary_insert_split x l Hx Hl Hs)
    as (before & after & -> & -> & Hbefore & Hafter).
  apply StronglySorted_app in Hs as (Hcross & Hsb & Hsa).
  apply StronglySorted_app_2; [|done|].
  - intros z1 z2 Hz1 Hz2. rewrite Forall_forall in Hbefore, Hafter.
    specialize (Hbefore z1 Hz1). unfold rank_le.
    apply elem_of_cons in Hz2 as [->|Hz2]; [done|].
    specialize (Hafter z2 Hz2). lia.
  - apply StronglySorted_cons. split; [|done].
    eapply Forall_impl; [exact Hafter|]. unfold rank_le. simpl. lia.
Qed.

(** Inserting [x] into a sorted list puts it behind every element of its
    own rank. *)
Lemma binary_insert_stable k x l :
  ranked rank x -> Forall (ranked rank) l -> StronglySorted (rank_le rank) l ->
  List.filter (rank_is rank k) (binary_insert (byRank rank) l x) =
  List.filter (rank_is rank k) l ++ List.filter (rank_is rank k) [x].
Proof.
  intros Hx Hl Hs.
  destruct (binary_insert_split x l Hx Hl Hs)
    as (before & after & -> & -> & Hbefore & Hafter).
  rewrite !List.filter_app. cbn [List.filter].
  destruct (rank_is rank k x) eqn:Hkx; [|by rewrite app_nil_r].
  pose proof (rank_is_rk _ _ Hkx) as Hrk.
  assert (Hnone : List.filter (rank_is rank k) after = []).
  { apply List_filter_none, Forall_forall. intros z Hz.
    destruct (rank_is rank k z) eqn:Hkz; [|done].
    apply rank_is_rk in Hkz.
    rewrite Forall_forall in Hafter. specialize (Hafter z Hz). lia. }
  by rewrite Hnone, app_nil_r.
Qed.

Lemma Array_sort_fold_spec (l : list A) :
  forall acc,
    Forall (ranked rank) acc -> Forall (ranked rank) l ->
    StronglySorted (rank_le rank) acc ->
    StronglySorted (rank_le rank) (fold_left (binary_insert (byRank rank)) l acc)
    /\ forall k,
         List.filter (rank_is rank k)
           (fold_left (binary_insert (byRank rank)) l acc) =
         List.filter (rank_is rank k) acc ++ List.filter (rank_is rank k) l.
Proof.
  induction l as [|x l IH]; intros acc Hacc Hl Hs; simpl.
  - split; [done|]. intros k. by rewrite app_nil_r.
  - apply Forall_cons in Hl as [Hx Hl].
    destruct (IH (binary_insert (byRank rank) acc x)) as [Hsorted Hstable].
    + rewrite binary_insert_Permutation. by apply Forall_cons.
    + done.
    + by apply binary_insert_sorted.
    + split; [done|]. intros k.
      rewrite Hstable, binary_insert_stable by done.
      rewrite <- app_assoc. f_equal.
      cbn [List.filter]. by destruct (rank_is rank k x).
Qed.

(** The elements that continue a run form a chain with what is before
    them. *)
Lemma run_while_chain (R : relation A) (continues : A -> A -> bool) :
  Transitive R ->
  (forall current previous,
     ranked rank current -> ranked rank previous ->
     continues current previous = true -> R previous current) ->
  forall l previous,
    ranked rank previous -> Forall (ranked rank) l ->
    StronglySorted R (previous :: (run_while continues previous l).1).
Proof.
  intros Htrans Hcont. induction l as [|x l IH]; intros previous Hp Hl; simpl.
  - repeat constructor.
  - apply Forall_cons in Hl as [Hx Hl].
    destruct (continues x previous) eqn:Hkeep; [|repeat constructor].
    specialize (IH x Hx Hl). destruct (run_while continues x l) as [run rest].
    simpl in *. apply StronglySorted_cons. split; [|done].
    apply StronglySorted_cons in IH as [Hrun _].
    pose proof (Hcont x previous Hx Hp Hkeep) as Hstep.
    apply Forall_cons. split; [done|].
    eapply Forall_impl; [exact Hrun|]. simpl. intros z Hz. by etrans.
Qed.

(** A strictly descending run holds at most one element of each rank, so
    reversing it keeps the order within each rank. *)
Lemma descending_filter_rev k (l : list A) :
  StronglySorted (fun a b => rk rank b < rk rank a) l ->
  List.filter (rank_is rank k) (rev l) = List.filter (rank_is rank k) l.
Proof.
  intros Hs. rewrite filter_rev.
  assert (Hshort : (length (List.filter (rank_is rank k) l) <= 1)%nat).
  { induction Hs as [|x l Hs IH Hx]; simpl; [lia|].
    destruct (rank_is rank k x) eqn:Hkx; [|done].
    apply rank_is_rk in Hkx.
    assert (List.filter (rank_is rank k) l = []) as ->; [|simpl; lia].
    apply List_filter_none, Forall_forall. intros z Hz.
    destruct (rank_is rank k z) eqn:Hkz; [|done].
    apply rank_is_rk in Hkz.
    rewrite Forall_forall in Hx. specialize (Hx z Hz). simpl in Hx. lia. }
  destruct (List.filter (rank_is rank k) l) as [|y [|z l']]; [done|done|].
  simpl in Hshort. lia.
Qed.

Lemma descending_rev_sorted (l : list A) :
  StronglySorted (fun a b => rk rank b < rk rank a) l ->
  StronglySorted (rank_le rank) (rev l).
Proof.
  induction 1 as [|x l Hs IH Hx]; simpl; [constructor|].
  apply StronglySorted_app_2; [|done|repeat constructor].
  intros z1 z2 Hz1 Hz2. apply list_elem_of_singleton in Hz2 as ->.
  apply list_elem_of_In, in_rev, list_elem_of_In in Hz1.
  rewrite Forall_forall in Hx. specialize (Hx z1 Hz1). unfold rank_le.
  simpl in Hx. lia.
Qed.

(** The first run of a ranked list is sorted, and holds the elements of
    each rank in the order of the list. *)
Lemma CountAndMakeRun_spec (l : list A) run rest :
  Forall (ranked rank) l ->
  CountAndMakeRun (byRank rank) l = (run, rest) ->
  Forall (ranked rank) run /\ Forall (ranked rank) rest
  /\ StronglySorted (rank_le rank) run
  /\ forall k,
       List.filter (rank_is rank k) run ++ List.filter (rank_is rank k) rest =
       List.filter (rank_is rank k) l.
Proof.
  intros Hl Heq.
  assert (Hall : Forall (ranked rank) (run ++ rest)).
  { pose proof (CountAndMakeRun_Permutation (byRank rank) l) as Hperm.
    rewrite Heq in Hperm. simpl in Hperm. by rewrite Hperm. }
  apply Forall_app in Hall as [Hrun Hrest].
  split; [done|]. split; [done|]. clear Hrun Hrest.
  destruct l as [|a [|b l]]; simpl in Heq.
  - injection Heq as <- <-. split; [constructor|done].
  - injection Heq as <- <-. split; [repeat constructor|].
    intros k. by rewrite app_nil_r.
  - apply Forall_cons in Hl as [Ha Hl]. apply Forall_cons in Hl as [Hb Hl].
    rewrite sortCompare_byRank in Heq by done.
    destruct (rk rank b - rk rank a <? 0) eqn:Hdesc.
    + apply Z.ltb_lt in Hdesc.
      assert (Htrans : Transitive (fun x y : A => rk rank y < rk rank x))
        by (intros x y z; simpl; lia).
      assert (Hstep : forall c p,
                ranked rank c -> ranked rank p ->
                (sortCompare (byRank rank) c p <? 0) = true ->
                rk rank c < rk rank p).
      { intros c p Hc Hp. rewrite sortCompare_byRank by done.
        intros Hlt%Z.ltb_lt. lia. }
      pose proof (run_while_chain (fun x y => rk rank y < rk rank x)
                    (fun current previous =>
                       sortCompare (byRank rank) current previous <? 0)
                    Htrans Hstep l b Hb Hl) as Hchain.
      pose proof (run_while_app
                    (fun current previous =>
                       sortCompare (byRank rank) current previous <? 0) l b)
        as Happ.
      destruct (run_while _ b l) as [run' rest']. simpl in Happ, Hchain.
      injection Heq as <- <-.
      assert (Hwhole : StronglySorted (fun x y => rk rank y < rk rank x)
                         (a :: b :: run')).
      { apply StronglySorted_cons. split; [|done].
        apply StronglySorted_cons in Hchain as [Hbrun _].
        apply Forall_cons. split; [lia|].
        eapply Forall_impl; [exact Hbrun|]. simpl. lia. }
      change ((rev run' ++ [b]) ++ [a]) with (rev (a :: b :: run')).
      split; [exact (descending_rev_sorted _ Hwhole)|].
      intros k.
      rewrite (descending_filter_rev k _ Hwhole), <- List.filter_app.
      simpl. by rewrite Happ.
    + apply Z.ltb_ge in Hdesc.
      assert (Htrans : Transitive (rank_le rank))
        by (intros x y z; unfold rank_le; lia).
      assert (Hstep : forall c p,
                ranked rank c -> ranked rank p ->
                negb (sortCompare (byRank rank) c p <? 0) = true ->
                rank_le rank p c).
      { intros c p Hc Hp. rewrite sortCompare_byRank by done.
        intros Hge%negb_true_iff%Z.ltb_ge. unfold rank_le. lia. }
      pose proof (run_while_chain (rank_le rank)
                    (fun current previous =>
                       negb (sortCompare (byRank rank) current previous <? 0))
                    Htrans Hstep l b Hb Hl) as Hchain.
      pose proof (run_while_app
                    (fun current previous =>
                       negb (sortCompare (byRank rank) current previous <? 0)) l b)
        as Happ.
      destruct (run_while _ b l) as [run' rest']. simpl in Happ, Hchain.
      injection Heq as <- <-.
      split.
      * apply StronglySorted_cons. split; [|done].
        apply StronglySorted_cons in Hchain as [Hbrun _].
        apply Forall_cons. split; [unfold rank_le; lia|].
        eapply Forall_impl; [exact Hbrun|]. unfold rank_le. simpl. lia.
      * intros k. rewrite <- List.filter_app. simpl. by rewrite Happ.
Qed.

(** On ranked elements [Array_sort] is the stable sort by rank. *)
Lemma Array_sort_stable_by_rank (l : list A) :
  Forall (ranked rank) l ->
  StronglySorted (rank_le rank) (Array_sort (byRank rank) l)
  /\ forall k,
       List.filter (rank_is rank k) (Array_sort (byRank rank) l) =
       List.filter (rank_is rank k) l.
Proof.
  intros Hl. unfold Array_sort.
  destruct (CountAndMakeRun (byRank rank) l) as [run rest] eqn:Heq.
  destruct (CountAndMakeRun_spec l run rest Hl Heq)
    as (Hrun & Hrest & Hsorted & Hstable).
  destruct (Array_sort_fold_spec rest run Hrun Hrest Hsorted) as [Hs Hf].
  split; [done|]. intros k. by rewrite Hf, Hstable.
Qed.

End SortByRank.

(* --------------------------------------------------------------------- *)
(** ** The report's recommendation list *)
(* --------------------------------------------------------------------- *)

Lemma collectRecommendations_filter (r : Reporter) :
  collectRecommendations r =
  map toRecommendation
    (List.filter (fun t => truthy (recommendation t)) (allFindings r)).
Proof.
  unfold collectRecommendations, allFindings.
  induction (results r) as [|c cs IH]; simpl; [done|].
  rewrite List.filter_app, map_app, IH. f_equal.
  induction (tests c) as [|t ts IHt]; simpl; [done|].
  rewrite IHt. by destruct (truthy (recommendation t)).
Qed.

(** C7 (as amended). The recommendation list holds exactly the findings
    whose [recommendation] is truthy (neither absent, [null] nor empty).
    When each of them carries one of the five severities of the order
    table, the list is sorted by rank, critical first and info last, and
    entries of the same rank keep their order of appearance. *)
Theorem recommendations_stable_sort_of_ranked (r : Reporter) :
  Forall (ranked rankOf) (collectRecommendations r) ->
  recommendations r ≡ₚ
    map toRecommendation
      (List.filter (fun t => truthy (recommendation t)) (allFindings r))
  /\ StronglySorted (fun a b => claimed_rank a <= claimed_rank b)
       (recommendations r)
  /\ forall k,
       List.filter (has_rank k) (recommendations r) =
       List.filter (has_rank k)
         (map toRecommendation
            (List.filter (fun t => truthy (recommendation t)) (allFindings r))).
Proof.
  intros Hranked. unfold recommendations.
  rewrite <- collectRecommendations_filter.
  split; [apply Array_sort_Permutation|].
  apply (Array_sort_stable_by_rank rankOf (collectRecommendations r) Hranked).
Qed.

(** C7 (as stated) fails: an entry without a severity is not moved behind
    a critical one. *)
Lemma recommendations_unranked_counterexample :
  let r :=
    addResults
      (mkCategoryResults "A"
         [ Sample.finding "x" "warning" None (Some "do x");
           Sample.finding "y" "fail" (Some "critical") (Some "do y") ])
      Reporter_new in
  map rec_name (recommendations r) = ["x"; "y"]
  /\ map claimed_rank (recommendations r) = [4; 0]
  /\ ~ StronglySorted (fun a b => claimed_rank a <= claimed_rank b)
        (recommendations r).
Proof.
  split; [reflexivity|]. split; [reflexivity|].
  intros Hs. vm_compute in Hs.
  apply StronglySorted_cons in Hs as [Hle _].
  apply Forall_cons in Hle as [Hle _]. by apply Hle.
Qed.

(** Three entries of which the middle one has a severity outside
    [severityOrder]: no difference is negative, so the first run is the
    whole list and the critical entry stays last. *)
Example recommendations_unranked_in_the_middle :
  let r :=
    addResults
      (mkCategoryResults "A"
         [ Sample.finding "x" "warning" (Some "low") (Some "do x");
           Sample.finding "y" "warning" (Some "none") (Some "do y");
           Sample.finding "z" "fail" (Some "critical") (Some "do z") ])
      Reporter_new in
  map rec_name (recommendations r) = ["x"; "y"; "z"].
Proof. reflexivity. Qed.

(** The amended statement on a report with ranked recommendations. *)
Lemma recommendations_stable_sort_of_ranked_witness :
  let r :=
    addResults
      (mkCategoryResults "A"
         [ Sample.finding "a" "warning" (Some "low") (Some "do a");
           Sample.finding "b" "fail" (Some "critical") (Some "do b");
           Sample.finding "c" "warning" (Some "low") (Some "do c");
           Sample.finding "d" "pass" (Some "info") None ])
      Reporter_new in
  StronglySorted (fun a b => claimed_rank a <= claimed_rank b) (recommendations r)
  /\ map rec_name (recommendations r) = ["b"; "a"; "c"].
Proof.
  intros r.
  destruct (recommendations_stable_sort_of_ranked r) as (_ & Hsorted & _).
  - vm_compute. repeat constructor; by eexists.
  - split; [exact Hsorted | reflexivity].
Defined.

(* --------------------------------------------------------------------- *)
(** ** Rendering the markdown report *)
(* --------------------------------------------------------------------- *)

Lemma String_length_app (s t : string) :
  String.length (s +:+ t) = (String.length s + String.length t)%nat.
Proof. induction s as [|c s IH]; simpl; [done|]. by rewrite IH. Qed.

Lemma String_app_inj_r (s1 s2 t : string) : s1 +:+ t = s2 +:+ t -> s1 = s2.
Proof.
  revert s2. induction s1 as [|a s1 IH]; intros [|b s2] Heq; simpl in Heq.
  - done.
  - apply (f_equal String.length) in Heq.
    rewrite ?String_length_app in Heq. simpl in Heq.
    rewrite ?String_length_app in Heq. lia.
  - apply (f_equal String.length) in Heq.
    rewrite ?String_length_app in Heq. simpl in Heq.
    rewrite ?String_length_app in Heq. lia.
  - injection Heq as -> Heq. f_equal. by apply IH.
Qed.

Section RenderProperties.
Context {W : Type} `{Host W}.

Lemma generateLinearReport_run (r : Reporter) (e : Env W) :
  generateLinearReport r e =
    (Ok (reportHead r +:+
         toLocaleString_esES (fst (Date_now (world e))) +:+ reportTail r),
     mkEnv (snd (Date_now (world e))) (console e)).
Proof.
  unfold generateLinearReport.
  erewrite bind_ok; [|apply new_Date_run]. reflexivity.
Qed.

Lemma copyToClipboard_run (r : Reporter) (e : Env W) :
  copyToClipboard r e =
    (Ok (reportHead r +:+
         toLocaleString_esES (fst (Date_now (world e))) +:+ reportTail r),
     mkEnv (snd (Date_now (world e))) (console e)).
Proof.
  unfold copyToClipboard.
  erewrite bind_ok; [|apply generateLinearReport_run]. reflexivity.
Qed.

(** C8 (as amended). Rendering always yields a text, prints nothing and
    reads nothing but the clock, once, for the "Fecha" line. Two
    renderings of the same report are byte-identical exactly when the
    clock readings of the two calls format to the same es-ES date and
    time. *)
Theorem copyToClipboard_same_text_iff_same_date (r : Reporter) (e1 e2 : Env W) :
  (exists text, fst (copyToClipboard r e1) = Ok text)
  /\ snd (copyToClipboard r e1) = mkEnv (snd (Date_now (world e1))) (console e1)
  /\ (fst (copyToClipboard r e1) = fst (copyToClipboard r e2) <->
      toLocaleString_esES (fst (Date_now (world e1))) =
      toLocaleString_esES (fst (Date_now (world e2)))).
Proof.
  rewrite !copyToClipboard_run. simpl.
  split; [by eexists|]. split; [done|]. split.
  - intros Heq. injection Heq as Heq.
    apply String.app_inj in Heq. by apply String_app_inj_r in Heq.
  - by intros ->.
Qed.

End RenderProperties.

(** C8 (as stated) fails: the report of a finished scan is rendered at
    19:47:59 and again one second later, and the two texts differ. *)
Lemma copyToClipboard_twice_counterexample :
  let r :=
    {| results :=
         [ mkCategoryResults "Respuesta HTTP"
             [Sample.finding "Código de Estado" "pass" (Some "info") None] ];
       url := "https://example.com";
       startTime := Some 1793562400000;
       endTime := Some 1793562402000 |} in
  let e := Sample.env0 (Sample.quiet_world 1793562479000) in
  toLocaleString_esES (fst (Date_now (world e))) = "1/11/2026, 19:47:59"
  /\ toLocaleString_esES (fst (Date_now (world (snd (copyToClipboard r e)))))
     = "1/11/2026, 19:48:00"
  /\ fst (copyToClipboard r e) <> fst (copyToClipboard r (snd (copyToClipboard r e))).
Proof.
  split; [reflexivity|]. split; [reflexivity|].
  intros Heq. vm_compute in Heq. discriminate Heq.
Qed.

(* --------------------------------------------------------------------- *)
(** ** Computations that always return *)
(* --------------------------------------------------------------------- *)

Lemma returns_ret {S A} (a : A) (Q : A -> Prop) :
  Q a -> returns (S := S) (ret a) Q.
Proof. intros Ha s. by exists a, s. Qed.

Lemma returns_bind {S A B} (m : M S A) (k : A -> M S B) P (Q : B -> Prop) :
  returns m P -> (forall a, P a -> returns (k a) Q) -> returns (bind m k) Q.
Proof.
  intros Hm Hk s. destruct (Hm s) as (a & s1 & Hrun & Ha).
  destruct (Hk a Ha s1) as (b & s2 & Hrun2 & Hb).
  exists b, s2. by erewrite bind_ok.
Qed.

(** A [try] block whose handler returns does not throw, whatever the
    body does. *)
Lemma returns_try_catch {S A} (body : M S A) handler :
  (forall err, returns (handler err) (fun _ => True)) ->
  returns (try_catch body handler) (fun _ => True).
Proof.
  intros Hh s. unfold try_catch.
  destruct (body s) as [[a|err] s']; [by exists a, s'|apply Hh].
Qed.

Lemma returns_when {S} (c : bool) (m : M S unit) :
  returns m (fun _ => True) -> returns (when c m) (fun _ => True).
Proof. intros Hm. destruct c; [done|]. by apply returns_ret. Qed.

Lemma returns_modify {S} (f : S -> S) : returns (modify f) (fun _ => True).
Proof. intros s. by exists tt, (f s). Qed.

(* --------------------------------------------------------------------- *)
(** ** Loading the monitor's files *)
(* --------------------------------------------------------------------- *)

Section LoadProperties.
Context {W : Type} `{Host W} `{MonitorHost W}.

(** The shape shared by [loadConfig] and [loadState]. *)
Lemma load_unusable {A} (parse : string -> Result A) path (fallback : A)
    (e : Env W) :
  unusable parse path (world e) ->
  try_catch
    (ex <- gets (fun e => fs_existsSync path (world e)) ;;
     if ex : bool then
       text <- host_read (fs_readFileSync path) ;;
       host_read (fun _ => parse text)
     else ret fallback)
    (fun _ => ret fallback) e = (Ok fallback, e).
Proof.
  intros Hbad. unfold try_catch, bind, gets, host_read, ret.
  destruct (fs_existsSync path (world e)) eqn:Hex; [|done].
  destruct Hbad as [Hmiss|[(err & Hread)|(text & err & Hread & Hparse)]].
  - congruence.
  - by rewrite Hread.
  - by rewrite Hread, Hparse.
Qed.

Lemma load_returns {A} (parse : string -> Result A) path (fallback : A)
    (e : Env W) :
  exists a,
    try_catch
      (ex <- gets (fun e => fs_existsSync path (world e)) ;;
       if ex : bool then
         text <- host_read (fs_readFileSync path) ;;
         host_read (fun _ => parse text)
       else ret fallback)
      (fun _ => ret fallback) e = (Ok a, e).
Proof.
  unfold try_catch, bind, gets, host_read, ret.
  destruct (fs_existsSync path (world e)); [|by eexists].
  destruct (fs_readFileSync path (world e)) as [text|err]; [|by eexists].
  destruct (parse text); by eexists.
Qed.

Lemma LinearClient_new_returns (e : Env W) :
  exists l, LinearClient_new e = (Ok l, e).
Proof.
  unfold LinearClient_new, try_catch, bind, gets, host_read, ret.
  destruct (fs_existsSync LINEAR_CONFIG_PATH (world e)); [|by eexists].
  destruct (fs_readFileSync LINEAR_CONFIG_PATH (world e)) as [text|err];
    [|by eexists].
  destruct (JSON_parse_apiKey text); by eexists.
Qed.

(** C10. Constructing a monitor never throws and changes nothing. A
    config file that is missing, unreadable or unparsable yields the
    built-in configuration, and such a state file yields the empty state:
    no last check, no alert timestamps, no history. *)
Theorem Monitor_new_falls_back_to_defaults (e : Env W) :
  (exists m, Monitor_new e = (Ok m, e))
  /\ (unusable JSON_parse_config CONFIG_PATH (world e) ->
      loadConfig e = (Ok default_config, e))
  /\ (unusable JSON_parse_state STATE_PATH (world e) ->
      loadState e = (Ok default_state, e))
  /\ (unusable JSON_parse_config CONFIG_PATH (world e) ->
      unusable JSON_parse_state STATE_PATH (world e) ->
      exists l,
        Monitor_new e =
          (Ok {| config :=
                   {| urls := []; teamId := None;
                      assigneeId := "09375327-6e18-4035-ac85-233f290392bb";
                      checks := {| httpStatus := true; responseTime := true;
                                   sslExpiry := true; jsErrors := false |};
                      thresholds := {| th_responseTime := 5000;
                                       sslExpiryDays := 14 |} |};
                 state := {| lastCheck := None; alerts := ∅; history := [] |};
                 linear := l |}, e)).
Proof.
  assert (Hnew : forall c s,
    loadConfig e = (Ok c, e) -> loadState e = (Ok s, e) ->
    exists l, Monitor_new e = (Ok (mkMonitor c s l), e)).
  { intros c s Hc Hs. destruct (LinearClient_new_returns e) as [l Hl].
    exists l. unfold Monitor_new.
    erewrite bind_ok by exact Hc. erewrite bind_ok by exact Hs.
    erewrite bind_ok by exact Hl. reflexivity. }
  split; [|split; [|split]].
  - destruct (load_returns JSON_parse_config CONFIG_PATH default_config e)
      as [c Hc].
    destruct (load_returns JSON_parse_state STATE_PATH default_state e)
      as [s Hs].
    destruct (Hnew c s Hc Hs) as [l Hl]. eauto.
  - apply load_unusable.
  - apply load_unusable.
  - intros Hc Hs. apply Hnew; by apply load_unusable.
Qed.

End LoadProperties.

(** C10 on a host without a config file and with a corrupt state file. *)
Lemma Monitor_new_falls_back_to_defaults_witness :
  let w :=
    {| Sample.time := 0;
       Sample.http := fun _ => Ok 200;
       Sample.tls := fun _ => Throw (mkError "ECONNREFUSED");
       Sample.tracker := fun _ => Throw (mkError "Network Error");
       Sample.files := [(STATE_PATH, "{ lastCheck: 2026-")] |} in
  exists l,
    Monitor_new (Sample.env0 w) =
      (Ok (mkMonitor default_config default_state l), Sample.env0 w).
Proof.
  intros w.
  destruct (Monitor_new_falls_back_to_defaults (Sample.env0 w))
    as (_ & _ & _ & Hdefaults).
  apply Hdefaults.
  - left. reflexivity.
  - right. right. eexists _, _. split; reflexivity.
Defined.

(* --------------------------------------------------------------------- *)
(** ** checkUrl: issues and overall status *)
(* --------------------------------------------------------------------- *)

Lemma overallStatus_claimed (issues : list Issue) :
  overallStatus issues = claimed_status issues.
Proof. unfold overallStatus, claimed_status. by destruct issues. Qed.

Section Tracking.
Context {W : Type} `{Host W} `{MonitorHost W}.

Lemma host_call_run {A} (f : W -> Result A * W) (e : Env W) :
  host_call f e = (fst (f (world e)), mkEnv (snd (f (world e))) (console e)).
Proof. unfold host_call. by destruct (f (world e)). Qed.

Lemma returns_new_Date : returns (S := Env W) new_Date (fun _ => True).
Proof. intros e. rewrite new_Date_run. by eexists _, _. Qed.

Lemma returns_console_log line :
  returns (S := Env W) (console_log line) (fun _ => True).
Proof. apply returns_modify. Qed.

Lemma when_console_log_run verbose line (e : Env W) :
  when verbose (console_log line) e =
    (Ok tt, mkEnv (world e) (console e ++ (if verbose then [line] else []))).
Proof.
  destruct verbose; simpl; [done|]. unfold ret. rewrite app_nil_r. by destruct e.
Qed.

Lemma observes_trans (w1 w2 w3 : W) :
  observes w1 w2 -> observes w2 w3 -> observes w1 w3.
Proof.
  intros H12 H23. induction H23 as [w2|w2 w3 _ IH|u w2 w3 _ IH|u w2 w3 _ IH].
  - done.
  - by apply observes_clock, IH.
  - by apply observes_get, IH.
  - by apply observes_tls, IH.
Qed.

Lemma tracks_ret {A} (a : A) : tracks (W := W) (ret a).
Proof. intros e r e' [= <- <-]. constructor. Qed.

Lemma tracks_throw {A} err : tracks (W := W) (throw (A := A) err).
Proof. intros e r e' [= <- <-]. constructor. Qed.

Lemma tracks_bind {A B} (c : M (Env W) A) (k : A -> M (Env W) B) :
  tracks c -> (forall a, tracks (k a)) -> tracks (bind c k).
Proof.
  intros Hc Hk e r e' Hrun. unfold bind in Hrun.
  destruct (c e) as [[a|err] e1] eqn:Hce.
  - eapply observes_trans; [by eapply Hc|by eapply Hk].
  - injection Hrun as <- <-. by eapply Hc.
Qed.

Lemma tracks_try_catch {A} (c : M (Env W) A) (h : Error -> M (Env W) A) :
  tracks c -> (forall err, tracks (h err)) -> tracks (try_catch c h).
Proof.
  intros Hc Hh e r e' Hrun. unfold try_catch in Hrun.
  destruct (c e) as [[a|err] e1] eqn:Hce.
  - injection Hrun as <- <-. by eapply Hc.
  - eapply observes_trans; [by eapply Hc|by eapply Hh].
Qed.

Lemma tracks_new_Date : tracks (W := W) new_Date.
Proof.
  intros e r e'. rewrite new_Date_run. intros [= <- <-]. simpl.
  apply observes_clock, observes_refl.
Qed.

Lemma tracks_axios_get u : tracks (host_call (axios_get u)).
Proof.
  intros e r e'. rewrite host_call_run. intros [= <- <-]. simpl.
  apply observes_get, observes_refl.
Qed.

Lemma tracks_tls_handshake u : tracks (host_call (tls_handshake u)).
Proof.
  intros e r e'. rewrite host_call_run. intros [= <- <-]. simpl.
  apply observes_tls, observes_refl.
Qed.

Lemma tracks_console_log line : tracks (W := W) (console_log line).
Proof. intros e r e' [= <- <-]. simpl. constructor. Qed.

Lemma tracks_when c (m : M (Env W) unit) : tracks m -> tracks (when c m).
Proof. intros Hm. destruct c; [done|apply tracks_ret]. Qed.

Lemma tracks_for_of {A B} (body : A -> B -> M (Env W) B) (l : list A) :
  (forall x acc, tracks (body x acc)) -> forall acc, tracks (for_of l body acc).
Proof.
  intros Hbody. induction l as [|x l IH]; intros acc.
  - apply tracks_ret.
  - rewrite for_of_cons. by apply tracks_bind.
Qed.

End Tracking.

(** Decomposes a goal [tracks c] along the structure of [c]. *)
Ltac tracking :=
  repeat first
    [ apply tracks_ret | apply tracks_throw | apply tracks_new_Date
    | apply tracks_axios_get | apply tracks_tls_handshake
    | apply tracks_console_log | apply tracks_when
    | apply tracks_bind | apply tracks_try_catch
    | match goal with
      | |- forall _, _ => intro
      | |- tracks (if ?c then _ else _) => destruct c
      | |- tracks (match ?c with Some _ => _ | None => _ end) => destruct c
      end ].

Section CheckUrlProperties.
Context {W : Type} `{Host W} `{MonitorHost W}.

Lemma URL_hostname_run u (e : Env W) :
  URL_canParse u = true -> URL_hostname u e = (Ok (hostname u), e).
Proof. unfold URL_hostname. by intros ->. Qed.

Lemma URL_hostname_throw u (e : Env W) :
  URL_canParse u = false ->
  URL_hostname u e = (Throw (mkError "Invalid URL"), e).
Proof. unfold URL_hostname. by intros ->. Qed.

(** The HTTP block resolves for a URL that parses, whatever the request
    does. *)
Lemma httpStatusCheck_returns cfg u :
  URL_canParse u = true -> returns (httpStatusCheck cfg u) (fun _ => True).
Proof.
  intros Hparse. apply returns_try_catch. intros err.
  eapply returns_bind with (P := fun _ => True).
  { intros e. rewrite URL_hostname_run by done. by eexists _, _. }
  intros host _.
  eapply returns_bind; [apply returns_new_Date|].
  intros now _. by apply returns_ret.
Qed.

(** The HTTP block rejects only from its [catch] block, when the URL does
    not parse. *)
Lemma httpStatusCheck_throw_inv cfg u (e : Env W) err e' :
  httpStatusCheck cfg u e = (Throw err, e') ->
  URL_canParse u = false /\ err = mkError "Invalid URL".
Proof.
  intros Hrun. destruct (URL_canParse u) eqn:Hparse.
  - destruct (httpStatusCheck_returns cfg u Hparse e) as (a & e1 & Hok & _).
    congruence.
  - split; [done|]. unfold httpStatusCheck, try_catch in Hrun.
    match type of Hrun with
    | context [match ?body e with _ => _ end] =>
        destruct (body e) as [[a|err0] e1]; [done|]
    end.
    rewrite (bind_throw _ _ _ _ _ (URL_hostname_throw u e1 Hparse)) in Hrun.
    congruence.
Qed.

Lemma sslCheck_returns cfg u : returns (sslCheck cfg u) (fun _ => True).
Proof.
  apply returns_try_catch. intros err. by apply returns_ret.
Qed.

Lemma httpBlock_returns cfg u :
  URL_canParse u = true -> returns (httpBlock cfg u) (fun _ => True).
Proof.
  intros Hparse. unfold httpBlock.
  destruct (httpStatus (checks cfg));
    [by apply httpStatusCheck_returns | by apply returns_ret].
Qed.

Lemma checkUrl_httpBlock m u :
  checkUrl m u =
    (now <- new_Date ;;
     http <- httpBlock (config m) u ;;
     ssl <-
       (if sslExpiry (checks (config m)) && startsWith "https://" u
        then sslCheck (config m) u
        else ret ([], None)) ;;
     ret {| r_url := u;
            r_timestamp := toISOString now;
            r_status := overallStatus (fst http ++ fst ssl);
            r_checks :=
              mkCheckValues (chk_httpStatus (snd http))
                (chk_responseTime (snd http)) (chk_error (snd http)) (snd ssl);
            issues := fst http ++ fst ssl |})%js.
Proof. reflexivity. Qed.

(** [checkUrl] resolves for a URL that parses. *)
Lemma checkUrl_returns m u :
  URL_canParse u = true -> returns (checkUrl m u) (fun _ => True).
Proof.
  intros Hparse. rewrite checkUrl_httpBlock.
  eapply returns_bind; [apply returns_new_Date|]. intros now _.
  eapply returns_bind; [by apply httpBlock_returns|].
  intros http _.
  eapply returns_bind.
  { destruct (sslExpiry (checks (config m)) && startsWith "https://" u);
      [apply sslCheck_returns | by apply returns_ret]. }
  intros ssl _. by apply returns_ret.
Qed.

(** Whenever [checkUrl] resolves, the result is for the URL it was given
    and its status is computed from the issues it reports. *)
Lemma checkUrl_ok m u (e : Env W) r e' :
  checkUrl m u e = (Ok r, e') ->
  r_url r = u /\ r_status r = overallStatus (issues r).
Proof.
  rewrite checkUrl_httpBlock. intros Hrun.
  rewrite (bind_ok _ _ _ _ _ (new_Date_run e)) in Hrun.
  unfold bind in Hrun.
  destruct (httpBlock _ _ _) as [[http|err] e1]; [|done].
  match type of Hrun with
  | context [?ssl e1] => destruct (ssl e1) as [[ssl_result|err] e2]; [|done]
  end.
  by injection Hrun as <- <-.
Qed.

(** [checkUrl] rejects only when the HTTP check is on and the URL does not
    parse. *)
Lemma checkUrl_throw_inv m u (e : Env W) err e' :
  checkUrl m u e = (Throw err, e') ->
  httpStatus (checks (config m)) = true
  /\ URL_canParse u = false /\ err = mkError "Invalid URL".
Proof.
  rewrite checkUrl_httpBlock. intros Hrun.
  rewrite (bind_ok _ _ _ _ _ (new_Date_run e)) in Hrun.
  unfold bind in Hrun.
  destruct (httpBlock _ _ _) as [[http|err0] e1] eqn:Hhttp.
  - destruct (sslExpiry (checks (config m)) && startsWith "https://" u).
    + destruct (sslCheck_returns (config m) u e1) as (ssl & e2 & Hssl & _).
      by rewrite Hssl in Hrun.
    + done.
  - injection Hrun as <- <-. unfold httpBlock in Hhttp.
    destruct (httpStatus (checks (config m))); [|done].
    split; [done|]. by eapply httpStatusCheck_throw_inv.
Qed.

(** [checkUrl] reads the configuration only. *)
Lemma checkUrl_config m1 m2 u :
  config m1 = config m2 -> checkUrl (W := W) m1 u = checkUrl m2 u.
Proof. unfold checkUrl. by intros ->. Qed.

Lemma tracks_checkUrl m u : tracks (checkUrl m u).
Proof.
  unfold checkUrl, httpStatusCheck, sslCheck, checkSSL, URL_hostname.
  tracking.
Qed.

(** The HTTP block on a response with status 500 or more: one critical
    issue of priority 1, followed at most by the slow-response warning. *)
Lemma httpStatusCheck_5xx cfg u (e : Env W) status w3 :
  axios_get u (snd (Date_now (world e))) = (Ok status, w3) ->
  500 <= status ->
  exists crit slow chk e',
    httpStatusCheck cfg u e = (Ok (crit :: slow, chk), e')
    /\ type crit = "critical" /\ priority crit = 1
    /\ title crit = "🔴 ERROR " +:+ pretty status +:+ " en " +:+ hostname u
    /\ Forall (fun i => type i = "warning" /\ priority i = 3) slow.
Proof.
  intros Hget Hstatus. unfold httpStatusCheck.
  set (e1 := mkEnv (snd (Date_now (world e))) (console e)).
  set (e2 := mkEnv w3 (console e)).
  set (e3 := mkEnv (snd (Date_now w3)) (console e)).
  set (e4 := mkEnv (snd (Date_now (world e3))) (console e)).
  set (responseTime := fst (Date_now w3) - fst (Date_now (world e))).
  assert (Hslow : exists slow e',
    (if th_responseTime (thresholds cfg) <? responseTime
     then
       now <- new_Date ;;
       ret [ {| type := "warning";
                title := "🟡 Respuesta lenta en " +:+ hostname u;
                i_description :=
                  "El sitio tardó " +:+ pretty responseTime +:+
                  "ms en responder (umbral: " +:+
                  pretty (th_responseTime (thresholds cfg)) +:+ "ms)."
                  +:+ nl +:+ nl +:+ "URL: " +:+ u +:+ nl +:+
                  "Tiempo: " +:+ toLocaleString now;
                priority := 3 |} ]
     else ret []) e4 = (Ok slow, e')
    /\ Forall (fun i => type i = "warning" /\ priority i = 3) slow).
  { destruct (th_responseTime (thresholds cfg) <? responseTime).
    - eexists _, _. erewrite bind_ok by apply new_Date_run.
      split; [reflexivity|]. by repeat constructor.
    - eexists _, _. split; [reflexivity|]. constructor. }
  destruct Hslow as (slow & e' & Hslow & Hwarn).
  eexists _, slow, _, e'. split.
  { apply try_catch_ok.
    erewrite bind_ok by apply new_Date_run. fold e1.
    erewrite bind_ok; cycle 1.
    { rewrite host_call_run. simpl. rewrite Hget. reflexivity. }
    simpl. fold e2.
    erewrite bind_ok by apply new_Date_run. simpl. fold e3.
    apply Z.leb_le in Hstatus. rewrite Hstatus.
    erewrite bind_ok; cycle 1.
    { erewrite bind_ok by apply new_Date_run. reflexivity. }
    fold e4. fold responseTime.
    erewrite bind_ok by exact Hslow. reflexivity. }
  by repeat split.
Qed.

(** C4. (1) Whenever [checkUrl] resolves, the result is for the URL it was
    given, and the status of the URL is critical if a critical issue was
    produced, else warning if any issue was produced, else ok. It
    resolves for every URL that parses; it rejects only when the HTTP
    check is on and the URL does not parse, with the parser's error.
    (2) When the HTTP check is enabled and the response status is 500 or
    more, the HTTP check contributes exactly one critical issue, of
    priority 1, and the status is critical. *)
Theorem checkUrl_5xx_critical_and_status_rule (m : Monitor) (u : string)
    (e : Env W) :
  (forall r e',
     checkUrl m u e = (Ok r, e') ->
     r_url r = u /\ r_status r = claimed_status (issues r))
  /\ (URL_canParse u = true -> exists r e', checkUrl m u e = (Ok r, e'))
  /\ (forall err e',
        checkUrl m u e = (Throw err, e') ->
        httpStatus (checks (config m)) = true
        /\ URL_canParse u = false /\ err = mkError "Invalid URL")
  /\ forall status w3,
       httpStatus (checks (config m)) = true ->
       axios_get u (snd (Date_now (snd (Date_now (world e))))) = (Ok status, w3) ->
       500 <= status ->
       exists r e' crit slow others,
         checkUrl m u e = (Ok r, e')
         /\ issues r = crit :: slow ++ others
         /\ type crit = "critical" /\ priority crit = 1
         /\ title crit = "🔴 ERROR " +:+ pretty status +:+ " en " +:+ hostname u
         /\ Forall (fun i => type i = "warning" /\ priority i = 3) slow
         /\ (exists chk e1,
               httpStatusCheck (config m) u
                 (mkEnv (snd (Date_now (world e))) (console e)) =
               (Ok (crit :: slow, chk), e1))
         /\ r_status r = "critical".
Proof.
  split; [|split; [|split]].
  - intros r e' Hrun. rewrite <- overallStatus_claimed.
    by eapply checkUrl_ok.
  - intros Hparse.
    destruct (checkUrl_returns m u Hparse e) as (r & e' & Hrun & _).
    by exists r, e'.
  - intros err e'. apply checkUrl_throw_inv.
  - intros status w3 Henabled Hget Hstatus.
    destruct (httpStatusCheck_5xx (config m) u
                (mkEnv (snd (Date_now (world e))) (console e)) status w3
                Hget Hstatus)
      as (crit & slow & chk & e1 & Hhttp & Htype & Hprio & Htitle & Hslow).
    assert (Hssl : returns
      (if sslExpiry (checks (config m)) && startsWith "https://" u
       then sslCheck (config m) u else ret ([], None)) (fun _ => True)).
    { destruct (sslExpiry (checks (config m)) && startsWith "https://" u);
        [apply sslCheck_returns | by apply returns_ret]. }
    destruct (Hssl e1) as ([others sslchk] & e2 & Hsslrun & _).
    eexists _, e2, crit, slow, others. split.
    { unfold checkUrl.
      erewrite bind_ok by apply new_Date_run.
      rewrite Henabled. erewrite bind_ok by exact Hhttp.
      erewrite bind_ok by exact Hsslrun. reflexivity. }
    simpl. repeat split; try done.
    + by exists chk, e1.
    + unfold overallStatus. simpl. by rewrite Htype.
Qed.

End CheckUrlProperties.

(** C4 on a site that answers 503. *)
Lemma checkUrl_5xx_critical_and_status_rule_witness :
  exists r e' crit slow others,
    checkUrl (Sample.configured ∅) "https://example.com/"
      (Sample.env0 (Sample.answering 503 1793562479000)) = (Ok r, e')
    /\ issues r = crit :: slow ++ others
    /\ type crit = "critical" /\ priority crit = 1
    /\ title crit = "🔴 ERROR 503 en example.com"
    /\ r_status r = "critical".
Proof.
  destruct (checkUrl_5xx_critical_and_status_rule (Sample.configured ∅)
              "https://example.com/"
              (Sample.env0 (Sample.answering 503 1793562479000)))
    as (_ & _ & _ & H5xx).
  destruct (H5xx 503 (Sample.answering 503 1793562481000))
    as (r & e' & crit & slow & others & Hrun & Hissues & Htype & Hprio
        & Htitle & _ & _ & Hstatus).
  - reflexivity.
  - reflexivity.
  - lia.
  - exists r, e', crit, slow, others. by repeat split.
Defined.

(** A URL of the list that does not parse: [addUrl] stores it, and the
    check of it rejects once the request has failed. *)
Example checkUrl_rejects_unparsable_url :
  let e := Sample.env0 (Sample.quiet_world 1793562479000) in
  match addUrl "example.com" (Sample.configured ∅) e with
  | (Ok (added, m), e1) =>
      added = true
      /\ urls (config m) = ["https://example.com/"; "example.com"]
      /\ fst (checkUrl m "example.com" e1) = Throw (mkError "Invalid URL")
  | (Throw _, _) => False
  end.
Proof. vm_compute. repeat split. Qed.

(* --------------------------------------------------------------------- *)
(** ** Alert deduplication *)
(* --------------------------------------------------------------------- *)

Lemma isNewAlert_due (lastAlert : option Z) (now : Z) :
  lastAlert <> Some 0 -> (isNewAlert lastAlert now = true <-> due lastAlert now).
Proof.
  intros Hnz. unfold isNewAlert, due, COOLDOWN. destruct lastAlert as [t|].
  - assert ((t =? 0) = false) as -> by (apply Z.eqb_neq; congruence).
    simpl. rewrite Z.ltb_lt. split.
    + intros Hlt. right. eauto.
    + intros [Hnone|(t' & Ht & Hlt)]; [done|]. by injection Ht as ->.
  - split; [by left|done].
Qed.

Lemma isNewAlert_within_cooldown T later :
  T <> 0 -> later - T <= 4 * 60 * 60 * 1000 ->
  isNewAlert (Some T) later = false.
Proof.
  intros Hnz Hle. unfold isNewAlert, COOLDOWN.
  apply orb_false_intro; [by apply Z.eqb_neq | by apply Z.ltb_ge].
Qed.

Lemma setAlert_lookup key now m : alerts (state (setAlert key now m)) !! key = Some now.
Proof. simpl. apply lookup_insert_eq. Qed.

Lemma slice_last_length {A} (k : nat) (l : list A) :
  length (slice_last k l) = Nat.min k (length l).
Proof. unfold slice_last. rewrite length_drop. lia. Qed.

Lemma slice_last_short {A} (k : nat) (l : list A) :
  (length l <= k)%nat -> slice_last k l = l.
Proof.
  intros Hle. unfold slice_last.
  by replace (length l - k)%nat with O by lia.
Qed.

Lemma slice_last_app_slice {A} (k : nat) (l l' : list A) :
  slice_last k (slice_last k l ++ l') = slice_last k (l ++ l').
Proof.
  destruct (decide (length l <= k)%nat) as [Hle|Hgt].
  - by rewrite (slice_last_short k l).
  - unfold slice_last at 1 3.
    rewrite !length_app, slice_last_length.
    unfold slice_last.
    rewrite <- (drop_app_le l l' (length l - k)) by lia.
    rewrite drop_drop. f_equal. lia.
Qed.

Lemma slice_last_last {A} (k : nat) (l : list A) (x : A) :
  (0 < k)%nat -> last (slice_last k (l ++ [x])) = Some x.
Proof.
  intros Hk. unfold slice_last. rewrite length_app. simpl.
  rewrite drop_app_le by lia. apply last_snoc.
Qed.

Lemma producedIssues_app (r1 r2 : list CheckResult) :
  producedIssues (r1 ++ r2) = producedIssues r1 ++ producedIssues r2.
Proof. unfold producedIssues. apply flat_map_app. Qed.

(** On the sample host the clock never runs backwards, and observing the
    world leaves the files alone. *)
Lemma sample_observes (w w' : Sample.World) :
  observes w w' ->
  Sample.time w <= Sample.time w' /\ Sample.files w' = Sample.files w.
Proof.
  induction 1 as [w|w w' _ [IHt IHf]|u w w' _ [IHt IHf]|u w w' _ [IHt IHf]];
    simpl.
  - done.
  - split; [lia|done].
  - by destruct (Sample.canParse u).
  - by destruct (Sample.canParse u).
Qed.

Lemma sample_reading (w : Sample.World) now :
  reading w now -> Sample.time w <= now.
Proof.
  intros (w' & Hobs & ->). simpl. by apply sample_observes.
Qed.

Section DedupRule.
Context {W : Type} `{Host W} `{MonitorHost W}.
Variable fresh : option Z -> Z -> Prop.
Variable w0 : W.

Lemma dedup_run_app l0 p1 b1 l1 p2 b2 l2 :
  dedup_run fresh w0 l0 p1 b1 l1 ->
  dedup_run fresh w0 l1 p2 b2 l2 ->
  dedup_run fresh w0 l0 (p1 ++ p2) (b1 ++ b2) l2.
Proof.
  induction 1 as [l|l ui p b l' now Hnow Hfresh _ IH|l ui p b l' now Hnow Hfresh _ IH];
    intros Hrest; simpl.
  - done.
  - eapply dedup_include; eauto.
  - eapply dedup_suppress; eauto.
Qed.

(** The batch is drawn from the produced issues, in order. *)
Lemma dedup_run_sublist l p b l' :
  dedup_run fresh w0 l p b l' -> b `sublist_of` p.
Proof.
  induction 1; [constructor|by apply sublist_skip|by apply sublist_cons].
Qed.

(** No key leaves the ledger. *)
Lemma dedup_run_keeps_keys l p b l' k :
  dedup_run fresh w0 l p b l' -> is_Some (l !! k) -> is_Some (l' !! k).
Proof.
  induction 1 as [l|l ui p b l' now _ _ _ IH|l ui p b l' now _ _ _ IH];
    intros Hk; [done| |by apply IH].
  apply IH. by apply lookup_insert_is_Some'; right.
Qed.

(** A key that is not the key of an issue of the batch keeps its
    timestamp. *)
Lemma dedup_run_unchanged l p b l' k :
  dedup_run fresh w0 l p b l' ->
  (forall ui, ui ∈ b -> claimed_key ui <> k) -> l' !! k = l !! k.
Proof.
  induction 1 as [l|l ui p b l' now _ _ _ IH|l ui p b l' now _ _ _ IH];
    intros Hk; [done| |by apply IH].
  rewrite IH.
  - apply lookup_insert_ne. apply Hk. by left.
  - intros ui' Hin. apply Hk. by right.
Qed.

(** A key that holds a clock reading of the cycle holds one afterwards. *)
Lemma dedup_run_reading l p b l' k T :
  dedup_run fresh w0 l p b l' ->
  l !! k = Some T -> reading w0 T ->
  exists T', l' !! k = Some T' /\ reading w0 T'.
Proof.
  intros Hrun. revert T.
  induction Hrun as [l|l ui p b l' now Hnow _ _ IH|l ui p b l' now _ _ _ IH];
    intros T HT Hread; [by exists T| |by eapply IH].
  destruct (decide (claimed_key ui = k)) as [<-|Hne].
  - apply (IH now); [apply lookup_insert_eq|done].
  - apply (IH T); [by rewrite lookup_insert_ne|done].
Qed.

(** The key of every issue of the batch holds a clock reading of the
    cycle. *)
Lemma dedup_run_batch_stored l p b l' :
  dedup_run fresh w0 l p b l' ->
  Forall (fun ui => exists T, l' !! claimed_key ui = Some T /\ reading w0 T) b.
Proof.
  induction 1 as [l|l ui p b l' now Hnow _ Hrest IH|l ui p b l' now _ _ _ IH];
    [constructor| |done].
  constructor; [|done].
  eapply dedup_run_reading; [exact Hrest|apply lookup_insert_eq|done].
Qed.

End DedupRule.

(** With no zero timestamp in the ledger and a clock that never reads
    zero, the code's test is the claim's condition at every step. *)
Lemma dedup_run_due {W : Type} `{Host W} `{MonitorHost W} (w0 : W) l p b l' :
  dedup_run code_fresh w0 l p b l' ->
  (forall k, l !! k <> Some 0) ->
  (forall now, reading w0 now -> now <> 0) ->
  dedup_run due w0 l p b l'.
Proof.
  intros Hrun Hnz Hclock.
  induction Hrun as [l|l ui p b l' now Hnow Hfresh _ IH|l ui p b l' now Hnow Hfresh _ IH].
  - constructor.
  - eapply dedup_include; [exact Hnow|by apply isNewAlert_due| ].
    apply IH. intros k. destruct (decide (claimed_key ui = k)) as [<-|Hne].
    + rewrite lookup_insert_eq. intros [= Hzero]. by apply (Hclock now).
    + by rewrite lookup_insert_ne.
  - eapply dedup_suppress; [exact Hnow| |by apply IH].
    intros Hdue. apply Hfresh. by apply isNewAlert_due.
Qed.

Section DedupProperties.
Context {W : Type} `{Host W} `{MonitorHost W}.

Lemma dedupIssue_run u i m acc (e : Env W) :
  dedupIssue u i (m, acc) e =
    (Ok (if isNewAlert (alerts (state m) !! alertKey u i) (fst (Date_now (world e)))
         then (setAlert (alertKey u i) (fst (Date_now (world e))) m,
               acc ++ [mkUrlIssue i u])
         else (m, acc)),
     mkEnv (snd (Date_now (world e))) (console e)).
Proof.
  unfold dedupIssue. erewrite bind_ok by apply new_Date_run.
  by destruct (isNewAlert _ _).
Qed.

Lemma tracks_dedupIssue u i d : tracks (W := W) (dedupIssue u i d).
Proof.
  destruct d as [m acc]. intros e r e'. rewrite dedupIssue_run.
  intros [= <- <-]. simpl. apply observes_clock, observes_refl.
Qed.

Lemma tracks_checkAndDedup verbose u acc :
  tracks (W := W) (checkAndDedup verbose u acc).
Proof.
  unfold checkAndDedup.
  apply tracks_bind; [apply tracks_when, tracks_console_log|]. intros _.
  apply tracks_bind; [apply tracks_checkUrl|]. intros result.
  apply tracks_bind; [apply tracks_for_of; intros; apply tracks_dedupIssue|].
  intros d.
  apply tracks_bind; [apply tracks_when, tracks_console_log|]. intros _.
  apply tracks_ret.
Qed.

(** One issue in the loop body, at the clock reading [now]. *)
Lemma dedupIssue_step u i m acc (e : Env W) :
  let key := claimed_key (mkUrlIssue i u) in
  let now := fst (Date_now (world e)) in
  let e' := mkEnv (snd (Date_now (world e))) (console e) in
  alerts (state m) !! key <> Some 0 ->
  (due (alerts (state m) !! key) now ->
     dedupIssue u i (m, acc) e =
       (Ok (setAlert key now m, acc ++ [mkUrlIssue i u]), e')
     /\ alerts (state (setAlert key now m)) !! key = Some now)
  /\ (~ due (alerts (state m) !! key) now ->
      dedupIssue u i (m, acc) e = (Ok (m, acc), e'))
  /\ (forall T0,
        alerts (state m) !! key = Some T0 -> now = T0 + 3 * 60 * 60 * 1000 ->
        dedupIssue u i (m, acc) e = (Ok (m, acc), e'))
  /\ (forall T0,
        alerts (state m) !! key = Some T0 -> now = T0 + 5 * 60 * 60 * 1000 ->
        dedupIssue u i (m, acc) e =
          (Ok (setAlert key now m, acc ++ [mkUrlIssue i u]), e')
        /\ alerts (state (setAlert key now m)) !! key
             = Some (T0 + 5 * 60 * 60 * 1000)).
Proof.
  intros key now e' Hnz.
  pose proof (isNewAlert_due _ now Hnz) as Hdue.
  assert (Hyes : due (alerts (state m) !! key) now ->
    dedupIssue u i (m, acc) e =
      (Ok (setAlert key now m, acc ++ [mkUrlIssue i u]), e')
    /\ alerts (state (setAlert key now m)) !! key = Some now).
  { intros Hd. apply Hdue in Hd. rewrite dedupIssue_run.
    change (alertKey u i) with key. fold now e'. rewrite Hd.
    split; [done|apply setAlert_lookup]. }
  assert (Hno : ~ due (alerts (state m) !! key) now ->
    dedupIssue u i (m, acc) e = (Ok (m, acc), e')).
  { intros Hd. rewrite dedupIssue_run.
    change (alertKey u i) with key. fold now e'.
    destruct (isNewAlert (alerts (state m) !! key) now) eqn:Hnew; [|done].
    exfalso. apply Hd. by apply (isNewAlert_due _ now Hnz). }
  split; [exact Hyes|]. split; [exact Hno|]. split.
  - intros T0 HT0 Hnow. apply Hno. rewrite HT0.
    intros [Hnone|(t & Ht & Hlt)]; [done|]. injection Ht as <-. lia.
  - intros T0 HT0 Hnow. rewrite <- Hnow. apply Hyes. rewrite HT0.
    right. exists T0. split; [done|]. lia.
Qed.

(** The loop over the issues of one URL applies the dedup rule to each of
    them, in order. *)
Lemma dedup_loop_run (w0 : W) u (found : list Issue) :
  forall m1 batch (e : Env W),
    observes w0 (world e) ->
    exists m1' extra e',
      for_of found (dedupIssue u) (m1, batch) e = (Ok (m1', batch ++ extra), e')
      /\ observes w0 (world e')
      /\ config m1' = config m1
      /\ linear m1' = linear m1
      /\ history (state m1') = history (state m1)
      /\ dedup_run code_fresh w0 (alerts (state m1))
           (map (fun i => mkUrlIssue i u) found) extra (alerts (state m1')).
Proof.
  induction found as [|i found IH]; intros m1 batch e Hobs.
  - exists m1, [], e. rewrite app_nil_r. repeat split; try done. constructor.
  - rewrite for_of_cons.
    rewrite (bind_ok _ _ _ _ _ (dedupIssue_run u i m1 batch e)).
    destruct (isNewAlert _ _) eqn:Hnew.
    + destruct (IH (setAlert (alertKey u i) (fst (Date_now (world e))) m1)
                  (batch ++ [mkUrlIssue i u])
                  (mkEnv (snd (Date_now (world e))) (console e)))
        as (m1' & extra & e' & Hrun & Hobs' & Hc & Hl & Hh & Hded).
      { simpl. by apply observes_clock. }
      exists m1', (mkUrlIssue i u :: extra), e'.
      split; [by rewrite Hrun, <- app_assoc|].
      repeat split; try done. simpl.
      eapply dedup_include with (now := fst (Date_now (world e)));
        [by exists (world e)|exact Hnew|exact Hded].
    + destruct (IH m1 batch (mkEnv (snd (Date_now (world e))) (console e)))
        as (m1' & extra & e' & Hrun & Hobs' & Hc & Hl & Hh & Hded).
      { simpl. by apply observes_clock. }
      exists m1', extra, e'. repeat split; try done. simpl.
      eapply dedup_suppress with (now := fst (Date_now (world e)));
        [by exists (world e)| |exact Hded].
      intros Hfresh. discriminate (eq_trans (eq_sym Hnew) Hfresh).
Qed.

(** One URL of the cycle: its check, then the dedup rule on the issues
    of its result. *)
Lemma checkAndDedup_run (w0 : W) m verbose u acc (e : Env W) :
  URL_canParse u = true ->
  config (acc_self acc) = config m ->
  observes w0 (world e) ->
  exists result extra self' e',
    checkAndDedup verbose u acc e =
      (Ok (mkCycleAcc self' (acc_results acc ++ [result])
             (acc_newIssues acc ++ extra)), e')
    /\ observes w0 (world e')
    /\ r_url result = u
    /\ (exists e0 e1,
          observes w0 (world e0) /\ checkUrl m u e0 = (Ok result, e1))
    /\ config self' = config m
    /\ linear self' = linear (acc_self acc)
    /\ history (state self') = history (state (acc_self acc))
    /\ dedup_run code_fresh w0 (alerts (state (acc_self acc)))
         (producedIssues [result]) extra (alerts (state self')).
Proof.
  intros Hparse Hconfig Hobs. unfold checkAndDedup.
  erewrite bind_ok by apply when_console_log_run.
  set (e0 := mkEnv (world e) _).
  destruct (checkUrl_returns (acc_self acc) u Hparse e0)
    as (result & e1 & Hcheck & _).
  destruct (checkUrl_ok _ _ _ _ _ Hcheck) as [Hurl _].
  assert (Hobs1 : observes w0 (world e1)).
  { eapply observes_trans; [exact Hobs|].
    apply (tracks_checkUrl _ _ _ _ _ Hcheck). }
  erewrite bind_ok by exact Hcheck.
  destruct (dedup_loop_run w0 u (issues result) (acc_self acc)
              (acc_newIssues acc) e1 Hobs1)
    as (self' & extra & e2 & Hloop & Hobs2 & Hc & Hl & Hh & Hded).
  erewrite bind_ok by exact Hloop.
  erewrite bind_ok by apply when_console_log_run.
  eexists result, extra, self', _. split; [reflexivity|].
  simpl. repeat split; try done.
  - exists e0, e1. split; [done|].
    by rewrite <- (checkUrl_config _ _ _ Hconfig).
  - congruence.
  - unfold producedIssues. simpl. by rewrite app_nil_r, Hurl.
Qed.

(** The loop over the configured URLs. *)
Lemma cycle_loop_run (w0 : W) m verbose (l : list string) :
  Forall (fun u => URL_canParse u = true) l ->
  forall acc (e : Env W),
    config (acc_self acc) = config m ->
    observes w0 (world e) ->
    exists self' results extra e',
      for_of l (checkAndDedup verbose) acc e =
        (Ok (mkCycleAcc self' (acc_results acc ++ results)
               (acc_newIssues acc ++ extra)), e')
      /\ observes w0 (world e')
      /\ map r_url results = l
      /\ Forall (fun r => exists e0 e1,
                   observes w0 (world e0)
                   /\ checkUrl m (r_url r) e0 = (Ok r, e1)) results
      /\ config self' = config m
      /\ linear self' = linear (acc_self acc)
      /\ history (state self') = history (state (acc_self acc))
      /\ dedup_run code_fresh w0 (alerts (state (acc_self acc)))
           (producedIssues results) extra (alerts (state self')).
Proof.
  induction 1 as [|u l Hparse _ IH]; intros acc e Hconfig Hobs.
  - exists (acc_self acc), [], [], e. rewrite !app_nil_r.
    destruct acc. repeat split; try done; constructor.
  - rewrite for_of_cons.
    destruct (checkAndDedup_run w0 m verbose u acc e Hparse Hconfig Hobs)
      as (result & extra & self1 & e1 & Hrun & Hobs1 & Hurl & Hcheck & Hc & Hl
          & Hh & Hded).
    erewrite bind_ok by exact Hrun.
    destruct (IH (mkCycleAcc self1 (acc_results acc ++ [result])
                    (acc_newIssues acc ++ extra)) e1 Hc Hobs1)
      as (self' & results & extra' & e' & Hloop & Hobs' & Hurls & Hchecks & Hc'
          & Hl' & Hh' & Hded').
    simpl in *.
    exists self', (result :: results), (extra ++ extra'), e'.
    split; [by rewrite Hloop, <- !app_assoc|].
    split; [done|]. split; [by simpl; rewrite Hurl, Hurls|].
    split.
    { constructor; [|done]. destruct Hcheck as (e0' & e1' & Ho & Hr).
      exists e0', e1'. by rewrite Hurl. }
    split; [done|]. split; [congruence|]. split; [congruence|].
    change (result :: results) with ([result] ++ results).
    rewrite producedIssues_app. by eapply dedup_run_app.
Qed.

(** A cycle over URLs that parse, with what it leaves in memory and on
    disk: it checks every URL in order, applies the dedup rule to every
    issue of the results, appends the cycle's entry to the history and
    writes the state it leaves. Before that write it only observes the
    world. *)
Lemma runChecks_cycle_spec m verbose (e : Env W) :
  parsable m ->
  exists m' out w lines,
    runChecks m verbose e =
      (Ok (m', out),
       mkEnv (fs_writeFileSync STATE_PATH (JSON_stringify_state (state m')) w)
             lines)
    /\ observes (world e) w
    /\ map r_url (out_results out) = urls (config m)
    /\ Forall (fun r => exists e0 e1,
                 observes (world e) (world e0)
                 /\ checkUrl m (r_url r) e0 = (Ok r, e1)) (out_results out)
    /\ config m' = config m
    /\ linear m' = linear m
    /\ (exists entry,
          history (state m') = slice_last 100 (history (state m) ++ [entry])
          /\ lastCheck (state m') = Some (timestamp entry)
          /\ h_results entry =
               map (fun c => (r_url c, r_status c)) (out_results out))
    /\ dedup_run code_fresh (world e) (alerts (state m))
         (producedIssues (out_results out)) (newIssues out) (alerts (state m')).
Proof.
  intros Hparse. unfold runChecks.
  erewrite bind_ok by apply when_console_log_run.
  set (e0 := mkEnv (world e) _).
  destruct (cycle_loop_run (world e) m verbose (urls (config m)) Hparse
              (mkCycleAcc m [] []) e0 eq_refl (observes_refl _))
    as (self' & results & batch & e1 & Hloop & Hobs & Hurls & Hchecks & Hc & Hl
        & Hh & Hded).
  simpl in Hloop, Hl, Hh, Hded.
  erewrite bind_ok by exact Hloop.
  erewrite bind_ok by apply new_Date_run.
  eexists _, _, _, _. split; [reflexivity|].
  simpl. split; [by apply observes_clock|].
  repeat split; try done.
  eexists (mkHistoryEntry (toISOString _) _). simpl.
  split; [|done]. rewrite Hh.
  destruct (100 <? length (history (state m) ++ [_]))%nat eqn:Hlen; [done|].
  apply Nat.ltb_ge in Hlen. by rewrite slice_last_short.
Qed.

(** A cycle rejects only when a configured URL does not parse, and then
    it has only observed the world: the state file is not written. *)
Lemma runChecks_throw_inv m verbose (e : Env W) err e' :
  runChecks m verbose e = (Throw err, e') ->
  observes (world e) (world e') /\ ~ parsable m.
Proof.
  intros Hrun. split.
  - unfold runChecks in Hrun.
    rewrite (bind_ok _ _ _ _ _ (when_console_log_run _ _ e)) in Hrun.
    unfold bind at 1 in Hrun.
    match type of Hrun with
    | context [for_of ?l ?body ?acc ?e0] =>
        destruct (for_of l body acc e0) as [[acc'|err1] e1] eqn:Hloop
    end.
    + rewrite (bind_ok _ _ _ _ _ (new_Date_run e1)) in Hrun. done.
    + injection Hrun as <- <-.
      apply (tracks_for_of _ _ (tracks_checkAndDedup verbose)) in Hloop.
      exact Hloop.
  - intros Hparse.
    destruct (runChecks_cycle_spec m verbose e Hparse)
      as (m' & out & w & lines & Hok & _).
    congruence.
Qed.

(** C3. In a cycle over URLs that parse, started with no zero timestamp
    in the ledger and on a clock that never reads zero: the cycle returns
    the result of [checkUrl] for every configured URL, and every issue of
    those results, with the dedup key [url-type-title], goes through the
    dedup rule in order: if the key is absent from the ledger or more
    than four hours have passed since its timestamp, the issue joins the
    batch and the key's timestamp becomes the clock reading; otherwise
    the issue is suppressed and nothing changes. For one issue at the
    clock reading [now]: with timestamp [T0] under its key, at
    [now = T0 + 3h] it is suppressed, at [now = T0 + 5h] it is included
    and the timestamp becomes [T0 + 5h]. *)
Theorem runChecks_dedups_every_issue (m : Monitor) (verbose : bool)
    (e : Env W) :
  parsable m ->
  (forall k, alerts (state m) !! k <> Some 0) ->
  (forall now, reading (world e) now -> now <> 0) ->
  (exists m' out e',
     runChecks m verbose e = (Ok (m', out), e')
     /\ map r_url (out_results out) = urls (config m)
     /\ Forall (fun r => exists e0 e1,
                  observes (world e) (world e0)
                  /\ checkUrl m (r_url r) e0 = (Ok r, e1)) (out_results out)
     /\ dedup_run due (world e) (alerts (state m))
          (producedIssues (out_results out)) (newIssues out)
          (alerts (state m')))
  /\ (forall u i m1 acc (e1 : Env W),
        let key := u +:+ "-" +:+ type i +:+ "-" +:+ title i in
        let now := fst (Date_now (world e1)) in
        let e2 := mkEnv (snd (Date_now (world e1))) (console e1) in
        alerts (state m1) !! key <> Some 0 ->
        (due (alerts (state m1) !! key) now ->
           dedupIssue u i (m1, acc) e1 =
             (Ok (setAlert key now m1, acc ++ [mkUrlIssue i u]), e2)
           /\ alerts (state (setAlert key now m1)) !! key = Some now)
        /\ (~ due (alerts (state m1) !! key) now ->
            dedupIssue u i (m1, acc) e1 = (Ok (m1, acc), e2))
        /\ (forall T0,
              alerts (state m1) !! key = Some T0 ->
              now = T0 + 3 * 60 * 60 * 1000 ->
              dedupIssue u i (m1, acc) e1 = (Ok (m1, acc), e2))
        /\ (forall T0,
              alerts (state m1) !! key = Some T0 ->
              now = T0 + 5 * 60 * 60 * 1000 ->
              dedupIssue u i (m1, acc) e1 =
                (Ok (setAlert key now m1, acc ++ [mkUrlIssue i u]), e2)
              /\ alerts (state (setAlert key now m1)) !! key
                   = Some (T0 + 5 * 60 * 60 * 1000))).
Proof.
  intros Hparse Hnz Hclock. split.
  - destruct (runChecks_cycle_spec m verbose e Hparse)
      as (m' & out & w & lines & Hrun & _ & Hurls & Hchecks & _ & _ & _ & Hded).
    eexists m', out, _. split; [exact Hrun|].
    split; [done|]. split; [done|]. by apply dedup_run_due.
  - intros u i m1 acc e1. apply dedupIssue_step.
Qed.

End DedupProperties.

(** C3 on a cycle three hours after an alert was sent at [T0]: the site
    still answers 503, and the issue is suppressed. *)
Lemma runChecks_dedups_every_issue_witness :
  let T0 := 1793562479000 in
  let key := "https://example.com/-critical-🔴 ERROR 503 en example.com" in
  let m := Sample.configured {[ key := T0 ]} in
  let e := Sample.env0 (Sample.answering 503 (T0 + 3 * 60 * 60 * 1000)) in
  exists m' out e',
    runChecks m false e = (Ok (m', out), e')
    /\ map r_url (out_results out) = ["https://example.com/"]
    /\ dedup_run due (world e) {[ key := T0 ]}
         (producedIssues (out_results out)) (newIssues out) (alerts (state m')).
Proof.
  intros T0 key m e.
  destruct (runChecks_dedups_every_issue m false e) as [Hcycle _].
  - by repeat constructor.
  - intros k. simpl. destruct (decide (key = k)) as [<-|Hne].
    + by rewrite lookup_singleton_eq.
    + by rewrite lookup_singleton_ne.
  - intros now Hnow. apply sample_reading in Hnow. simpl in Hnow. lia.
  - destruct Hcycle as (m' & out & e' & Hrun & Hurls & _ & Hded).
    exists m', out, e'. split; [exact Hrun|]. split; [exact Hurls|exact Hded].
Defined.

(** Three whole cycles against a site that answers 503: the first raises
    the alert, a cycle three hours later raises nothing and leaves the
    ledger alone, a cycle five hours later raises it again. *)
Example runChecks_cooldown_scenario :
  let T := 1793562479000 in
  let site := "https://example.com/" in
  let key := alertKey site Sample.issue503 in
  let titles out := map (fun ui => title (issue ui)) (newIssues out) in
  match runChecks (Sample.configured ∅) false
          (Sample.env0 (Sample.answering 503 T)) with
  | (Ok (m1, out1), _) =>
      titles out1 = ["🔴 ERROR 503 en example.com"]
      /\ alerts (state m1) !! key = Some (T + 4000)
      /\ match runChecks m1 false
                (Sample.env0 (Sample.answering 503 (T + 3 * 60 * 60 * 1000))) with
         | (Ok (m2, out2), _) =>
             titles out2 = []
             /\ alerts (state m2) !! key = Some (T + 4000)
         | (Throw _, _) => False
         end
      /\ match runChecks m1 false
                (Sample.env0 (Sample.answering 503 (T + 5 * 60 * 60 * 1000))) with
         | (Ok (m3, out3), _) =>
             titles out3 = ["🔴 ERROR 503 en example.com"]
             /\ alerts (state m3) !! key = Some (T + 5 * 60 * 60 * 1000 + 4000)
         | (Throw _, _) => False
         end
  | (Throw _, _) => False
  end.
Proof. vm_compute. repeat split. Qed.

(** A cycle over a list that holds a URL that does not parse: the cycle
    rejects, and nothing is written to the state file. *)
Example runChecks_rejects_on_unparsable_url :
  let m := setUrls ["https://example.com/"; "example.com"] (Sample.configured ∅) in
  let w :=
    {| Sample.time := 1793562479000;
       Sample.http := fun _ => Ok 503;
       Sample.tls := fun _ => Throw (mkError "ECONNREFUSED");
       Sample.tracker := fun _ => Throw (mkError "Network Error");
       Sample.files := [(STATE_PATH, "0;0;0;")] |} in
  match runChecks m false (Sample.env0 w) with
  | (Throw err, e') =>
      err = mkError "Invalid URL" /\ Sample.files (world e') = Sample.files w
  | (Ok _, _) => False
  end.
Proof. vm_compute. repeat split. Qed.

(* --------------------------------------------------------------------- *)
(** ** The monitoring cycle: history *)
(* --------------------------------------------------------------------- *)

Section CycleProperties.
Context {W : Type} `{Host W} `{MonitorHost W}.

Lemma cycles_history (n : nat) :
  forall m verbose (e : Env W),
    parsable m ->
    exists m' e' entries,
      cycles (S n) m verbose e = (Ok m', e')
      /\ length entries = S n
      /\ history (state m') = slice_last 100 (history (state m) ++ entries).
Proof.
  induction n as [|n IH]; intros m verbose e Hparse.
  - destruct (runChecks_cycle_spec m verbose e Hparse)
      as (m1 & out & w & lines & Hrun & _ & _ & _ & _ & _ & (entry & Hhist & _) & _).
    eexists m1, _, [entry]. simpl.
    erewrite bind_ok by exact Hrun. by repeat split.
  - destruct (runChecks_cycle_spec m verbose e Hparse)
      as (m1 & out & w & lines & Hrun & _ & _ & _ & Hc & _ & (entry & Hhist & _) & _).
    assert (Hparse1 : parsable m1) by (unfold parsable; by rewrite Hc).
    set (e1 := mkEnv _ lines) in Hrun.
    destruct (IH m1 verbose e1 Hparse1)
      as (m' & e' & entries & Hrest & Hlen & Hhist').
    exists m', e', (entry :: entries).
    change (cycles (S (S n)) m verbose) with
      (bind (runChecks m verbose) (fun r => cycles (S n) (fst r) verbose)).
    erewrite bind_ok by exact Hrun. simpl in *.
    split; [exact Hrest|]. split; [by rewrite Hlen|].
    rewrite Hhist', Hhist, slice_last_app_slice, <- app_assoc. done.
Qed.

(** C5. A cycle over URLs that parse completes and leaves as history the
    last 100 entries of the previous history followed by this cycle's
    entry, which is therefore last; the history never has more than 100
    entries. After [n >= 1] cycles the history is the last 100 entries
    of the initial history followed by the [n] entries of those cycles in
    order; after 150 cycles its length is 100. *)
Theorem runChecks_history_bounded (m : Monitor) (verbose : bool) (e : Env W) :
  parsable m ->
  (exists m' out e' entry,
     runChecks m verbose e = (Ok (m', out), e')
     /\ history (state m') = slice_last 100 (history (state m) ++ [entry])
     /\ last (history (state m')) = Some entry
     /\ h_results entry = map (fun c => (r_url c, r_status c)) (out_results out)
     /\ (length (history (state m')) <= 100)%nat)
  /\ (forall n, exists m' e' entries,
        cycles (S n) m verbose e = (Ok m', e')
        /\ length entries = S n
        /\ history (state m') = slice_last 100 (history (state m) ++ entries)
        /\ length (history (state m')) =
             Nat.min 100 (length (history (state m)) + S n))
  /\ (exists m' e',
        cycles 150 m verbose e = (Ok m', e')
        /\ length (history (state m')) = 100%nat).
Proof.
  intros Hparse.
  assert (Hn : forall n, exists m' e' entries,
    cycles (S n) m verbose e = (Ok m', e')
    /\ length entries = S n
    /\ history (state m') = slice_last 100 (history (state m) ++ entries)
    /\ length (history (state m')) =
         Nat.min 100 (length (history (state m)) + S n)).
  { intros n.
    destruct (cycles_history n m verbose e Hparse)
      as (m' & e' & entries & Hrun & Hlen & Hhist).
    exists m', e', entries. repeat split; try done.
    by rewrite Hhist, slice_last_length, length_app, Hlen. }
  split; [|split; [exact Hn|]].
  - destruct (runChecks_cycle_spec m verbose e Hparse)
      as (m1 & out & w & lines & Hrun & _ & _ & _ & _ & _
          & (entry & Hhist & _ & Hres) & _).
    eexists m1, out, _, entry.
    split; [exact Hrun|]. split; [done|]. split; [|split; [done|]].
    + rewrite Hhist. apply slice_last_last. lia.
    + rewrite Hhist, slice_last_length. lia.
  - destruct (Hn 149%nat) as (m' & e' & _ & Hrun & _ & _ & Hlen).
    exists m', e'. split; [exact Hrun|]. rewrite Hlen. lia.
Qed.

End CycleProperties.

(** C5 on the sample monitor: 150 cycles against a site that answers
    503. *)
Lemma runChecks_history_bounded_witness :
  exists m' e',
    cycles 150 (Sample.configured ∅) false
      (Sample.env0 (Sample.answering 503 1793562479000)) = (Ok m', e')
    /\ length (history (state m')) = 100%nat.
Proof.
  destruct (runChecks_history_bounded (Sample.configured ∅) false
              (Sample.env0 (Sample.answering 503 1793562479000)))
    as (_ & _ & H150).
  - by repeat constructor.
  - exact H150.
Defined.

(* --------------------------------------------------------------------- *)
(** ** Dispatching the batch *)
(* --------------------------------------------------------------------- *)

Section DispatchProperties.
Context {W : Type} `{Host W} `{MonitorHost W}.

Lemma post_outcomes_cons m i batch (w : W) :
  post_outcomes m (i :: batch) w =
  (fst (axios_post (default "" (apiKey (linear m))) (alertInput m i) w)
     :: fst (post_outcomes m batch
               (snd (axios_post (default "" (apiKey (linear m))) (alertInput m i) w))),
   snd (post_outcomes m batch
          (snd (axios_post (default "" (apiKey (linear m))) (alertInput m i) w)))).
Proof.
  simpl. destruct (axios_post _ _ w) as [r w']. simpl.
  by destruct (post_outcomes m batch w').
Qed.

(** One request of the batch: whatever its outcome, [sendAlert] returns
    and hands the list of created issues on. *)
Lemma sendAlert_run m verbose i createdIssues (e : Env W) :
  isConfigured (linear m) = true ->
  sendAlert m verbose i createdIssues e =
    (Ok (createdIssues ++
         option_list (created_by
           (fst (axios_post (default "" (apiKey (linear m))) (alertInput m i)
                   (world e))))),
     mkEnv (snd (axios_post (default "" (apiKey (linear m))) (alertInput m i)
                   (world e)))
           (console e ++
            alert_lines verbose
              (fst (axios_post (default "" (apiKey (linear m))) (alertInput m i)
                      (world e))))).
Proof.
  unfold isConfigured. intros Hkey.
  unfold sendAlert, LinearClient_query, alert_lines. rewrite Hkey. simpl.
  fold (alertInput m i).
  unfold try_catch, bind at 1 2. rewrite host_call_run.
  destruct (axios_post (default "" (apiKey (linear m))) (alertInput m i) (world e))
    as [[[[msg|] [payload|]]|err] w']; simpl.
  all: unfold throw, when, bind, console_log, modify, ret.
  all: try destruct (success payload).
  all: destruct verbose; simpl; by rewrite ?app_nil_r.
Qed.

Lemma sendAlerts_loop m verbose (batch : list UrlIssue) :
  isConfigured (linear m) = true ->
  forall createdIssues (e : Env W),
    for_of batch (sendAlert m verbose) createdIssues e =
      (Ok (createdIssues ++
           omap created_by (fst (post_outcomes m batch (world e)))),
       mkEnv (snd (post_outcomes m batch (world e)))
             (console e ++
              flat_map (alert_lines verbose)
                (fst (post_outcomes m batch (world e))))).
Proof.
  intros Hkey. induction batch as [|i batch IH]; intros createdIssues e.
  - simpl. unfold ret. rewrite !app_nil_r. by destruct e.
  - rewrite for_of_cons, post_outcomes_cons.
    erewrite bind_ok by (by apply sendAlert_run).
    rewrite IH. cbn [fst snd world console flat_map].
    rewrite <- !app_assoc. simpl omap.
    by destruct (created_by _).
Qed.

Lemma sendAlerts_returns m batch verbose :
  returns (S := Env W) (sendAlerts m batch verbose) (fun _ => True).
Proof.
  unfold sendAlerts.
  destruct (negb (truthy (teamId (config m)))).
  { eapply returns_bind; [apply returns_when, returns_console_log|].
    intros _ _. by apply returns_ret. }
  destruct (isConfigured (linear m)) eqn:Hkey; simpl.
  - intros e. rewrite sendAlerts_loop by done. by eexists _, _.
  - eapply returns_bind; [apply returns_when, returns_console_log|].
    intros _ _. by apply returns_ret.
Qed.

Lemma sendAlerts_run m batch verbose (e : Env W) :
  truthy (teamId (config m)) = true ->
  isConfigured (linear m) = true ->
  sendAlerts m batch verbose e =
    (Ok (omap created_by (fst (post_outcomes m batch (world e)))),
     mkEnv (snd (post_outcomes m batch (world e)))
           (console e ++
            flat_map (alert_lines verbose)
              (fst (post_outcomes m batch (world e))))).
Proof.
  intros Hteam Hkey. unfold sendAlerts. rewrite Hteam, Hkey. simpl.
  by rewrite sendAlerts_loop.
Qed.

Lemma alert_lines_quiet (outcomes : list (Result GraphQLResponse)) :
  flat_map (alert_lines false) outcomes = [].
Proof. induction outcomes as [|o os IH]; simpl; [done|exact IH]. Qed.

Lemma alert_lines_error (outcomes : list (Result GraphQLResponse)) err :
  Some err ∈ map dispatch_error outcomes ->
  ("  ❌ Error enviando alerta: " +:+ message err)
    ∈ flat_map (alert_lines true) outcomes.
Proof.
  induction outcomes as [|o os IH]; simpl; intros Hin.
  - by apply elem_of_nil in Hin.
  - apply elem_of_app. apply elem_of_cons in Hin as [Heq|Hin]; [left|right; auto].
    unfold alert_lines. rewrite <- Heq. apply list_elem_of_singleton. done.
Qed.

(** An issue whose key holds [T] is suppressed by the loop body of a
    later cycle as long as no more than four hours have passed since
    [T]. *)
Lemma dedupIssue_within_cooldown ui T m1 acc (e' : Env W) :
  alerts (state m1) !! claimed_key ui = Some T ->
  T <> 0 -> fst (Date_now (world e')) - T <= 4 * 60 * 60 * 1000 ->
  dedupIssue (i_url ui) (issue ui) (m1, acc) e' =
    (Ok (m1, acc), mkEnv (snd (Date_now (world e'))) (console e')).
Proof.
  intros HT Hnz Hle. rewrite dedupIssue_run.
  change (alertKey (i_url ui) (issue ui)) with (claimed_key ui).
  by rewrite HT, isNewAlert_within_cooldown.
Qed.

(** Once more than four hours have passed since [T], the loop body
    includes the issue again and refreshes the timestamp. *)
Lemma dedupIssue_after_cooldown ui T m1 acc (e' : Env W) :
  alerts (state m1) !! claimed_key ui = Some T ->
  4 * 60 * 60 * 1000 < fst (Date_now (world e')) - T ->
  dedupIssue (i_url ui) (issue ui) (m1, acc) e' =
    (Ok (setAlert (claimed_key ui) (fst (Date_now (world e'))) m1, acc ++ [ui]),
     mkEnv (snd (Date_now (world e'))) (console e')).
Proof.
  intros HT Hlt. rewrite dedupIssue_run.
  change (alertKey (i_url ui) (issue ui)) with (claimed_key ui).
  rewrite HT. unfold isNewAlert, COOLDOWN.
  apply Z.ltb_lt in Hlt. rewrite Hlt, orb_true_r. by destruct ui.
Qed.

(** C6 (as amended). On a cycle over URLs that parse, [monitor]
    completes, and the monitor it leaves is the one [runChecks] left:
    nothing that happens during dispatch touches the ledger. So after
    dispatch the ledger is still what the dedup rule made of it, and the
    key [url-type-title] of every issue of the batch holds its refreshed
    timestamp [T], a reading of this cycle's clock: as long as no more
    than four hours have passed since [T], the loop body of a later cycle
    suppresses the issue, and once more than four hours have passed it
    includes the issue again. With a team and an API key configured, every
    issue of the batch is posted, in order, whatever the outcome of the
    earlier posts, and the result lists the issues that were created. A
    failed post is reported on the console when [verbose] is set; without
    [verbose] dispatch prints nothing. *)
Theorem monitor_dispatch_failures_keep_ledger (m : Monitor) (verbose : bool)
    (e : Env W) :
  parsable m ->
  exists m1 out e1 created e2,
    runChecks m verbose e = (Ok (m1, out), e1)
    /\ monitor m verbose e =
         (Ok (m1, mkMonitorOutput (out_results out) created), e2)
    /\ dedup_run code_fresh (world e) (alerts (state m))
         (producedIssues (out_results out)) (newIssues out) (alerts (state m1))
    /\ Forall (fun ui =>
          exists T,
            alerts (state m1) !! claimed_key ui = Some T
            /\ reading (world e) T
            /\ forall acc (e' : Env W),
                 let now := fst (Date_now (world e')) in
                 let e'' := mkEnv (snd (Date_now (world e'))) (console e') in
                 (T <> 0 -> now - T <= 4 * 60 * 60 * 1000 ->
                  dedupIssue (i_url ui) (issue ui) (m1, acc) e' =
                    (Ok (m1, acc), e''))
                 /\ (4 * 60 * 60 * 1000 < now - T ->
                     dedupIssue (i_url ui) (issue ui) (m1, acc) e' =
                       (Ok (setAlert (claimed_key ui) now m1, acc ++ [ui]),
                        e'')))
        (newIssues out)
    /\ (truthy (teamId (config m)) = true ->
        isConfigured (linear m) = true ->
        created =
          omap created_by (fst (post_outcomes m1 (newIssues out) (world e1)))
        /\ world e2 = snd (post_outcomes m1 (newIssues out) (world e1))
        /\ (verbose = true ->
            forall err,
              Some err ∈ map dispatch_error
                           (fst (post_outcomes m1 (newIssues out) (world e1))) ->
              ("  ❌ Error enviando alerta: " +:+ message err) ∈ console e2)
        /\ (verbose = false -> console e2 = console e1)).
Proof.
  intros Hparse.
  destruct (runChecks_cycle_spec m verbose e Hparse)
    as (m1 & out & w & lines & Hrun & _ & _ & _ & Hc & Hl & _ & Hded).
  set (e1 := mkEnv _ lines) in Hrun.
  assert (Hledger : Forall (fun ui =>
    exists T,
      alerts (state m1) !! claimed_key ui = Some T
      /\ reading (world e) T
      /\ forall acc (e' : Env W),
           let now := fst (Date_now (world e')) in
           let e'' := mkEnv (snd (Date_now (world e'))) (console e') in
           (T <> 0 -> now - T <= 4 * 60 * 60 * 1000 ->
            dedupIssue (i_url ui) (issue ui) (m1, acc) e' =
              (Ok (m1, acc), e''))
           /\ (4 * 60 * 60 * 1000 < now - T ->
               dedupIssue (i_url ui) (issue ui) (m1, acc) e' =
                 (Ok (setAlert (claimed_key ui) now m1, acc ++ [ui]), e'')))
    (newIssues out)).
  { eapply Forall_impl; [exact (dedup_run_batch_stored _ _ _ _ _ _ Hded)|].
    simpl. intros ui (T & HT & Hread).
    exists T. split; [done|]. split; [done|].
    intros acc e'. split.
    - by apply dedupIssue_within_cooldown.
    - by apply dedupIssue_after_cooldown. }
  exists m1, out, e1.
  unfold monitor. erewrite bind_ok by exact Hrun. simpl.
  destruct (newIssues out) as [|ui batch] eqn:Hbatch.
  - (* nothing to dispatch *)
    simpl. erewrite bind_ok by apply when_console_log_run.
    eexists [], _. split; [done|]. split; [reflexivity|].
    split; [done|]. split; [done|].
    intros _ _. simpl. split; [done|]. split; [done|]. split.
    + intros _ err Hin. by apply elem_of_nil in Hin.
    + intros ->. by rewrite app_nil_r.
  - change (0 <? length (ui :: batch))%nat with true. cbv iota.
    erewrite bind_ok by apply when_console_log_run.
    set (e1' := mkEnv (world e1) (console e1 ++ _)).
    destruct (truthy (teamId (config m))) eqn:Hteam;
      [destruct (isConfigured (linear m)) eqn:Hkey|].
    + erewrite bind_ok; cycle 1.
      { apply sendAlerts_run; by rewrite ?Hc, ?Hl. }
      eexists _, _. split; [done|]. split; [reflexivity|].
      split; [done|]. split; [done|].
      intros _ _. simpl. split; [done|]. split; [done|]. split.
      * intros -> err Hin. apply elem_of_app. right.
        by apply alert_lines_error.
      * intros ->. by rewrite alert_lines_quiet, !app_nil_r.
    + destruct (sendAlerts_returns m1 (ui :: batch) verbose e1')
        as (created & e2 & Hsend & _).
      erewrite bind_ok by exact Hsend.
      exists created, e2. split; [done|]. split; [reflexivity|].
      split; [done|]. split; [done|].
      intros _ Hfalse. discriminate.
    + destruct (sendAlerts_returns m1 (ui :: batch) verbose e1')
        as (created & e2 & Hsend & _).
      erewrite bind_ok by exact Hsend.
      exists created, e2. split; [done|]. split; [reflexivity|].
      split; [done|]. split; [done|].
      intros Hfalse. discriminate.
Qed.

End DispatchProperties.

(** C6 (as stated) fails on "logged": with [verbose] off, as it is by
    default, the one issue of the batch is posted, the post fails, and
    nothing is printed. *)
Lemma monitor_silent_dispatch_failure_counterexample :
  let m := Sample.configured ∅ in
  let e := Sample.env0 (Sample.answering 503 1793562479000) in
  match runChecks m false e with
  | (Ok (m1, out), e1) =>
      map (fun ui => title (issue ui)) (newIssues out)
        = ["🔴 ERROR 503 en example.com"]
      /\ fst (post_outcomes m1 (newIssues out) (world e1))
           = [Throw (mkError "Network Error")]
  | (Throw _, _) => False
  end
  /\ console (snd (monitor m false e)) = [].
Proof. vm_compute. repeat split. Qed.

(** The amended statement on the same cycle, with [verbose] on: the post
    fails, the failure is printed, and the key of the issue holds a
    reading of the cycle's clock. *)
Lemma monitor_dispatch_failures_keep_ledger_witness :
  let m := Sample.configured ∅ in
  let e := Sample.env0 (Sample.answering 503 1793562479000) in
  exists m1 out e1 created e2,
    runChecks m true e = (Ok (m1, out), e1)
    /\ monitor m true e = (Ok (m1, mkMonitorOutput (out_results out) created), e2)
    /\ created = omap created_by (fst (post_outcomes m1 (newIssues out) (world e1)))
    /\ Forall (fun ui =>
          exists T,
            alerts (state m1) !! claimed_key ui = Some T
            /\ 1793562479000 <= T)
        (newIssues out).
Proof.
  intros m e.
  destruct (monitor_dispatch_failures_keep_ledger m true e)
    as (m1 & out & e1 & created & e2 & Hrun & Hmon & _ & Hledger & Hdispatch).
  - by repeat constructor.
  - destruct Hdispatch as (Hcreated & _); [reflexivity|reflexivity|].
    exists m1, out, e1, created, e2.
    split; [exact Hrun|]. split; [exact Hmon|]. split; [exact Hcreated|].
    eapply Forall_impl; [exact Hledger|].
    simpl. intros ui (T & HT & Hread & _). exists T. split; [done|].
    by apply sample_reading in Hread.
Defined.

(* ===================================================================== *)
(** * Further properties: the monitor's URL list *)
(* ===================================================================== *)

Lemma includes_elem_of (arr : list string) (c : string) :
  includes arr c = true <-> c ∈ arr.
Proof.
  unfold includes. rewrite existsb_exists. split.
  - intros (x & Hin & Heq). apply String.eqb_eq in Heq as ->.
    by apply list_elem_of_In.
  - intros Hin. exists c. split; [by apply list_elem_of_In|apply String.eqb_refl].
Qed.

Lemma indexOf_Some (x : string) (arr : list string) index :
  indexOf x arr = Some index ->
  exists l1 l2,
    arr = l1 ++ x :: l2 /\ (x ∉ l1) /\ length l1 = index
    /\ splice1 index arr = l1 ++ l2.
Proof.
  revert index. induction arr as [|y arr IH]; intros index; simpl; [done|].
  destruct (String.eqb x y) eqn:Heq.
  - apply String.eqb_eq in Heq as <-. intros [= <-].
    exists [], arr. repeat split; try done. apply not_elem_of_nil.
  - destruct (indexOf x arr) as [i|]; [|done]. intros [= <-].
    destruct (IH i eq_refl) as (l1 & l2 & -> & Hnot & Hlen & Hsplice).
    exists (y :: l1), l2. simpl. rewrite Hsplice, Hlen.
    repeat split; try done.
    apply not_elem_of_cons. split; [|done].
    intros ->. by rewrite String.eqb_refl in Heq.
Qed.

Lemma indexOf_None (x : string) (arr : list string) :
  indexOf x arr = None <-> x ∉ arr.
Proof.
  induction arr as [|y arr IH]; simpl.
  - split; [intros _; apply not_elem_of_nil|done].
  - destruct (String.eqb x y) eqn:Heq.
    + apply String.eqb_eq in Heq as <-. split; [done|].
      intros Hnot. exfalso. apply Hnot. by left.
    + rewrite not_elem_of_cons, <- IH.
      destruct (indexOf x arr); split; try done.
      * by intros [_ ?].
      * intros _. split; [|done]. intros ->. by rewrite String.eqb_refl in Heq.
Qed.

Lemma setUrls_same (m : Monitor) : setUrls (urls (config m)) m = m.
Proof. by destruct m as [[] ? ?]. Qed.

Section UrlListProperties.
Context {W : Type} `{Host W} `{MonitorHost W}.

Lemma saveConfig_run (m : Monitor) (e : Env W) :
  saveConfig m e =
    (Ok tt,
     mkEnv (fs_writeFileSync CONFIG_PATH (JSON_stringify_config (config m))
              (world e))
           (console e)).
Proof. reflexivity. Qed.

(** X1. [addUrl] keeps the URL list free of duplicates. It answers [true]
    exactly when the URL was not listed; then the URL is appended and the
    new configuration is written to the config file. Otherwise nothing
    changes and nothing is written. *)
Theorem addUrl_keeps_urls_unique (u : string) (m : Monitor) (e : Env W) :
  NoDup (urls (config m)) ->
  exists added m' e',
    addUrl u m e = (Ok (added, m'), e')
    /\ NoDup (urls (config m'))
    /\ u ∈ urls (config m')
    /\ (added = true <-> u ∉ urls (config m))
    /\ (added = false -> m' = m /\ e' = e)
    /\ (added = true ->
        urls (config m') = urls (config m) ++ [u]
        /\ state m' = state m
        /\ e' = mkEnv (fs_writeFileSync CONFIG_PATH
                         (JSON_stringify_config (config m')) (world e))
                      (console e)).
Proof.
  intros Hnodup. unfold addUrl.
  destruct (includes (urls (config m)) u) eqn:Hin; simpl.
  - apply includes_elem_of in Hin.
    exists false, m, e. repeat split; try done.
  - assert (Hnot : u ∉ urls (config m)).
    { intros Hel. apply includes_elem_of in Hel. congruence. }
    eexists true, _, _. rewrite (bind_ok _ _ _ _ _ (saveConfig_run _ e)).
    split; [reflexivity|]. simpl. repeat split; try done.
    + apply NoDup_app. repeat split; [done| |apply NoDup_singleton].
      intros x Hx Hx'. apply list_elem_of_singleton in Hx' as ->. done.
    + apply elem_of_app. right. by apply list_elem_of_singleton.
Qed.

(** X2. [removeUrl] answers [true] exactly when the URL is listed. It
    then removes the first occurrence only, keeps the order of the other
    URLs, and writes the new configuration; on a list without duplicates
    the URL is gone afterwards. When the URL is not listed nothing
    changes and nothing is written. *)
Theorem removeUrl_removes_first_occurrence (u : string) (m : Monitor)
    (e : Env W) :
  exists removed m' e',
    removeUrl u m e = (Ok (removed, m'), e')
    /\ (removed = true <-> u ∈ urls (config m))
    /\ (removed = false -> m' = m /\ e' = e)
    /\ (removed = true ->
        (exists l1 l2,
           urls (config m) = l1 ++ u :: l2 /\ (u ∉ l1)
           /\ urls (config m') = l1 ++ l2)
        /\ state m' = state m
        /\ e' = mkEnv (fs_writeFileSync CONFIG_PATH
                         (JSON_stringify_config (config m')) (world e))
                      (console e))
    /\ (NoDup (urls (config m)) ->
        NoDup (urls (config m')) /\ u ∉ urls (config m')).
Proof.
  unfold removeUrl.
  destruct (indexOf u (urls (config m))) as [index|] eqn:Hidx.
  - destruct (indexOf_Some _ _ _ Hidx) as (l1 & l2 & Hurls & Hnot & _ & Hsplice).
    eexists true, _, _. rewrite (bind_ok _ _ _ _ _ (saveConfig_run _ e)).
    split; [reflexivity|]. simpl. rewrite Hsplice.
    split; [|split; [done|split]].
    + split; [|done]. intros _. rewrite Hurls.
      apply elem_of_app. right. by left.
    + intros _. split; [by exists l1, l2|]. by split.
    + rewrite Hurls. intros Hnodup.
      apply NoDup_app in Hnodup as (Hl1 & Hdisj & Hl2).
      apply NoDup_cons in Hl2 as [Hu Hl2].
      split.
      * apply NoDup_app. repeat split; [done| |done].
        intros x Hx Hx'. apply (Hdisj x Hx). by right.
      * intros Hel. apply elem_of_app in Hel as [Hel|Hel]; done.
  - apply indexOf_None in Hidx.
    exists false, m, e. repeat split; try done.
Qed.

(** X3. Adding a URL that was not listed and removing it again gives the
    monitor back as it was. Both steps write the configuration file:
    first the configuration with the URL appended, then the original
    configuration. *)
Theorem removeUrl_undoes_addUrl (u : string) (m : Monitor) (e : Env W) :
  u ∉ urls (config m) ->
  exists m1,
    let e1 :=
      mkEnv (fs_writeFileSync CONFIG_PATH (JSON_stringify_config (config m1))
               (world e))
            (console e) in
    let e2 :=
      mkEnv (fs_writeFileSync CONFIG_PATH (JSON_stringify_config (config m))
               (world e1))
            (console e) in
    addUrl u m e = (Ok (true, m1), e1)
    /\ urls (config m1) = urls (config m) ++ [u]
    /\ state m1 = state m
    /\ removeUrl u m1 e1 = (Ok (true, m), e2).
Proof.
  intros Hnot.
  assert (Hinc : includes (urls (config m)) u = false).
  { destruct (includes (urls (config m)) u) eqn:Hin; [|done].
    by apply includes_elem_of in Hin. }
  exists (setUrls (urls (config m) ++ [u]) m). simpl.
  split; [|split; [done|split; [done|]]].
  - unfold addUrl. rewrite Hinc. simpl.
    rewrite (bind_ok _ _ _ _ _ (saveConfig_run _ e)). reflexivity.
  - unfold removeUrl. simpl.
    assert (Hidx : indexOf u (urls (config m) ++ [u])
                   = Some (length (urls (config m)))).
    { clear Hinc. induction (urls (config m)) as [|y l IH]; simpl.
      - by rewrite String.eqb_refl.
      - apply not_elem_of_cons in Hnot as [Hne Hnot].
        destruct (String.eqb u y) eqn:Heq.
        + apply String.eqb_eq in Heq. done.
        + by rewrite (IH Hnot). }
    rewrite Hidx.
    assert (Hsplice : splice1 (length (urls (config m)))
                        (urls (config m) ++ [u]) = urls (config m)).
    { clear. induction (urls (config m)) as [|y l IH]; simpl; [done|].
      by rewrite IH. }
    rewrite Hsplice.
    assert (Hback : setUrls (urls (config m))
                      (setUrls (urls (config m) ++ [u]) m) = m).
    { unfold setUrls. simpl. by destruct m as [[] ? ?]. }
    rewrite Hback.
    erewrite bind_ok by apply saveConfig_run. reflexivity.
Qed.

End UrlListProperties.

(** X1 on a monitor that lists one URL: a second URL is appended. *)
Lemma addUrl_keeps_urls_unique_witness :
  exists m' e',
    addUrl "https://second.example/" (Sample.configured ∅)
      (Sample.env0 (Sample.quiet_world 0)) = (Ok (true, m'), e')
    /\ urls (config m') = ["https://example.com/"; "https://second.example/"]
    /\ NoDup (urls (config m')).
Proof.
  destruct (addUrl_keeps_urls_unique "https://second.example/"
              (Sample.configured ∅) (Sample.env0 (Sample.quiet_world 0)))
    as (added & m' & e' & Hrun & Hnodup & _ & Hadded & _ & Hnew).
  - simpl. apply NoDup_singleton.
  - assert (added = true) as ->.
    { apply Hadded. simpl. intros Hin.
      apply list_elem_of_singleton in Hin. discriminate. }
    exists m', e'. split; [exact Hrun|]. split; [|exact Hnodup].
    by destruct (Hnew eq_refl) as (-> & _).
Defined.

(** X2 on a list without duplicates: the URL is gone afterwards. *)
Lemma removeUrl_removes_first_occurrence_witness :
  let m := setUrls ["a"; "b"] (Sample.configured ∅) in
  exists m' e',
    removeUrl "a" m (Sample.env0 (Sample.quiet_world 0)) = (Ok (true, m'), e')
    /\ "a" ∉ urls (config m').
Proof.
  intros m.
  destruct (removeUrl_removes_first_occurrence "a" m
              (Sample.env0 (Sample.quiet_world 0)))
    as (removed & m' & e' & Hrun & Hiff & _ & _ & Hnodup).
  assert (removed = true) as ->.
  { apply Hiff. simpl. by left. }
  exists m', e'. split; [exact Hrun|].
  apply Hnodup. simpl. apply NoDup_cons. split.
  - intros Hin. apply list_elem_of_singleton in Hin. discriminate.
  - apply NoDup_singleton.
Defined.

(** X3 on the sample monitor: the config file is written twice. *)
Lemma removeUrl_undoes_addUrl_witness :
  exists m1 e1 e2,
    addUrl "https://second.example/" (Sample.configured ∅)
      (Sample.env0 (Sample.quiet_world 0)) = (Ok (true, m1), e1)
    /\ urls (config m1) = ["https://example.com/"; "https://second.example/"]
    /\ removeUrl "https://second.example/" m1 e1
         = (Ok (true, Sample.configured ∅), e2)
    /\ map fst (Sample.files (world e2)) = [CONFIG_PATH; CONFIG_PATH].
Proof.
  destruct (removeUrl_undoes_addUrl "https://second.example/"
              (Sample.configured ∅) (Sample.env0 (Sample.quiet_world 0)))
    as (m1 & Hadd & Hurls & _ & Hremove).
  - simpl. intros Hin. apply list_elem_of_singleton in Hin. discriminate.
  - eexists m1, _, _. by repeat split.
Defined.

(* ===================================================================== *)
(** * Further properties: what the checks of a URL report *)
(* ===================================================================== *)

Lemma ceil_div_lt (a b k : Z) : 0 < b -> (ceil_div a b < k <-> a <= (k - 1) * b).
Proof.
  intros Hb. unfold ceil_div.
  pose proof (Z.div_mod (- a) b ltac:(lia)) as Hdm.
  pose proof (Z.mod_pos_bound (- a) b Hb) as Hmod.
  split; intros Hk; nia.
Qed.

Lemma ceil_div_exact (k b : Z) : 0 < b -> ceil_div (k * b) b = k.
Proof.
  intros Hb. unfold ceil_div.
  replace (- (k * b)) with ((- k) * b) by lia. rewrite Z.div_mul by lia. lia.
Qed.


Lemma bind_ret {S A B} (a : A) (k : A -> M S B) s : bind (ret a) k s = k a s.
Proof. reflexivity. Qed.

Section CheckClassification.
Context {W : Type} `{Host W} `{MonitorHost W}.

(** X4. The HTTP block on a response: status 500 or more gives one
    critical issue of priority 1, status 400 to 499 one error issue of
    priority 2, a lower status none; a response time above the threshold
    adds one warning of priority 3, whatever the status. The response
    time is the difference of the clock readings around the request. *)
Theorem httpStatusCheck_classifies_response cfg u (e : Env W) status w3 :
  axios_get u (snd (Date_now (world e))) = (Ok status, w3) ->
  let elapsed := fst (Date_now w3) - fst (Date_now (world e)) in
  exists found chk e',
    httpStatusCheck cfg u e = (Ok (found, chk), e')
    /\ kinds found =
         (if 500 <=? status then [("critical", 1)]
          else if 400 <=? status then [("error", 2)] else [])
         ++ (if th_responseTime (thresholds cfg) <? elapsed
             then [("warning", 3)] else [])
    /\ chk_httpStatus chk = Some (inl status)
    /\ chk_responseTime chk = Some elapsed.
Proof.
  intros Hget elapsed. unfold httpStatusCheck.
  assert (Hcall : host_call (axios_get u)
            (mkEnv (snd (Date_now (world e))) (console e)) =
          (Ok status, mkEnv w3 (console e))).
  { rewrite host_call_run. simpl. by rewrite Hget. }
  destruct (500 <=? status) eqn:H500; [|destruct (400 <=? status) eqn:H400];
    destruct (th_responseTime (thresholds cfg) <? elapsed) eqn:Hslow;
    eexists _, _, _; (split; [|split; [|split]]);
    try (apply try_catch_ok;
         erewrite bind_ok by apply new_Date_run;
         erewrite bind_ok by exact Hcall;
         erewrite bind_ok by apply new_Date_run;
         cbn [fst snd world console];
         rewrite ?H500, ?H400; fold elapsed; rewrite Hslow;
         repeat first [ rewrite bind_ret
                      | erewrite bind_ok by apply new_Date_run
                      | erewrite bind_ok by
                          (erewrite bind_ok by apply new_Date_run; reflexivity) ];
         reflexivity);
    reflexivity.
Qed.

(** X5. The HTTP block when the request fails (no response at all). For
    a URL that parses: one critical issue of priority 1 titled "SITIO
    CAÍDO" with the host name, and [checks] holds ['error'] and the
    error's message instead of a status and a time. For a URL that does
    not parse, the [catch] block throws on [new URL(url)] and the block
    rejects with the parser's error, without another clock reading. *)
Theorem httpStatusCheck_connection_failure cfg u (e : Env W) err w3 :
  axios_get u (snd (Date_now (world e))) = (Throw err, w3) ->
  (URL_canParse u = true ->
   exists down e',
     httpStatusCheck cfg u e =
       (Ok ([down],
            mkCheckValues (Some (inr "error")) None (Some (message err)) None), e')
     /\ type down = "critical" /\ priority down = 1
     /\ title down = "🔴 SITIO CAÍDO: " +:+ hostname u
     /\ overallStatus [down] = "critical")
  /\ (URL_canParse u = false ->
      httpStatusCheck cfg u e =
        (Throw (mkError "Invalid URL"), mkEnv w3 (console e))).
Proof.
  intros Hget. split; intros Hparse.
  - unfold httpStatusCheck. eexists _, _. split.
    { rewrite (try_catch_throw _ _ e err (mkEnv w3 (console e))).
      - erewrite bind_ok by (by apply URL_hostname_run).
        erewrite bind_ok by apply new_Date_run. reflexivity.
      - erewrite bind_ok by apply new_Date_run.
        apply bind_throw. rewrite host_call_run. simpl. by rewrite Hget. }
    by repeat split.
  - unfold httpStatusCheck.
    rewrite (try_catch_throw _ _ e err (mkEnv w3 (console e))).
    + apply bind_throw. by apply URL_hostname_throw.
    + erewrite bind_ok by apply new_Date_run.
      apply bind_throw. rewrite host_call_run. simpl. by rewrite Hget.
Qed.

Lemma checkSSL_certificate u (e : Env W) cert w1 expiry :
  tls_handshake u (world e) = (Ok cert, w1) ->
  valid_to cert = Some expiry ->
  exists info,
    checkSSL u e = (Ok info, mkEnv (snd (Date_now w1)) (console e))
    /\ daysUntilExpiry info = Some (ceil_div (expiry - fst (Date_now w1)) DAY)
    /\ expiryDate info = Some (toLocaleDateString expiry).
Proof.
  intros Hshake Hvalid. unfold checkSSL. eexists. split.
  { erewrite bind_ok; cycle 1.
    { rewrite host_call_run. rewrite Hshake. reflexivity. }
    rewrite Hvalid. erewrite bind_ok by apply new_Date_run. reflexivity. }
  by split.
Qed.

(** X6. The TLS block on a certificate with an expiry date, [left] being
    the time from the clock reading to the expiry: one critical issue of
    priority 1 when the certificate expired a full day ago or more; one
    warning of priority 2 when fewer than [sslExpiryDays] days (rounded
    up) are left, which includes a certificate that expired less than a
    day ago; nothing otherwise. *)
Theorem sslCheck_classifies_certificate cfg u (e : Env W) cert w1 expiry :
  tls_handshake u (world e) = (Ok cert, w1) ->
  valid_to cert = Some expiry ->
  let left := expiry - fst (Date_now w1) in
  exists found info e',
    sslCheck cfg u e = (Ok (found, Some (inl info)), e')
    /\ daysUntilExpiry info = Some (ceil_div left DAY)
    /\ kinds found =
         (if left <=? - DAY then [("critical", 1)]
          else if left <=? (sslExpiryDays (thresholds cfg) - 1) * DAY
               then [("warning", 2)]
               else []).
Proof.
  intros Hshake Hvalid left.
  destruct (checkSSL_certificate u e cert w1 expiry Hshake Hvalid)
    as (info & Hrun & Hdays & _).
  fold left in Hdays.
  assert (Hday : 0 < DAY) by (unfold DAY; lia).
  assert (Hneg : (ceil_div left DAY <? 0) = (left <=? - DAY)).
  { destruct (left <=? - DAY) eqn:Hle.
    - apply Z.ltb_lt, ceil_div_lt; [done|]. apply Z.leb_le in Hle. lia.
    - apply Z.ltb_ge. apply Z.leb_gt in Hle.
      destruct (decide (ceil_div left DAY < 0)) as [Hlt|]; [|lia].
      apply ceil_div_lt in Hlt; [lia|done]. }
  assert (Hsoon : (ceil_div left DAY <? sslExpiryDays (thresholds cfg)) =
                  (left <=? (sslExpiryDays (thresholds cfg) - 1) * DAY)).
  { destruct (left <=? (sslExpiryDays (thresholds cfg) - 1) * DAY) eqn:Hle.
    - apply Z.ltb_lt, ceil_div_lt; [done|]. by apply Z.leb_le.
    - apply Z.ltb_ge. apply Z.leb_gt in Hle.
      destruct (decide (ceil_div left DAY < sslExpiryDays (thresholds cfg)))
        as [Hlt|]; [|lia].
      apply ceil_div_lt in Hlt; [lia|done]. }
  unfold sslCheck.
  destruct (left <=? - DAY) eqn:Hexpired;
    [|destruct (left <=? (sslExpiryDays (thresholds cfg) - 1) * DAY) eqn:Hnear];
    eexists _, info, _; (split; [|split; [exact Hdays|]]);
    try (apply try_catch_ok;
         erewrite bind_ok by exact Hrun;
         rewrite Hdays, Hneg, ?Hsoon;
         repeat first [ rewrite bind_ret
                      | erewrite bind_ok by
                          (erewrite bind_ok by apply new_Date_run; reflexivity) ];
         reflexivity);
    reflexivity.
Qed.

(** The TLS block on a failed handshake and on a peer without
    certificate. *)
Lemma sslCheck_without_expiry cfg u (e : Env W) :
  (forall err w1,
     tls_handshake u (world e) = (Throw err, w1) ->
     sslCheck cfg u e =
       (Ok ([], Some (inr (message err))), mkEnv w1 (console e)))
  /\ (forall cert w1,
        tls_handshake u (world e) = (Ok cert, w1) ->
        valid_to cert = None ->
        exists info,
          sslCheck cfg u e = (Ok ([], Some (inl info)), mkEnv w1 (console e))
          /\ daysUntilExpiry info = None).
Proof.
  split.
  - intros err w1 Hshake. unfold sslCheck.
    rewrite (try_catch_throw _ _ e err (mkEnv w1 (console e))); [done|].
    apply bind_throw. unfold checkSSL. apply bind_throw.
    rewrite host_call_run. by rewrite Hshake.
  - intros cert w1 Hshake Hvalid. eexists. split.
    { unfold sslCheck. apply try_catch_ok.
      erewrite bind_ok; cycle 1.
      { unfold checkSSL. erewrite bind_ok; cycle 1.
        { rewrite host_call_run. rewrite Hshake. reflexivity. }
        rewrite Hvalid. reflexivity. }
      reflexivity. }
    reflexivity.
Qed.

(** X7. The TLS part of [checkUrl] raises nothing when it learns nothing.
    Once the HTTP part has returned its issues: with the expiry check
    switched off, or for a URL that does not start with [https://], no
    handshake is made, [checks.ssl] stays unset and the issues are those
    of the HTTP part; with the check on and an [https://] URL, a failed
    or timed-out handshake is recorded under [checks.ssl] as an error and
    a peer without certificate as [daysUntilExpiry: null], and neither
    adds an issue. *)
Theorem checkUrl_tls_silent_without_expiry m u (e : Env W) found chk e1 :
  httpBlock (config m) u (mkEnv (snd (Date_now (world e))) (console e))
    = (Ok (found, chk), e1) ->
  (sslExpiry (checks (config m)) = false \/ startsWith "https://" u = false ->
   exists r,
     checkUrl m u e = (Ok r, e1)
     /\ issues r = found /\ chk_ssl (r_checks r) = None)
  /\ (sslExpiry (checks (config m)) = true ->
      startsWith "https://" u = true ->
      (forall err w1,
         tls_handshake u (world e1) = (Throw err, w1) ->
         exists r,
           checkUrl m u e = (Ok r, mkEnv w1 (console e1))
           /\ issues r = found
           /\ chk_ssl (r_checks r) = Some (inr (message err)))
      /\ (forall cert w1,
            tls_handshake u (world e1) = (Ok cert, w1) ->
            valid_to cert = None ->
            exists r info,
              checkUrl m u e = (Ok r, mkEnv w1 (console e1))
              /\ issues r = found
              /\ chk_ssl (r_checks r) = Some (inl info)
              /\ daysUntilExpiry info = None)).
Proof.
  intros Hhttp. rewrite checkUrl_httpBlock.
  rewrite (bind_ok _ _ _ _ _ (new_Date_run e)).
  rewrite (bind_ok _ _ _ _ _ Hhttp).
  destruct (sslCheck_without_expiry (config m) u e1) as [Hfail Hnone].
  split.
  - intros Hoff.
    assert (sslExpiry (checks (config m)) && startsWith "https://" u = false)
      as -> by (destruct Hoff as [-> | ->]; [done|apply andb_false_r]).
    eexists. split; [reflexivity|]. simpl. by rewrite app_nil_r.
  - intros -> ->. simpl. split.
    + intros err w1 Hshake.
      rewrite (bind_ok _ _ _ _ _ (Hfail err w1 Hshake)).
      eexists. split; [reflexivity|]. simpl. by rewrite app_nil_r.
    + intros cert w1 Hshake Hvalid.
      destruct (Hnone cert w1 Hshake Hvalid) as (info & Hrun & Hdays).
      rewrite (bind_ok _ _ _ _ _ Hrun).
      eexists _, info. split; [reflexivity|]. simpl. by rewrite app_nil_r.
Qed.

End CheckClassification.

(** X4 on a site that answers 404 within a second. *)
Lemma httpStatusCheck_classifies_response_witness :
  exists found chk e',
    httpStatusCheck default_config "http://example.com/"
      (Sample.env0 (Sample.answering 404 1793562479000)) = (Ok (found, chk), e')
    /\ kinds found = [("error", 2)]
    /\ chk_responseTime chk = Some 1000.
Proof.
  destruct (httpStatusCheck_classifies_response default_config
              "http://example.com/"
              (Sample.env0 (Sample.answering 404 1793562479000))
              404 (Sample.answering 404 1793562480000))
    as (found & chk & e' & Hrun & Hkinds & _ & Htime); [reflexivity|].
  exists found, chk, e'. by repeat split.
Defined.

(** X5 on a site that refuses the connection, and on a URL that does not
    parse. *)
Lemma httpStatusCheck_connection_failure_witness :
  let w :=
    {| Sample.time := 0;
       Sample.http := fun _ => Throw (mkError "ECONNREFUSED");
       Sample.tls := fun _ => Throw (mkError "ECONNREFUSED");
       Sample.tracker := fun _ => Throw (mkError "Network Error");
       Sample.files := [] |} in
  (exists down,
     fst (httpStatusCheck default_config "http://example.com/" (Sample.env0 w))
       = Ok ([down],
             mkCheckValues (Some (inr "error")) None (Some "ECONNREFUSED") None)
     /\ title down = "🔴 SITIO CAÍDO: example.com")
  /\ fst (httpStatusCheck default_config "example.com" (Sample.env0 w))
       = Throw (mkError "Invalid URL").
Proof.
  intros w. split.
  - destruct (httpStatusCheck_connection_failure default_config
                "http://example.com/" (Sample.env0 w)
                (mkError "ECONNREFUSED")
                (snd (Date_now (world (Sample.env0 w)))))
      as [Hdown _]; [reflexivity|].
    destruct Hdown as (down & e' & Hrun & _ & _ & Htitle & _); [reflexivity|].
    exists down. rewrite Hrun. by split.
  - destruct (httpStatusCheck_connection_failure default_config
                "example.com" (Sample.env0 w)
                (mkError "Invalid URL")
                (snd (Date_now (world (Sample.env0 w)))))
      as [_ Hthrow]; [reflexivity|].
    by rewrite Hthrow.
Defined.

(** X6 on a certificate that expires ten days after the clock reading,
    with the default threshold of 14 days: one warning, ten days left. *)
Lemma sslCheck_classifies_certificate_witness :
  let now := 1793562479000 in
  let w :=
    {| Sample.time := now;
       Sample.http := fun _ => Ok 200;
       Sample.tls := fun _ =>
         Ok (mkPeerCertificate (Some (now + 10 * DAY)) true (Some "Acme CA"));
       Sample.tracker := fun _ => Throw (mkError "Network Error");
       Sample.files := [] |} in
  exists found info e',
    sslCheck default_config "https://example.com/" (Sample.env0 w)
      = (Ok (found, Some (inl info)), e')
    /\ daysUntilExpiry info = Some 10
    /\ kinds found = [("warning", 2)].
Proof.
  intros now w.
  destruct (sslCheck_classifies_certificate default_config
              "https://example.com/" (Sample.env0 w)
              (mkPeerCertificate (Some (now + 10 * DAY)) true (Some "Acme CA"))
              w (now + 10 * DAY))
    as (found & info & e' & Hrun & Hdays & Hkinds);
    [reflexivity|reflexivity|].
  exists found, info, e'. by repeat split.
Defined.

(** X7 on a host whose TLS port refuses the connection, and on a URL that
    is not [https://]. *)
Lemma checkUrl_tls_silent_without_expiry_witness :
  let e := Sample.env0 (Sample.quiet_world 0) in
  (exists r e',
     checkUrl (Sample.configured ∅) "https://example.com/" e = (Ok r, e')
     /\ issues r = [] /\ chk_ssl (r_checks r) = Some (inr "ECONNREFUSED"))
  /\ (exists r e',
        checkUrl (Sample.configured ∅) "http://example.com/" e = (Ok r, e')
        /\ issues r = [] /\ chk_ssl (r_checks r) = None).
Proof.
  intros e. split.
  - edestruct (checkUrl_tls_silent_without_expiry (Sample.configured ∅)
                 "https://example.com/" e) as [_ Hon]; [reflexivity|].
    destruct Hon as [Hfail _]; [reflexivity|reflexivity|].
    edestruct Hfail as (r & Hrun & Hissues & Hssl); [reflexivity|].
    eexists r, _. split; [exact Hrun|]. by split.
  - edestruct (checkUrl_tls_silent_without_expiry (Sample.configured ∅)
                 "http://example.com/" e) as [Hoff _]; [reflexivity|].
    destruct Hoff as (r & Hrun & Hissues & Hssl); [by right|].
    eexists r, _. split; [exact Hrun|]. by split.
Defined.

(* ===================================================================== *)
(** * Further properties: a monitoring cycle as a whole *)
(* ===================================================================== *)

Section CycleTheorems.
Context {W : Type} `{Host W} `{MonitorHost W}.

(** X8. A cycle over URLs that parse checks every configured URL once, in
    the configured order (a URL listed twice is checked twice): each
    result is what [checkUrl] returned for its URL in a world of this
    cycle. The cycle leaves the configuration and the tracker client
    untouched. *)
Theorem runChecks_checks_every_url_in_order m verbose (e : Env W) :
  parsable m ->
  exists m' out e',
    runChecks m verbose e = (Ok (m', out), e')
    /\ map r_url (out_results out) = urls (config m)
    /\ Forall (fun r => exists e0 e1,
                 observes (world e) (world e0)
                 /\ checkUrl m (r_url r) e0 = (Ok r, e1)) (out_results out)
    /\ config m' = config m
    /\ linear m' = linear m.
Proof.
  intros Hparse.
  destruct (runChecks_cycle_spec m verbose e Hparse)
    as (m' & out & w & lines & Hrun & _ & Hurls & Hchecks & Hc & Hl & _).
  by eexists m', out, _.
Qed.

(** X9. In a cycle over URLs that parse, the batch of new issues is drawn
    from the issues this cycle's checks reported, in the order in which
    they were reported: nothing is alerted that was not found in this
    cycle, and nothing twice. *)
Theorem runChecks_batch_from_this_cycle m verbose (e : Env W) :
  parsable m ->
  exists m' out e',
    runChecks m verbose e = (Ok (m', out), e')
    /\ newIssues out `sublist_of` producedIssues (out_results out).
Proof.
  intros Hparse.
  destruct (runChecks_cycle_spec m verbose e Hparse)
    as (m' & out & w & lines & Hrun & _ & _ & _ & _ & _ & _ & Hded).
  eexists m', out, _. split; [exact Hrun|].
  by eapply dedup_run_sublist.
Qed.

(** X10. In a cycle over URLs that parse, the ledger is never pruned and
    changes only for what was alerted: every key it had it still has, and
    a key that is not the key [url-type-title] of an issue of the batch
    keeps its timestamp (a suppressed issue does not refresh its own). *)
Theorem runChecks_ledger_changes_only_for_batch m verbose (e : Env W) :
  parsable m ->
  exists m' out e',
    runChecks m verbose e = (Ok (m', out), e')
    /\ (forall k,
          is_Some (alerts (state m) !! k) -> is_Some (alerts (state m') !! k))
    /\ (forall k,
          (forall ui, ui ∈ newIssues out -> claimed_key ui <> k) ->
          alerts (state m') !! k = alerts (state m) !! k).
Proof.
  intros Hparse.
  destruct (runChecks_cycle_spec m verbose e Hparse)
    as (m' & out & w & lines & Hrun & _ & _ & _ & _ & _ & _ & Hded).
  eexists m', out, _. split; [exact Hrun|]. split.
  - intros k. by eapply dedup_run_keeps_keys.
  - intros k. by eapply dedup_run_unchanged.
Qed.

(** X11. A cycle over URLs that parse only observes the world (clock,
    requests, handshakes) and then ends by writing the state file; what
    it writes is the state it leaves in memory: the new [lastCheck], the
    updated ledger and the truncated history. A cycle that rejects has
    only observed the world, so the state file is not written, and some
    configured URL does not parse. *)
Theorem runChecks_saves_the_state_it_leaves m verbose (e : Env W) :
  (parsable m ->
   exists m' out e' w,
     runChecks m verbose e = (Ok (m', out), e')
     /\ observes (world e) w
     /\ world e' =
          fs_writeFileSync STATE_PATH (JSON_stringify_state (state m')) w)
  /\ (forall err e',
        runChecks m verbose e = (Throw err, e') ->
        observes (world e) (world e')
        /\ Exists (fun u => URL_canParse u = false) (urls (config m))).
Proof.
  split.
  - intros Hparse.
    destruct (runChecks_cycle_spec m verbose e Hparse)
      as (m' & out & w & lines & Hrun & Hobs & _).
    by eexists m', out, _, w.
  - intros err e' Hrun.
    destruct (runChecks_throw_inv m verbose e err e' Hrun) as [Hobs Hnot].
    split; [done|].
    apply not_Forall_Exists in Hnot; [|apply _].
    eapply Exists_impl; [exact Hnot|]. simpl. intros u Hu.
    by destruct (URL_canParse u).
Qed.

(** X12. Saving and loading go through the same files: on a host whose
    files keep what is written and whose JSON text parses back,
    [loadState] after [saveState] returns the saved state, not the
    defaults. *)
Theorem loadState_reads_back_saved_state m (e : Env W) :
  state_file_faithful (state m) (world e) ->
  exists e',
    saveState m e = (Ok tt, e') /\ loadState e' = (Ok (state m), e').
Proof.
  intros (Hexists & Hread & Hparse). eexists. split; [reflexivity|].
  unfold loadState, try_catch, bind, gets, host_read, ret. simpl.
  rewrite Hexists. simpl. by rewrite Hread, Hparse.
Qed.

(** X13. Without a team, or without an API key, [sendAlerts] is a no-op:
    it returns no created issue and contacts nothing, whatever the batch;
    it prints a hint when [verbose] is set. *)
Theorem sendAlerts_unconfigured_is_noop m batch verbose (e : Env W) :
  truthy (teamId (config m)) = false \/ isConfigured (linear m) = false ->
  exists lines,
    sendAlerts m batch verbose e = (Ok [], mkEnv (world e) (console e ++ lines))
    /\ (verbose = false -> lines = []).
Proof.
  intros Hun. unfold sendAlerts.
  destruct (truthy (teamId (config m))) eqn:Hteam; simpl.
  - destruct Hun as [?|Hkey]; [done|]. rewrite Hkey. simpl.
    erewrite bind_ok by apply when_console_log_run.
    eexists. split; [reflexivity|]. by intros ->.
  - erewrite bind_ok by apply when_console_log_run.
    eexists. split; [reflexivity|]. by intros ->.
Qed.

End CycleTheorems.

(** X8 on the sample monitor. *)
Lemma runChecks_checks_every_url_in_order_witness :
  exists m' out e',
    runChecks (Sample.configured ∅) false
      (Sample.env0 (Sample.answering 503 1793562479000)) = (Ok (m', out), e')
    /\ map r_url (out_results out) = ["https://example.com/"].
Proof.
  destruct (runChecks_checks_every_url_in_order (Sample.configured ∅) false
              (Sample.env0 (Sample.answering 503 1793562479000)))
    as (m' & out & e' & Hrun & Hurls & _).
  - by repeat constructor.
  - exists m', out, e'. split; [exact Hrun|exact Hurls].
Defined.

(** X9 on the sample monitor. *)
Lemma runChecks_batch_from_this_cycle_witness :
  exists m' out e',
    runChecks (Sample.configured ∅) false
      (Sample.env0 (Sample.answering 503 1793562479000)) = (Ok (m', out), e')
    /\ newIssues out `sublist_of` producedIssues (out_results out).
Proof.
  apply runChecks_batch_from_this_cycle. by repeat constructor.
Defined.

(** X10 on the sample monitor, whose ledger holds a key for another
    site: the cycle leaves it alone. *)
Lemma runChecks_ledger_changes_only_for_batch_witness :
  let m := Sample.configured {[ "https://other.example/-error-down" := 7 ]} in
  exists m' out e',
    runChecks m false
      (Sample.env0 (Sample.answering 503 1793562479000)) = (Ok (m', out), e')
    /\ is_Some (alerts (state m') !! "https://other.example/-error-down").
Proof.
  intros m.
  destruct (runChecks_ledger_changes_only_for_batch m false
              (Sample.env0 (Sample.answering 503 1793562479000)))
    as (m' & out & e' & Hrun & Hkeep & _).
  - by repeat constructor.
  - exists m', out, e'. split; [exact Hrun|]. apply Hkeep.
    simpl. rewrite lookup_singleton_eq. by eexists.
Defined.

(** X11 on the sample monitor: the state file is the last file written,
    and it was not there before. *)
Lemma runChecks_saves_the_state_it_leaves_witness :
  exists m' out e',
    runChecks (Sample.configured ∅) false
      (Sample.env0 (Sample.answering 503 1793562479000)) = (Ok (m', out), e')
    /\ Sample.files (world e') = [(STATE_PATH, Sample.put_state (state m'))].
Proof.
  destruct (runChecks_saves_the_state_it_leaves (Sample.configured ∅) false
              (Sample.env0 (Sample.answering 503 1793562479000)))
    as [Hsaves _].
  destruct Hsaves as (m' & out & e' & w & Hrun & Hobs & Hworld).
  - by repeat constructor.
  - exists m', out, e'. split; [exact Hrun|].
    rewrite Hworld. simpl. apply sample_observes in Hobs as [_ ->]. done.
Defined.

(** X12 on the sample host, for a state with a last check, an alert and a
    history entry: what is loaded is that state, not the defaults. *)
Lemma loadState_reads_back_saved_state_witness :
  let s :=
    {| lastCheck := Some "2026-11-02T10:27:59.000Z";
       alerts :=
         {[ "https://example.com/-critical-🔴 ERROR 503 en example.com"
              := 1793562479000 ]};
       history :=
         [mkHistoryEntry "2026-11-02T10:27:59.000Z"
            [("https://example.com/", "critical")]] |} in
  let m := mkMonitor default_config s (mkLinearClient None) in
  exists e',
    saveState m (Sample.env0 (Sample.quiet_world 0)) = (Ok tt, e')
    /\ loadState e' = (Ok s, e')
    /\ s <> default_state.
Proof.
  intros s m.
  destruct (loadState_reads_back_saved_state m
              (Sample.env0 (Sample.quiet_world 0))) as (e' & Hsave & Hload).
  - split; [reflexivity|]. split; [reflexivity|]. vm_compute. reflexivity.
  - exists e'. split; [exact Hsave|]. split; [exact Hload|]. discriminate.
Defined.

(** X13 on a monitor that has an API key but no team. *)
Lemma sendAlerts_unconfigured_is_noop_witness :
  let m := mkMonitor default_config default_state (mkLinearClient (Some "key")) in
  sendAlerts m [mkUrlIssue Sample.issue503 "https://example.com/"] false
    (Sample.env0 (Sample.quiet_world 0))
  = (Ok [], Sample.env0 (Sample.quiet_world 0)).
Proof.
  intros m.
  destruct (sendAlerts_unconfigured_is_noop m
              [mkUrlIssue Sample.issue503 "https://example.com/"] false
              (Sample.env0 (Sample.quiet_world 0)))
    as (lines & Hrun & Hquiet); [by left|].
  rewrite Hrun, (Hquiet eq_refl). reflexivity.
Defined.

(* ===================================================================== *)
(** * src/index.js: categories that are not registry keys *)
(* ===================================================================== *)

Lemma assoc_None_of_not_key {A} (key : string) (l : list (string * A)) :
  key ∉ map fst l -> assoc key l = None.
Proof.
  induction l as [|[k v] l IH]; simpl; [done|].
  intros Hnot. destruct (String.eqb key k) eqn:E.
  - apply String.eqb_eq in E as ->. destruct Hnot. by left.
  - apply IH. intros Hin. apply Hnot. by right.
Qed.

Lemma for_of_app {S A B} (l1 l2 : list A) (body : A -> B -> M S B) acc s :
  for_of (l1 ++ l2) body acc s =
    match for_of l1 body acc s with
    | (Ok acc', s') => for_of l2 body acc' s'
    | (Throw err, s') => (Throw err, s')
    end.
Proof.
  revert acc s. induction l1 as [|x l1 IH]; intros acc s; simpl; [done|].
  unfold bind. destruct (body x acc s) as [[acc'|err] s']; [apply IH|done].
Qed.

(** A list with an element outside [keys] splits at the first such
    element. *)
Lemma first_foreign (keys : list string) (l : list string) :
  ~ Forall (fun key => key ∈ keys) l ->
  exists pre c rest,
    l = pre ++ c :: rest /\ Forall (fun key => key ∈ keys) pre /\ c ∉ keys.
Proof.
  induction l as [|x l IH]; intros Hnot.
  - destruct Hnot. constructor.
  - destruct (decide (x ∈ keys)) as [Hx|Hx].
    + destruct IH as (pre & c & rest & -> & Hpre & Hc).
      { intros Hall. apply Hnot. by constructor. }
      exists (x :: pre), c, rest. repeat split; [by constructor|done].
    + by exists [], x, l.
Qed.

Section ScanAbort.
Context {W : Type} `{Host W}.
Variable probes : Probes W.

(** The loop body at a name that is not a key of the registry. *)
Lemma runCategory_foreign u logger total c acc (e : Env W) :
  c ∉ Object_keys probes ->
  exists lines,
    runCategory probes u logger total c acc e =
      (Throw (mkError
         (if registered probes c then "category.tests is not iterable"
          else "Cannot read properties of undefined (reading 'name')")),
       mkEnv (world e) (console e ++ lines)).
Proof.
  intros Hc. destruct acc as [currentTest reporter].
  unfold runCategory, registered, TEST_CATEGORIES_get.
  rewrite (assoc_None_of_not_key c (TEST_CATEGORIES probes) Hc).
  destruct (assoc c Object_prototype) as [fname|].
  - destruct (Logger_step_run logger (S currentTest) total (show_opt fname) e)
      as (l1 & Hstep).
    destruct (Logger_explain_run logger "   undefined"
                (mkEnv (world e) (console e ++ l1))) as (l2 & Hexplain).
    exists (l1 ++ l2).
    erewrite bind_ok; [|exact Hstep].
    erewrite bind_ok; [|exact Hexplain].
    simpl. by rewrite app_assoc.
  - exists []. rewrite app_nil_r. by destruct e.
Qed.

(** The whole scan when every category is a registry key. *)
Lemma runTests_run_own u categories verbose (e : Env W) :
  Forall (fun key => key ∈ Object_keys probes) categories ->
  exists reporter e',
    runTests probes u categories verbose e = (Ok reporter, e')
    /\ results reporter =
         returned (fst (probe_outcomes u (mkLogger verbose)
                          (planned (TEST_CATEGORIES probes) categories)
                          (snd (Date_now (world e))))).
Proof.
  intros Hkeys.
  destruct (Logger_header_run (mkLogger verbose) ("Analizando: " +:+ u)
              (mkEnv (snd (Date_now (world e))) (console e))) as (l1 & Hheader).
  destruct (runCategories_spec probes u (mkLogger verbose) (length categories)
              categories Hkeys O
              {| results := []; url := u;
                 startTime := Some (fst (Date_now (world e)));
                 endTime := None |}
              (mkEnv (snd (Date_now (world e))) (console e ++ l1)))
    as (l2 & Hloop & _).
  eexists _, _. unfold runTests, startTimer, endTimer.
  erewrite bind_ok; [|erewrite bind_ok; [reflexivity|apply new_Date_run]].
  erewrite bind_ok; [|exact Hheader].
  erewrite bind_ok; [|exact Hloop].
  erewrite bind_ok; [|erewrite bind_ok; [reflexivity|apply new_Date_run]].
  split; reflexivity.
Qed.

(** The whole scan up to the first category that is not a registry key. *)
Lemma runTests_run_foreign u pre c rest verbose (e : Env W) :
  Forall (fun key => key ∈ Object_keys probes) pre ->
  c ∉ Object_keys probes ->
  exists lines,
    runTests probes u (pre ++ c :: rest) verbose e =
      (Throw (mkError
         (if registered probes c then "category.tests is not iterable"
          else "Cannot read properties of undefined (reading 'name')")),
       mkEnv (snd (probe_outcomes u (mkLogger verbose)
                     (planned (TEST_CATEGORIES probes) pre)
                     (snd (Date_now (world e)))))
             (console e ++ lines)).
Proof.
  intros Hpre Hc.
  destruct (Logger_header_run (mkLogger verbose) ("Analizando: " +:+ u)
              (mkEnv (snd (Date_now (world e))) (console e))) as (l1 & Hheader).
  destruct (runCategories_spec probes u (mkLogger verbose)
              (length (pre ++ c :: rest)) pre Hpre O
              {| results := []; url := u;
                 startTime := Some (fst (Date_now (world e)));
                 endTime := None |}
              (mkEnv (snd (Date_now (world e))) (console e ++ l1)))
    as (l2 & Hloop & _).
  simpl in Hloop.
  match type of Hloop with _ = (Ok ?acc, ?e2) =>
    destruct (runCategory_foreign u (mkLogger verbose)
                (length (pre ++ c :: rest)) c acc e2 Hc) as (l3 & Hthrow)
  end.
  exists (l1 ++ l2 ++ l3). unfold runTests, startTimer.
  erewrite bind_ok; [|erewrite bind_ok; [reflexivity|apply new_Date_run]].
  erewrite bind_ok; [|exact Hheader].
  erewrite bind_throw; [reflexivity|].
  rewrite for_of_app. simpl in Hheader |- *. rewrite Hloop. unfold bind at 1.
  rewrite Hthrow. simpl. by rewrite !app_assoc.
Qed.

(** X14. A category name that is not a key of the registry aborts the
    whole scan with a [TypeError]: the probes of the categories before it
    have run, no later probe is called, the timer is not stopped and no
    report is returned. The message tells a name found on
    [Object.prototype] from an unknown one. *)
Theorem runTests_aborts_at_foreign_category u pre c rest verbose (e : Env W) :
  Forall (fun key => key ∈ Object_keys probes) pre ->
  c ∉ Object_keys probes ->
  exists err e',
    runTests probes u (pre ++ c :: rest) verbose e = (Throw err, e')
    /\ message err =
         (if registered probes c then "category.tests is not iterable"
          else "Cannot read properties of undefined (reading 'name')")
    /\ world e' =
         snd (probe_outcomes u (mkLogger verbose)
                (planned (TEST_CATEGORIES probes) pre)
                (snd (Date_now (world e)))).
Proof.
  intros Hpre Hc.
  destruct (runTests_run_foreign u pre c rest verbose e Hpre Hc)
    as (lines & Hrun).
  by eexists _, _.
Qed.

(** X15. [automaticMode] returns a report exactly when every selected
    category is a key of the registry. Since an [only] list is filtered by
    the truthiness of [TEST_CATEGORIES[c]], a name inherited from
    [Object.prototype] is selected, and the scan then throws
    "category.tests is not iterable"; an unknown name is never selected. *)
Theorem automaticMode_throws_iff_inherited_name u options (e : Env W) :
  ((exists err e', automaticMode probes u options e = (Throw err, e'))
   <-> exists c, c ∈ selectCategories probes options
                 /\ c ∉ Object_keys probes)
  /\ (forall err e',
        automaticMode probes u options e = (Throw err, e') ->
        message err = "category.tests is not iterable").
Proof.
  unfold automaticMode.
  assert (Hsel : forall c, c ∈ selectCategories probes options ->
                           registered probes c = true).
  { assert (Hfilter : forall (f : string -> bool) l c,
              c ∈ List.filter f l -> c ∈ l /\ f c = true).
    { intros f l c Hin. apply list_elem_of_In, List.filter_In in Hin as [Hin Hf].
      by apply list_elem_of_In in Hin. }
    assert (Hkeys : forall c, c ∈ Object_keys probes -> registered probes c = true).
    { intros c Hin. pose proof (Object_keys_registered probes) as HF.
      rewrite Forall_forall in HF. by apply HF. }
    intros c Hin. unfold selectCategories in Hin.
    destruct (truthy (only options)); destruct (truthy (skip options)).
    - apply Hfilter in Hin as [Hin _]. by apply Hfilter in Hin as [_ Hreg].
    - by apply Hfilter in Hin as [_ Hreg].
    - apply Hfilter in Hin as [Hin _]. by apply Hkeys.
    - by apply Hkeys. }
  destruct (decide (Forall (fun key => key ∈ Object_keys probes)
                      (selectCategories probes options))) as [Hall|Hnot].
  - destruct (runTests_run_own u _ (negb (quiet options)) e Hall)
      as (reporter & e1 & Hrun & _).
    split.
    + split.
      * intros (err & e' & Hthrow). congruence.
      * intros (c & Hin & Hc). destruct Hc.
        rewrite Forall_forall in Hall. by apply Hall.
    + intros err e' Hthrow. congruence.
  - destruct (first_foreign _ _ Hnot) as (pre & c & rest & Heq & Hpre & Hc).
    rewrite Heq.
    destruct (runTests_run_foreign u pre c rest (negb (quiet options)) e Hpre Hc)
      as (lines & Hrun).
    assert (Hreg : registered probes c = true).
    { apply Hsel. rewrite Heq. apply elem_of_app. right. by left. }
    rewrite Hreg in Hrun. split.
    + split.
      * intros _. exists c. split; [|done]. apply elem_of_app. right. by left.
      * intros _. by eexists _, _.
    + intros err e' Hthrow. rewrite Hrun in Hthrow. by inversion Hthrow.
Qed.

End ScanAbort.

(** X14 on the sample probes: [--only http,constructor,ssl]. *)
Lemma runTests_aborts_at_foreign_category_witness :
  exists err e',
    runTests Sample.probes "https://example.com/"
      (["http"] ++ "constructor" :: ["ssl"]) false
      (Sample.env0 (Sample.quiet_world 0)) = (Throw err, e')
    /\ message err = "category.tests is not iterable".
Proof.
  destruct (runTests_aborts_at_foreign_category Sample.probes
              "https://example.com/" ["http"] "constructor" ["ssl"] false
              (Sample.env0 (Sample.quiet_world 0)))
    as (err & e' & Hrun & Hmsg & _).
  - repeat constructor.
  - vm_compute. intros Hin.
    repeat (apply elem_of_cons in Hin as [Hin|Hin]; [discriminate Hin|]).
    by apply elem_of_nil in Hin.
  - exists err, e'. split; [exact Hrun|exact Hmsg].
Defined.

(* ===================================================================== *)
(** * src/reporter.js: the summary table and the findings sections *)
(* ===================================================================== *)

Lemma tally_buckets acc t :
  critical (tally acc t) =
    (critical acc + (if str_is (severity t) "critical" then 1 else 0))%nat
  /\ high (tally acc t) =
       (high acc + (if str_is (severity t) "high" then 1 else 0))%nat
  /\ medium (tally acc t) =
       (medium acc + (if str_is (severity t) "medium" then 1 else 0))%nat
  /\ low (tally acc t) =
       (low acc + (if str_is (severity t) "low" then 1 else 0))%nat.
Proof.
  unfold tally, str_is. destruct (severity t) as [s|]; simpl.
  - destruct (String.eqb_spec s "critical") as [->|_]; simpl;
      [repeat split; lia|].
    destruct (String.eqb_spec s "high") as [->|_]; simpl;
      [repeat split; lia|].
    destruct (String.eqb_spec s "medium") as [->|_]; simpl;
      [repeat split; lia|].
    destruct (String.eqb_spec s "low") as [->|_]; simpl; repeat split; lia.
  - repeat split; lia.
Qed.

Lemma fold_tally_buckets ts acc :
  let count sev := length (List.filter (fun t => str_is (severity t) sev) ts) in
  critical (fold_left tally ts acc) = (critical acc + count "critical")%nat
  /\ high (fold_left tally ts acc) = (high acc + count "high")%nat
  /\ medium (fold_left tally ts acc) = (medium acc + count "medium")%nat
  /\ low (fold_left tally ts acc) = (low acc + count "low")%nat.
Proof.
  revert acc. induction ts as [|t ts IH]; intros acc; simpl.
  - repeat split; lia.
  - destruct (IH (tally acc t)) as (Hc & Hh & Hm & Hl).
    destruct (tally_buckets acc t) as (Tc & Th & Tm & Tl).
    simpl in Hc, Hh, Hm, Hl. rewrite Hc, Hh, Hm, Hl, Tc, Th, Tm, Tl.
    repeat split;
      match goal with |- context [if ?b then _ else _] => destruct b end;
      simpl; lia.
Qed.

Lemma fold_categories_buckets (cs : list CategoryResults) acc :
  let count sev :=
    length (flat_map (fun c =>
      List.filter (fun t => str_is (severity t) sev) (tests c)) cs) in
  let total := fold_left (fun acc c => fold_left tally (tests c) acc) cs acc in
  critical total = (critical acc + count "critical")%nat
  /\ high total = (high acc + count "high")%nat
  /\ medium total = (medium acc + count "medium")%nat
  /\ low total = (low acc + count "low")%nat.
Proof.
  revert acc. induction cs as [|c cs IH]; intros acc; simpl.
  - repeat split; lia.
  - destruct (IH (fold_left tally (tests c) acc)) as (Hc & Hh & Hm & Hl).
    destruct (fold_tally_buckets (tests c) acc) as (Tc & Th & Tm & Tl).
    simpl in Hc, Hh, Hm, Hl, Tc, Th, Tm, Tl.
    rewrite Hc, Hh, Hm, Hl, Tc, Th, Tm, Tl, !length_app.
    repeat split; lia.
Qed.

Lemma buckets_bounded (cs : list CategoryResults) :
  let count sev :=
    length (flat_map (fun c =>
      List.filter (fun t => str_is (severity t) sev) (tests c)) cs) in
  (count "critical" + count "high" + count "medium" + count "low"
   <= length (flat_map tests cs))%nat.
Proof.
  induction cs as [|c cs IH]; simpl; [lia|].
  simpl in IH. rewrite !length_app.
  assert (length (List.filter (fun t => str_is (severity t) "critical") (tests c))
          + length (List.filter (fun t => str_is (severity t) "high") (tests c))
          + length (List.filter (fun t => str_is (severity t) "medium") (tests c))
          + length (List.filter (fun t => str_is (severity t) "low") (tests c))
          <= length (tests c))%nat; [|lia].
  clear IH. induction (tests c) as [|t ts IHt]; simpl; [lia|].
  unfold str_is in *. destruct (severity t) as [s|]; simpl; [|lia].
  destruct (String.eqb_spec s "critical") as [->|_]; simpl; [lia|].
  destruct (String.eqb_spec s "high") as [->|_]; simpl; [lia|].
  destruct (String.eqb_spec s "medium") as [->|_]; simpl; [lia|].
  destruct (String.eqb_spec s "low") as [->|_]; simpl; lia.
Qed.

(** X16. The numbers of the summary table are the numbers of findings
    listed under the same severity: each of the counters [critical],
    [high], [medium] and [low] is the length of the list of findings with
    exactly that severity string (the lists the "Hallazgos Principales"
    sections are printed from). A finding with any other severity, or
    none, is counted in no bucket. *)
Theorem getSummary_buckets_count_findings (r : Reporter) :
  critical (getSummary r) = length (findingsOf "critical" r)
  /\ high (getSummary r) = length (findingsOf "high" r)
  /\ medium (getSummary r) = length (findingsOf "medium" r)
  /\ low (getSummary r) = length (findingsOf "low" r)
  /\ (critical (getSummary r) + high (getSummary r) + medium (getSummary r)
      + low (getSummary r) <= length (allFindings r))%nat.
Proof.
  destruct (fold_categories_buckets (results r) (mkSummary 0 0 0 0 0))
    as (Hc & Hh & Hm & Hl).
  pose proof (buckets_bounded (results r)) as Hle.
  unfold getSummary, findingsOf, allFindings. simpl in Hc, Hh, Hm, Hl, Hle.
  rewrite Hc, Hh, Hm, Hl. repeat split; try done.
Qed.

(** X17. Whatever the severities, sorting loses and adds nothing: the
    printed recommendation list is a rearrangement of the entries
    collected from the findings with a truthy [recommendation], and it is
    empty (the report then prints the "no recommendations" sentence)
    exactly when no finding has one. *)
Theorem recommendations_keeps_every_entry (r : Reporter) :
  recommendations r ≡ₚ collectRecommendations r
  /\ length (recommendations r) =
       length (List.filter (fun t => truthy (recommendation t)) (allFindings r))
  /\ (recommendations r = [] <->
      Forall (fun t => truthy (recommendation t) = false) (allFindings r)).
Proof.
  assert (Hperm : recommendations r ≡ₚ collectRecommendations r)
    by apply Array_sort_Permutation.
  assert (Hlen : length (recommendations r) =
    length (List.filter (fun t => truthy (recommendation t)) (allFindings r))).
  { rewrite Hperm, collectRecommendations_filter. apply length_map. }
  split; [exact Hperm|]. split; [exact Hlen|].
  split.
  - intros Hnil. rewrite Hnil in Hlen. simpl in Hlen.
    induction (allFindings r) as [|t ts IH]; [constructor|].
    simpl in Hlen. destruct (truthy (recommendation t)) eqn:E; [done|].
    constructor; [done|]. by apply IH.
  - intros Hall. apply nil_length_inv. rewrite Hlen. clear Hlen Hperm.
    induction Hall as [|t ts Ht _ IH]; simpl; [done|]. by rewrite Ht.
Qed.

(* ===================================================================== *)
(** * The probes of httpTests.js, securityTests.js and sslTests.js *)
(* ===================================================================== *)

(** ** The findings are well formed *)

Lemma httpResponseTests_well_formed response responseTime :
  forallb well_formed (Tests.httpResponseTests response responseTime) = true.
Proof.
  unfold Tests.httpResponseTests.
  destruct ((200 <=? resp_status response) && (resp_status response <? 400));
    destruct (responseTime <? 3000);
    destruct (String_includes "text/html" _);
    destruct (truthy (header response "server"));
    destruct (truthy (header response "x-powered-by"));
    reflexivity.
Qed.

Lemma redirectTests_well_formed u redirects :
  forallb well_formed (Tests.redirectTests u redirects) = true.
Proof.
  unfold Tests.redirectTests.
  destruct (0 <? length redirects)%nat; [|reflexivity].
  destruct (startsWith "http://" u && existsb (startsWith "https://") redirects);
    reflexivity.
Qed.

Lemma hstsTests_well_formed u response :
  forallb well_formed (Tests.hstsTests u response) = true.
Proof.
  unfold Tests.hstsTests.
  destruct (startsWith "https://" u); [|reflexivity].
  destruct (truthy (header response "strict-transport-security"));
    [|reflexivity].
  destruct (negb _ || negb _); reflexivity.
Qed.

Lemma securityHeaderTests_well_formed u response :
  forallb well_formed (Tests.securityHeaderTests u response) = true.
Proof.
  unfold Tests.securityHeaderTests.
  rewrite !forallb_app, hstsTests_well_formed. cbn [forallb andb].
  assert (well_formed (Tests.cspTest response) = true) as ->.
  { unfold Tests.cspTest. by destruct (truthy _). }
  assert (well_formed (Tests.xfoTest response) = true) as ->.
  { unfold Tests.xfoTest. by destruct (truthy _). }
  assert (well_formed (Tests.xctoTest response) = true) as ->.
  { unfold Tests.xctoTest. by destruct (str_is _ _). }
  assert (well_formed (Tests.xxssTest response) = true) as ->.
  { unfold Tests.xxssTest. by destruct (truthy _). }
  assert (well_formed (Tests.referrerTest response) = true) as ->.
  { unfold Tests.referrerTest. by destruct (truthy _). }
  assert (well_formed (Tests.permissionsTest response) = true) as ->.
  { unfold Tests.permissionsTest. by destruct (truthy _). }
  assert (well_formed (Tests.cacheControlTest response) = true) as ->.
  { unfold Tests.cacheControlTest. by destruct (truthy _). }
  reflexivity.
Qed.

Lemma cookieTest_well_formed cookie :
  well_formed (Tests.cookieTest cookie) = true.
Proof.
  unfold Tests.cookieTest.
  destruct (Tests.hasHttpOnly cookie && Tests.hasSecure cookie
            && Tests.hasSameSite cookie) eqn:E.
  - reflexivity.
  - unfold well_formed. simpl.
    destruct (Tests.hasHttpOnly cookie); destruct (Tests.hasSecure cookie);
      destruct (Tests.hasSameSite cookie); try discriminate E; reflexivity.
Qed.

Lemma corsTests_well_formed response :
  forallb well_formed (Tests.corsTests response) = true.
Proof.
  unfold Tests.corsTests.
  destruct (truthy (header response "access-control-allow-origin"));
    [|reflexivity]; simpl.
  destruct (str_is _ "*").
  - destruct (str_is _ "true"); reflexivity.
  - destruct (str_is _ "https://evil-site.com"); reflexivity.
Qed.

Section ProbeRuns.
Context {W : Type} `{Host W} `{ProbeHost W}.

Lemma expirationTest_well_formed expirationDate now :
  well_formed (Tests.expirationTest expirationDate now) = true.
Proof.
  unfold Tests.expirationTest.
  destruct (ceil_div (expirationDate - now) DAY <? 0) eqn:E0.
  - assert ((ceil_div (expirationDate - now) DAY <? 30) = true) as ->
      by (apply Z.ltb_lt; apply Z.ltb_lt in E0; lia).
    reflexivity.
  - destruct (ceil_div (expirationDate - now) DAY <? 30); [reflexivity|].
    destruct (ceil_div (expirationDate - now) DAY <? 90); reflexivity.
Qed.

Lemma certificateTests_well_formed certificate :
  forallb well_formed
    ([Tests.validityTest certificate] ++ Tests.issuerTests certificate) = true
  /\ forallb well_formed
       (Tests.protocolTests certificate ++ Tests.cipherTests certificate ++
        Tests.sanTests certificate) = true.
Proof.
  unfold Tests.validityTest, Tests.issuerTests, Tests.protocolTests,
    Tests.cipherTests, Tests.sanTests.
  split.
  - destruct (s_authorized certificate);
      destruct (c_issuer (s_cert certificate)) as [[org cn]|]; reflexivity.
  - destruct (truthy (s_protocol certificate));
      destruct (s_cipher certificate) as [cipher_name|];
      destruct (truthy (c_subjectaltname (s_cert certificate)));
      repeat match goal with
             | |- context [includes ?l ?x] => destruct (includes l x)
             | |- context [existsb ?f ?l] => destruct (existsb f l)
             end; reflexivity.
Qed.

(** [logger.explain]: one line when verbose, nothing otherwise. *)
Lemma Logger_explain_lines logger msg (e : Env W) :
  Logger_explain logger msg e =
    (Ok tt, mkEnv (world e) (console e ++ (if verbose logger then [msg] else []))).
Proof.
  unfold Logger_explain, when. destruct (verbose logger); [done|].
  rewrite app_nil_r. by destruct e.
Qed.

Ltac explain_step := erewrite bind_ok by apply Logger_explain_lines.

Lemma axios_request_run req (e : Env W) r w' :
  axios_request req (world e) = (r, w') ->
  host_call (axios_request req) e = (r, mkEnv w' (console e)).
Proof. intros Hreq. by rewrite host_call_run, Hreq. Qed.

(** *** testHttpResponse *)

Lemma testHttpResponse_ok u logger (e : Env W) response w2 :
  axios_request (httpRequest u) (snd (Date_now (world e))) = (Ok response, w2) ->
  exists lines,
    Tests.testHttpResponse u logger e =
      (Ok (mkCategoryResults "Respuesta HTTP"
             (Tests.httpResponseTests response
                (fst (Date_now w2) - fst (Date_now (world e))))),
       mkEnv (snd (Date_now w2)) (console e ++ lines)).
Proof.
  intros Hreq. eexists. unfold Tests.testHttpResponse.
  do 2 explain_step.
  erewrite bind_ok; cycle 1.
  { apply try_catch_ok.
    erewrite bind_ok by apply new_Date_run.
    erewrite bind_ok by (apply axios_request_run; exact Hreq).
    erewrite bind_ok by apply new_Date_run.
    explain_step. reflexivity. }
  cbn [world console ret]. rewrite <- !app_assoc. reflexivity.
Qed.

Lemma testHttpResponse_throw u logger (e : Env W) err w2 :
  axios_request (httpRequest u) (snd (Date_now (world e))) = (Throw err, w2) ->
  exists lines,
    Tests.testHttpResponse u logger e =
      (Ok (mkCategoryResults "Respuesta HTTP"
             [failureFinding "Conexión" "fail" "critical"
                "No se pudo conectar: " err]),
       mkEnv w2 (console e ++ lines)).
Proof.
  intros Hreq. eexists. unfold Tests.testHttpResponse.
  do 2 explain_step.
  erewrite bind_ok; cycle 1.
  { erewrite try_catch_throw; cycle 1.
    { erewrite bind_ok by apply new_Date_run.
      erewrite bind_throw by (apply axios_request_run; exact Hreq).
      reflexivity. }
    explain_step. reflexivity. }
  cbn [world console ret]. rewrite <- !app_assoc. reflexivity.
Qed.

(** *** testRedirects *)

Lemma testRedirects_ok u logger (e : Env W) response w2 :
  axios_request (redirectRequest u) (world e) = (Ok response, w2) ->
  exists lines,
    Tests.testRedirects u logger e =
      (Ok (mkCategoryResults "Redirecciones"
             (Tests.redirectTests u (resp_redirects response))),
       mkEnv w2 (console e ++ lines)).
Proof.
  intros Hreq. eexists. unfold Tests.testRedirects.
  do 2 explain_step.
  erewrite bind_ok; cycle 1.
  { apply try_catch_ok.
    erewrite bind_ok by (apply axios_request_run; exact Hreq).
    explain_step. reflexivity. }
  cbn [world console ret]. rewrite <- !app_assoc. reflexivity.
Qed.

Lemma testRedirects_throw u logger (e : Env W) err w2 :
  axios_request (redirectRequest u) (world e) = (Throw err, w2) ->
  exists lines,
    Tests.testRedirects u logger e =
      (Ok (mkCategoryResults "Redirecciones"
             [failureFinding "Análisis de Redirecciones" "warning" "low"
                "No se pudo analizar: " err]),
       mkEnv w2 (console e ++ lines)).
Proof.
  intros Hreq. eexists. unfold Tests.testRedirects.
  do 2 explain_step.
  erewrite bind_ok; cycle 1.
  { erewrite try_catch_throw; cycle 1.
    { erewrite bind_throw by (apply axios_request_run; exact Hreq).
      reflexivity. }
    reflexivity. }
  cbn [world console ret]. rewrite <- !app_assoc. reflexivity.
Qed.

(** *** testSecurityHeaders *)

Lemma testSecurityHeaders_ok u logger (e : Env W) response w2 :
  axios_request (plainRequest u) (world e) = (Ok response, w2) ->
  exists lines,
    Tests.testSecurityHeaders u logger e =
      (Ok (mkCategoryResults "Headers de Seguridad"
             (Tests.securityHeaderTests u response)),
       mkEnv w2 (console e ++ lines)).
Proof.
  intros Hreq. eexists. unfold Tests.testSecurityHeaders.
  do 2 explain_step.
  erewrite bind_ok; cycle 1.
  { apply try_catch_ok.
    erewrite bind_ok by (apply axios_request_run; exact Hreq).
    explain_step. reflexivity. }
  cbn [world console ret]. rewrite <- !app_assoc. reflexivity.
Qed.

Lemma testSecurityHeaders_throw u logger (e : Env W) err w2 :
  axios_request (plainRequest u) (world e) = (Throw err, w2) ->
  exists lines,
    Tests.testSecurityHeaders u logger e =
      (Ok (mkCategoryResults "Headers de Seguridad"
             [failureFinding "Análisis de Headers" "fail" "high"
                "No se pudieron analizar los headers: " err]),
       mkEnv w2 (console e ++ lines)).
Proof.
  intros Hreq. eexists. unfold Tests.testSecurityHeaders.
  do 2 explain_step.
  erewrite bind_ok; cycle 1.
  { erewrite try_catch_throw; cycle 1.
    { erewrite bind_throw by (apply axios_request_run; exact Hreq).
      reflexivity. }
    explain_step. reflexivity. }
  cbn [world console ret]. rewrite <- !app_assoc. reflexivity.
Qed.

(** *** testCookieSecurity *)

Lemma testCookieSecurity_ok u logger (e : Env W) response w2 :
  axios_request (plainRequest u) (world e) = (Ok response, w2) ->
  exists lines,
    Tests.testCookieSecurity u logger e =
      (Ok (mkCategoryResults "Seguridad de Cookies"
             match resp_set_cookie response with
             | None | Some [] =>
                 [ {| name := "Cookies"; status := "info";
                      value := VString "Ninguna";
                      details := "No se establecen cookies en esta página";
                      severity := Some "info"; recommendation := None |} ]
             | Some cookies => map Tests.cookieTest cookies
             end),
       mkEnv w2 (console e ++ lines)).
Proof.
  intros Hreq. unfold Tests.testCookieSecurity.
  destruct (resp_set_cookie response) as [[|cookie cookies]|] eqn:Hcookies;
    eexists;
    do 2 explain_step;
    (erewrite bind_ok; cycle 1;
     [ apply try_catch_ok;
       erewrite bind_ok by (apply axios_request_run; exact Hreq);
       rewrite Hcookies; explain_step; reflexivity
     | cbn [world console ret]; rewrite <- !app_assoc; reflexivity ]).
Qed.

Lemma testCookieSecurity_throw u logger (e : Env W) err w2 :
  axios_request (plainRequest u) (world e) = (Throw err, w2) ->
  exists lines,
    Tests.testCookieSecurity u logger e =
      (Ok (mkCategoryResults "Seguridad de Cookies"
             [failureFinding "Análisis de Cookies" "fail" "medium"
                "No se pudieron analizar las cookies: " err]),
       mkEnv w2 (console e ++ lines)).
Proof.
  intros Hreq. eexists. unfold Tests.testCookieSecurity.
  do 2 explain_step.
  erewrite bind_ok; cycle 1.
  { erewrite try_catch_throw; cycle 1.
    { erewrite bind_throw by (apply axios_request_run; exact Hreq).
      reflexivity. }
    explain_step. reflexivity. }
  cbn [world console ret]. rewrite <- !app_assoc. reflexivity.
Qed.

(** *** testCORS *)

Lemma testCORS_ok u logger (e : Env W) response w2 :
  axios_request (corsRequest u) (world e) = (Ok response, w2) ->
  exists lines,
    Tests.testCORS u logger e =
      (Ok (mkCategoryResults "CORS" (Tests.corsTests response)),
       mkEnv w2 (console e ++ lines)).
Proof.
  intros Hreq. eexists. unfold Tests.testCORS.
  do 2 explain_step.
  erewrite bind_ok; cycle 1.
  { apply try_catch_ok.
    erewrite bind_ok by (apply axios_request_run; exact Hreq).
    explain_step. reflexivity. }
  cbn [world console ret]. rewrite <- !app_assoc. reflexivity.
Qed.

Lemma testCORS_throw u logger (e : Env W) err w2 :
  axios_request (corsRequest u) (world e) = (Throw err, w2) ->
  exists lines,
    Tests.testCORS u logger e =
      (Ok (mkCategoryResults "CORS"
             [failureFinding "Análisis CORS" "warning" "low"
                "No se pudo analizar CORS: " err]),
       mkEnv w2 (console e ++ lines)).
Proof.
  intros Hreq. eexists. unfold Tests.testCORS.
  do 2 explain_step.
  erewrite bind_ok; cycle 1.
  { erewrite try_catch_throw; cycle 1.
    { erewrite bind_throw by (apply axios_request_run; exact Hreq).
      reflexivity. }
    explain_step. reflexivity. }
  cbn [world console ret]. rewrite <- !app_assoc. reflexivity.
Qed.

End ProbeRuns.

Section SslProbeRuns.
Context {W : Type} `{Host W} `{ProbeHost W}.

Ltac explain_step := erewrite bind_ok by apply Logger_explain_lines.

Lemma new_URL_run u (e : Env W) :
  host_read (fun _ => new_URL u) e = (new_URL u, e).
Proof. reflexivity. Qed.

Lemma testSSL_invalid_url u logger (e : Env W) err :
  new_URL u = Throw err ->
  exists lines,
    Tests.testSSL u logger e =
      (Ok (mkCategoryResults "SSL/TLS"
             [failureFinding "Análisis SSL" "fail" "high"
                "No se pudo analizar SSL: " err]),
       mkEnv (world e) (console e ++ lines)).
Proof.
  intros Hurl. eexists. unfold Tests.testSSL.
  do 2 explain_step.
  erewrite bind_ok; cycle 1.
  { erewrite try_catch_throw; cycle 1.
    { erewrite bind_throw by (rewrite new_URL_run, Hurl; reflexivity).
      reflexivity. }
    explain_step. reflexivity. }
  cbn [world console ret]. rewrite <- !app_assoc. reflexivity.
Qed.

Lemma testSSL_not_https u logger (e : Env W) urlObj :
  new_URL u = Ok urlObj ->
  url_protocol urlObj <> "https:" ->
  exists lines,
    Tests.testSSL u logger e =
      (Ok (mkCategoryResults "SSL/TLS" [Tests.httpsTest]),
       mkEnv (world e) (console e ++ lines)).
Proof.
  intros Hurl Hproto. eexists. unfold Tests.testSSL.
  do 2 explain_step.
  erewrite bind_ok; cycle 1.
  { apply try_catch_ok.
    erewrite bind_ok by (rewrite new_URL_run, Hurl; reflexivity).
    apply String.eqb_neq in Hproto. rewrite Hproto. cbn [negb].
    explain_step. reflexivity. }
  cbn [world console ret]. rewrite <- !app_assoc. reflexivity.
Qed.

Lemma testSSL_handshake_throw u logger (e : Env W) urlObj err w1 :
  new_URL u = Ok urlObj ->
  url_protocol urlObj = "https:" ->
  https_request (url_hostname urlObj) (or_else (Some (url_port urlObj)) "443")
    (world e) = (Throw err, w1) ->
  exists lines,
    Tests.testSSL u logger e =
      (Ok (mkCategoryResults "SSL/TLS"
             [failureFinding "Análisis SSL" "fail" "high"
                "No se pudo analizar SSL: " err]),
       mkEnv w1 (console e ++ lines)).
Proof.
  intros Hurl Hproto Hreq. eexists. unfold Tests.testSSL.
  do 2 explain_step.
  erewrite bind_ok; cycle 1.
  { erewrite try_catch_throw; cycle 1.
    { erewrite bind_ok by (rewrite new_URL_run, Hurl; reflexivity).
      rewrite Hproto, String.eqb_refl. cbn [negb].
      erewrite bind_throw; [reflexivity|].
      rewrite host_call_run. cbn [world console]. by rewrite Hreq. }
    explain_step. reflexivity. }
  cbn [world console ret]. rewrite <- !app_assoc. reflexivity.
Qed.

Lemma testSSL_ok u logger (e : Env W) urlObj certificate w1 :
  new_URL u = Ok urlObj ->
  url_protocol urlObj = "https:" ->
  https_request (url_hostname urlObj) (or_else (Some (url_port urlObj)) "443")
    (world e) = (Ok certificate, w1) ->
  exists lines,
    Tests.testSSL u logger e =
      (Ok (mkCategoryResults "SSL/TLS"
             ([Tests.validityTest certificate] ++ Tests.issuerTests certificate ++
              (if truthy (c_valid_to (s_cert certificate))
               then [Tests.expirationTest
                       (Date_parse (default "" (c_valid_to (s_cert certificate))))
                       (fst (Date_now w1))]
               else []) ++
              Tests.protocolTests certificate ++ Tests.cipherTests certificate ++
              Tests.sanTests certificate)),
       mkEnv (if truthy (c_valid_to (s_cert certificate))
              then snd (Date_now w1) else w1)
             (console e ++ lines)).
Proof.
  intros Hurl Hproto Hreq. unfold Tests.testSSL.
  destruct (truthy (c_valid_to (s_cert certificate))) eqn:Hvalid; eexists;
    do 2 explain_step;
    (erewrite bind_ok; cycle 1;
     [ apply try_catch_ok;
       erewrite bind_ok by (rewrite new_URL_run, Hurl; reflexivity);
       rewrite Hproto, String.eqb_refl; cbn [negb];
       erewrite bind_ok
         by (rewrite host_call_run; cbn [world console]; by rewrite Hreq);
       cbn [fst snd]; rewrite Hvalid;
       (erewrite bind_ok;
        [| first [ erewrite bind_ok by apply new_Date_run; reflexivity
                 | reflexivity ] ]);
       explain_step; reflexivity
     | cbn [world console ret]; rewrite <- !app_assoc; reflexivity ]).
Qed.

End SslProbeRuns.

Section ProbeTheorems.
Context {W : Type} `{Host W} `{ProbeHost W}.

Lemma testHttpResponse_probe_ok u logger (e : Env W) :
  probe_ok "Respuesta HTTP" (Tests.testHttpResponse u logger e).
Proof.
  destruct (axios_request (httpRequest u) (snd (Date_now (world e))))
    as [[response|err] w2] eqn:Hreq.
  - destruct (testHttpResponse_ok u logger e response w2 Hreq) as (lines & Hrun).
    eexists _, _. split; [exact Hrun|]. split; [done|]. split.
    + unfold Tests.httpResponseTests. simpl. discriminate.
    + apply httpResponseTests_well_formed.
  - destruct (testHttpResponse_throw u logger e err w2 Hreq) as (lines & Hrun).
    eexists _, _. split; [exact Hrun|]. by repeat split.
Qed.

Lemma testRedirects_probe_ok u logger (e : Env W) :
  probe_ok "Redirecciones" (Tests.testRedirects u logger e).
Proof.
  destruct (axios_request (redirectRequest u) (world e))
    as [[response|err] w2] eqn:Hreq.
  - destruct (testRedirects_ok u logger e response w2 Hreq) as (lines & Hrun).
    eexists _, _. split; [exact Hrun|]. split; [done|]. split.
    + unfold Tests.redirectTests. simpl.
      by destruct (0 <? length (resp_redirects response))%nat.
    + apply redirectTests_well_formed.
  - destruct (testRedirects_throw u logger e err w2 Hreq) as (lines & Hrun).
    eexists _, _. split; [exact Hrun|]. by repeat split.
Qed.

Lemma testSecurityHeaders_probe_ok u logger (e : Env W) :
  probe_ok "Headers de Seguridad" (Tests.testSecurityHeaders u logger e).
Proof.
  destruct (axios_request (plainRequest u) (world e))
    as [[response|err] w2] eqn:Hreq.
  - destruct (testSecurityHeaders_ok u logger e response w2 Hreq)
      as (lines & Hrun).
    eexists _, _. split; [exact Hrun|]. split; [done|]. split.
    + unfold Tests.securityHeaderTests. cbn [tests app]. discriminate.
    + apply securityHeaderTests_well_formed.
  - destruct (testSecurityHeaders_throw u logger e err w2 Hreq)
      as (lines & Hrun).
    eexists _, _. split; [exact Hrun|]. by repeat split.
Qed.

Lemma testCookieSecurity_probe_ok u logger (e : Env W) :
  probe_ok "Seguridad de Cookies" (Tests.testCookieSecurity u logger e).
Proof.
  destruct (axios_request (plainRequest u) (world e))
    as [[response|err] w2] eqn:Hreq.
  - destruct (testCookieSecurity_ok u logger e response w2 Hreq)
      as (lines & Hrun).
    eexists _, _. split; [exact Hrun|]. split; [done|]. simpl.
    destruct (resp_set_cookie response) as [[|cookie cookies]|];
      [by split|split; [done|]|by split].
    apply forallb_forall. intros t Hin. apply in_map_iff in Hin as (c & <- & _).
    apply cookieTest_well_formed.
  - destruct (testCookieSecurity_throw u logger e err w2 Hreq)
      as (lines & Hrun).
    eexists _, _. split; [exact Hrun|]. by repeat split.
Qed.

Lemma testCORS_probe_ok u logger (e : Env W) :
  probe_ok "CORS" (Tests.testCORS u logger e).
Proof.
  destruct (axios_request (corsRequest u) (world e))
    as [[response|err] w2] eqn:Hreq.
  - destruct (testCORS_ok u logger e response w2 Hreq) as (lines & Hrun).
    eexists _, _. split; [exact Hrun|]. split; [done|]. split.
    + unfold Tests.corsTests. simpl.
      destruct (truthy _); [|done]. simpl.
      destruct (str_is _ "*"); [done|]. by destruct (str_is _ _).
    + apply corsTests_well_formed.
  - destruct (testCORS_throw u logger e err w2 Hreq) as (lines & Hrun).
    eexists _, _. split; [exact Hrun|]. by repeat split.
Qed.

Lemma testSSL_probe_ok u logger (e : Env W) :
  probe_ok "SSL/TLS" (Tests.testSSL u logger e).
Proof.
  destruct (new_URL u) as [urlObj|err] eqn:Hurl.
  - destruct (String.eqb_spec (url_protocol urlObj) "https:") as [Hproto|Hproto].
    + destruct (https_request (url_hostname urlObj)
                  (or_else (Some (url_port urlObj)) "443") (world e))
        as [[certificate|err] w1] eqn:Hreq.
      * destruct (testSSL_ok u logger e urlObj certificate w1 Hurl Hproto Hreq)
          as (lines & Hrun).
        eexists _, _. split; [exact Hrun|]. split; [done|]. split; [done|].
        destruct (certificateTests_well_formed certificate) as [Hfirst Hlast].
        cbn [tests]. rewrite app_assoc, forallb_app, Hfirst, forallb_app, Hlast.
        destruct (truthy (c_valid_to (s_cert certificate))); [|reflexivity].
        cbn [forallb]. by rewrite expirationTest_well_formed.
      * destruct (testSSL_handshake_throw u logger e urlObj err w1
                    Hurl Hproto Hreq) as (lines & Hrun).
        eexists _, _. split; [exact Hrun|]. by repeat split.
    + destruct (testSSL_not_https u logger e urlObj Hurl Hproto)
        as (lines & Hrun).
      eexists _, _. split; [exact Hrun|]. by repeat split.
  - destruct (testSSL_invalid_url u logger e err Hurl) as (lines & Hrun).
    eexists _, _. split; [exact Hrun|]. by repeat split.
Qed.

(** X18. None of the six probes throws, whatever the host does: each
    returns under its fixed name a non-empty list of findings, and every
    finding has one of the four statuses and one of the five severities,
    is informational and without recommendation when it passed, and is a
    failure or a warning when its severity is medium or worse. *)
Theorem probes_return_well_formed_findings u logger (e : Env W) :
  probe_ok "Respuesta HTTP" (Tests.testHttpResponse u logger e)
  /\ probe_ok "Redirecciones" (Tests.testRedirects u logger e)
  /\ probe_ok "SSL/TLS" (Tests.testSSL u logger e)
  /\ probe_ok "Headers de Seguridad" (Tests.testSecurityHeaders u logger e)
  /\ probe_ok "Seguridad de Cookies" (Tests.testCookieSecurity u logger e)
  /\ probe_ok "CORS" (Tests.testCORS u logger e).
Proof.
  split; [apply testHttpResponse_probe_ok|].
  split; [apply testRedirects_probe_ok|].
  split; [apply testSSL_probe_ok|].
  split; [apply testSecurityHeaders_probe_ok|].
  split; [apply testCookieSecurity_probe_ok|apply testCORS_probe_ok].
Qed.

End ProbeTheorems.

Section ProbeFailures.
Context {W : Type} `{Host W} `{ProbeHost W}.

(** X19. When the request fails, each probe of httpTests.js reports
    exactly one finding carrying the error message: [testHttpResponse] a
    critical failure, [testRedirects] only a low-severity warning. No
    response time is measured: the clock is not read a second time. *)
Theorem httpTests_report_connection_failure u logger (e : Env W) err w2 w2' :
  axios_request (httpRequest u) (snd (Date_now (world e))) = (Throw err, w2) ->
  axios_request (redirectRequest u) (world e) = (Throw err, w2') ->
  (exists e',
     Tests.testHttpResponse u logger e =
       (Ok (mkCategoryResults "Respuesta HTTP"
              [failureFinding "Conexión" "fail" "critical"
                 "No se pudo conectar: " err]), e')
     /\ world e' = w2)
  /\ (exists e',
        Tests.testRedirects u logger e =
          (Ok (mkCategoryResults "Redirecciones"
                 [failureFinding "Análisis de Redirecciones" "warning" "low"
                    "No se pudo analizar: " err]), e')
        /\ world e' = w2').
Proof.
  intros Hhttp Hredirect.
  destruct (testHttpResponse_throw u logger e err w2 Hhttp) as (l1 & Hrun1).
  destruct (testRedirects_throw u logger e err w2' Hredirect) as (l2 & Hrun2).
  split; eexists; (split; [eassumption|reflexivity]).
Qed.

(** X20. When the request fails, each probe of securityTests.js reports
    exactly one finding carrying the error message: a failure of high
    severity for the headers, a failure of medium severity for the
    cookies, and only a low-severity warning for CORS. *)
Theorem securityTests_report_connection_failure u logger (e : Env W) err w2 w2' :
  axios_request (plainRequest u) (world e) = (Throw err, w2) ->
  axios_request (corsRequest u) (world e) = (Throw err, w2') ->
  (exists e',
     Tests.testSecurityHeaders u logger e =
       (Ok (mkCategoryResults "Headers de Seguridad"
              [failureFinding "Análisis de Headers" "fail" "high"
                 "No se pudieron analizar los headers: " err]), e'))
  /\ (exists e',
        Tests.testCookieSecurity u logger e =
          (Ok (mkCategoryResults "Seguridad de Cookies"
                 [failureFinding "Análisis de Cookies" "fail" "medium"
                    "No se pudieron analizar las cookies: " err]), e'))
  /\ (exists e',
        Tests.testCORS u logger e =
          (Ok (mkCategoryResults "CORS"
                 [failureFinding "Análisis CORS" "warning" "low"
                    "No se pudo analizar CORS: " err]), e')).
Proof.
  intros Hplain Hcors.
  destruct (testSecurityHeaders_throw u logger e err w2 Hplain) as (l1 & Hrun1).
  destruct (testCookieSecurity_throw u logger e err w2 Hplain) as (l2 & Hrun2).
  destruct (testCORS_throw u logger e err w2' Hcors) as (l3 & Hrun3).
  repeat split; eexists; eassumption.
Qed.

(** X21. A URL that does not parse, and a handshake that fails or times
    out, do not make [testSSL] throw: it reports the single finding
    "Análisis SSL", a failure of high severity with the error message. *)
Theorem testSSL_reports_failure u logger (e : Env W) err :
  new_URL u = Throw err
  \/ (exists urlObj,
        new_URL u = Ok urlObj
        /\ url_protocol urlObj = "https:"
        /\ fst (https_request (url_hostname urlObj)
                  (or_else (Some (url_port urlObj)) "443") (world e))
           = Throw err) ->
  exists e',
    Tests.testSSL u logger e =
      (Ok (mkCategoryResults "SSL/TLS"
             [failureFinding "Análisis SSL" "fail" "high"
                "No se pudo analizar SSL: " err]), e').
Proof.
  intros [Hurl|(urlObj & Hurl & Hproto & Hreq)].
  - destruct (testSSL_invalid_url u logger e err Hurl) as (lines & Hrun).
    by eexists.
  - destruct (https_request (url_hostname urlObj)
                (or_else (Some (url_port urlObj)) "443") (world e))
      as [r w1] eqn:Hcall.
    simpl in Hreq. subst r.
    destruct (testSSL_handshake_throw u logger e urlObj err w1 Hurl Hproto Hcall)
      as (lines & Hrun).
    by eexists.
Qed.

(** X22. For a URL whose protocol is not [https:], [testSSL] contacts
    nothing and does not read the clock: it reports the single finding
    "HTTPS", a critical failure with a recommendation. *)
Theorem testSSL_without_https_is_critical u logger (e : Env W) urlObj :
  new_URL u = Ok urlObj ->
  url_protocol urlObj <> "https:" ->
  exists r e',
    Tests.testSSL u logger e = (Ok r, e')
    /\ world e' = world e
    /\ outline (tests r) = [("HTTPS", "fail", Some "critical")]
    /\ Forall (fun t => truthy (recommendation t) = true) (tests r).
Proof.
  intros Hurl Hproto.
  destruct (testSSL_not_https u logger e urlObj Hurl Hproto) as (lines & Hrun).
  eexists _, _. split; [exact Hrun|]. by repeat constructor.
Qed.

(** X23. The expiry finding of [testSSL] goes by the time left when the
    clock is read after the handshake, in whole days rounded up: a
    critical failure once the certificate expired a full day ago, a
    warning of high severity with a recommendation up to 29 days left
    (this includes a certificate that expired less than a day ago), a
    warning of medium severity without recommendation up to 89 days, and
    a pass beyond. *)
Theorem testSSL_classifies_expiry u logger (e : Env W) urlObj certificate w1 text :
  new_URL u = Ok urlObj ->
  url_protocol urlObj = "https:" ->
  https_request (url_hostname urlObj) (or_else (Some (url_port urlObj)) "443")
    (world e) = (Ok certificate, w1) ->
  c_valid_to (s_cert certificate) = Some text ->
  text <> "" ->
  let left := Date_parse text - fst (Date_now w1) in
  exists r e' t,
    Tests.testSSL u logger e = (Ok r, e')
    /\ world e' = snd (Date_now w1)
    /\ t ∈ tests r
    /\ name t = "Expiración del Certificado"
    /\ (status t, severity t, truthy (recommendation t)) =
         if bool_decide (left <= - DAY) then ("fail", Some "critical", true)
         else if bool_decide (left <= 29 * DAY) then ("warning", Some "high", true)
         else if bool_decide (left <= 89 * DAY)
              then ("warning", Some "medium", false)
              else ("pass", Some "info", false).
Proof.
  intros Hurl Hproto Hreq Hvalid Htext left.
  destruct (testSSL_ok u logger e urlObj certificate w1 Hurl Hproto Hreq)
    as (lines & Hrun).
  assert (Htruthy : truthy (c_valid_to (s_cert certificate)) = true).
  { rewrite Hvalid. by destruct text. }
  rewrite Htruthy, Hvalid in Hrun. cbn [default] in Hrun.
  eexists _, _, (Tests.expirationTest (Date_parse text) (fst (Date_now w1))).
  split; [exact Hrun|]. split; [done|]. split.
  { cbn [tests]. apply elem_of_app. right. apply elem_of_app. right.
    apply elem_of_app. left. by left. }
  split; [by unfold Tests.expirationTest; repeat case_match|].
  assert (HDAY : 0 < DAY) by done.
  pose proof (ceil_div_lt left DAY 0 HDAY) as Hlt0.
  pose proof (ceil_div_lt left DAY 30 HDAY) as Hlt30.
  pose proof (ceil_div_lt left DAY 90 HDAY) as Hlt90.
  unfold Tests.expirationTest. fold left.
  destruct (Z.ltb_spec (ceil_div left DAY) 0) as [L0|L0].
  { rewrite bool_decide_eq_true_2 by lia.
    destruct (Z.ltb_spec (ceil_div left DAY) 30) as [L30|L30]; [done|lia]. }
  rewrite bool_decide_eq_false_2 by lia.
  destruct (Z.ltb_spec (ceil_div left DAY) 30) as [L30|L30].
  { by rewrite bool_decide_eq_true_2 by lia. }
  rewrite bool_decide_eq_false_2 by lia.
  destruct (Z.ltb_spec (ceil_div left DAY) 90) as [L90|L90].
  { by rewrite bool_decide_eq_true_2 by lia. }
  by rewrite bool_decide_eq_false_2 by lia.
Qed.

End ProbeFailures.

Section ProbeClassification.
Context {W : Type} `{Host W} `{ProbeHost W}.

(** X24. When the request is answered, [testHttpResponse] reports the
    status code (a pass from 200 to 399, otherwise a failure of high
    severity), the response time (the difference between the clock
    readings after and before the request; a pass below 3000 ms,
    otherwise a warning of medium severity) and the content type, and
    then one low-severity warning with a recommendation for each of the
    [server] and [x-powered-by] headers that is present and non-empty. *)
Theorem testHttpResponse_classifies_response u logger (e : Env W) response w2 :
  axios_request (httpRequest u) (snd (Date_now (world e))) = (Ok response, w2) ->
  let elapsed := fst (Date_now w2) - fst (Date_now (world e)) in
  let statusOk := bool_decide (200 <= resp_status response < 400) in
  let timeOk := bool_decide (elapsed < 3000) in
  let exposed name := truthy (header response name) in
  exists r e',
    Tests.testHttpResponse u logger e = (Ok r, e')
    /\ world e' = snd (Date_now w2)
    /\ outline (tests r) =
         [ ("Código de Estado", if statusOk then "pass" else "fail",
            Some (if statusOk then "info" else "high"));
           ("Tiempo de Respuesta", if timeOk then "pass" else "warning",
            Some (if timeOk then "info" else "medium"));
           ("Content-Type",
            if String_includes "text/html"
                 (or_else (header response "content-type") "No especificado")
            then "pass" else "info",
            Some "info") ]
         ++ (if exposed "server"
             then [("Header Server Expuesto", "warning", Some "low")] else [])
         ++ (if exposed "x-powered-by"
             then [("X-Powered-By Expuesto", "warning", Some "low")] else [])
    /\ length (List.filter (fun t => truthy (recommendation t)) (tests r)) =
         ((if exposed "server" then 1 else 0) +
          (if exposed "x-powered-by" then 1 else 0))%nat.
Proof.
  intros Hreq elapsed statusOk timeOk exposed.
  destruct (testHttpResponse_ok u logger e response w2 Hreq) as (lines & Hrun).
  eexists _, _. split; [exact Hrun|]. split; [done|].
  fold elapsed. cbn [tests]. unfold Tests.httpResponseTests.
  assert (HstatusOk :
    (200 <=? resp_status response) && (resp_status response <? 400) = statusOk).
  { unfold statusOk.
    destruct (Z.leb_spec 200 (resp_status response));
      destruct (Z.ltb_spec (resp_status response) 400); simpl;
      [rewrite bool_decide_eq_true_2 by lia
      |rewrite bool_decide_eq_false_2 by lia
      |rewrite bool_decide_eq_false_2 by lia
      |rewrite bool_decide_eq_false_2 by lia]; done. }
  assert (HtimeOk : (elapsed <? 3000) = timeOk).
  { unfold timeOk. destruct (Z.ltb_spec elapsed 3000);
      [rewrite bool_decide_eq_true_2 by lia
      |rewrite bool_decide_eq_false_2 by lia]; done. }
  rewrite HstatusOk, HtimeOk. unfold exposed.
  split.
  - by destruct (truthy (header response "server"));
      destruct (truthy (header response "x-powered-by")).
  - by destruct (truthy (header response "server"));
      destruct (truthy (header response "x-powered-by")).
Qed.

(** X25. [testRedirects] never flags anything: when the request is
    answered it reports one or two findings, all of severity [info] and
    without recommendation. A pass is reported exactly when the URL starts
    with [http://] and some redirect led to an [https://] address; an
    http site that does not redirect to https gets no warning. *)
Theorem testRedirects_never_flags u logger (e : Env W) response w2 :
  axios_request (redirectRequest u) (world e) = (Ok response, w2) ->
  exists r e',
    Tests.testRedirects u logger e = (Ok r, e')
    /\ world e' = w2
    /\ (1 <= length (tests r) <= 2)%nat
    /\ Forall (fun t => severity t = Some "info" /\ recommendation t = None
                        /\ (status t = "info" \/ status t = "pass"))
         (tests r)
    /\ ((exists t, t ∈ tests r /\ status t = "pass")
        <-> startsWith "http://" u = true
            /\ exists h, h ∈ resp_redirects response
                         /\ startsWith "https://" h = true).
Proof.
  intros Hreq.
  destruct (testRedirects_ok u logger e response w2 Hreq) as (lines & Hrun).
  eexists _, _. split; [exact Hrun|]. split; [done|].
  cbn [tests]. unfold Tests.redirectTests.
  assert (Hsome : existsb (startsWith "https://") (resp_redirects response) = true
                  <-> exists h, h ∈ resp_redirects response
                                /\ startsWith "https://" h = true).
  { rewrite existsb_exists. split; intros (h & Hin & Hh); exists h;
      (split; [by apply list_elem_of_In|done]). }
  destruct (resp_redirects response) as [|h0 hs] eqn:Hredirects.
  - cbn. split; [lia|]. split; [by repeat constructor|].
    split.
    + intros (t & Hin & Hpass). apply list_elem_of_singleton in Hin. by subst t.
    + intros (_ & h & Hin & _). by apply elem_of_nil in Hin.
  - change (0 <? length (h0 :: hs))%nat with true. cbv iota.
    destruct (startsWith "http://" u) eqn:Hhttp;
      destruct (existsb (startsWith "https://") (h0 :: hs)) eqn:Hex;
      cbn [andb app length]; (split; [lia|]);
      (split; [repeat constructor; by auto|]); split.
    + intros _. split; [done|]. by apply Hsome.
    + intros _. eexists. split; [apply elem_of_cons; right; by left|done].
    + intros (t & Hin & Hpass). apply list_elem_of_singleton in Hin. by subst t.
    + intros (_ & Hh). apply Hsome in Hh. congruence.
    + intros (t & Hin & Hpass). apply list_elem_of_singleton in Hin. by subst t.
    + intros (Hfalse & _). done.
    + intros (t & Hin & Hpass). apply list_elem_of_singleton in Hin. by subst t.
    + intros (Hfalse & _). done.
Qed.

(** X26. When the request is answered, [testSecurityHeaders] reports
    seven findings, plus for an [https://] URL the HSTS finding and, when
    the HSTS value lacks [preload] or [includeSubDomains], one more. The
    number of findings with a recommendation is the number of missing
    protections: no CSP, no X-Frame-Options, an X-Content-Type-Options
    other than exactly [nosniff], no HSTS on an https URL, no
    Referrer-Policy, and neither Permissions-Policy nor Feature-Policy. *)
Theorem testSecurityHeaders_counts_missing_protections u logger (e : Env W)
    response w2 :
  axios_request (plainRequest u) (world e) = (Ok response, w2) ->
  let present name := truthy (header response name) in
  let https := startsWith "https://" u in
  let missing :=
    [ negb (present "content-security-policy");
      negb (present "x-frame-options");
      negb (str_is (header response "x-content-type-options") "nosniff");
      https && negb (present "strict-transport-security");
      negb (present "referrer-policy");
      negb (present "permissions-policy") && negb (present "feature-policy") ] in
  exists r e',
    Tests.testSecurityHeaders u logger e = (Ok r, e')
    /\ world e' = w2
    /\ length (List.filter (fun t => truthy (recommendation t)) (tests r)) =
         length (List.filter (fun b : bool => b) missing)
    /\ (7 <= length (tests r) <= 9)%nat
    /\ (https = false -> length (tests r) = 7%nat).
Proof.
  intros Hreq present https missing.
  destruct (testSecurityHeaders_ok u logger e response w2 Hreq)
    as (lines & Hrun).
  eexists _, _. split; [exact Hrun|]. split; [done|].
  cbn [tests]. unfold Tests.securityHeaderTests.
  rewrite !List.filter_app, !length_app.
  assert (Hhsts :
    length (List.filter (fun t => truthy (recommendation t))
              (Tests.hstsTests u response))
      = (if https && negb (present "strict-transport-security") then 1 else 0)%nat
    /\ (length (Tests.hstsTests u response) <= 2)%nat
    /\ (https = false -> length (Tests.hstsTests u response) = 0%nat)).
  { unfold Tests.hstsTests, https, present.
    destruct (startsWith "https://" u);
      [|repeat split; cbn; (lia || done)].
    destruct (truthy (header response "strict-transport-security"));
      [|repeat split; cbn; (lia || done)].
    destruct (negb _ || negb _); repeat split; cbn; (lia || done). }
  destruct Hhsts as (Hrec & Hlen & Hnone). rewrite Hrec.
  assert (Hcsp : truthy (recommendation (Tests.cspTest response))
                 = negb (present "content-security-policy")).
  { unfold Tests.cspTest, present. cbn [recommendation].
    by destruct (truthy (header response "content-security-policy")). }
  assert (Hxfo : truthy (recommendation (Tests.xfoTest response))
                 = negb (present "x-frame-options")).
  { unfold Tests.xfoTest, present. cbn [recommendation].
    by destruct (truthy (header response "x-frame-options")). }
  assert (Hxcto : truthy (recommendation (Tests.xctoTest response))
    = negb (str_is (header response "x-content-type-options") "nosniff")).
  { unfold Tests.xctoTest. cbn [recommendation].
    by destruct (str_is (header response "x-content-type-options") "nosniff"). }
  assert (Hxxss : truthy (recommendation (Tests.xxssTest response)) = false)
    by reflexivity.
  assert (Hreferrer : truthy (recommendation (Tests.referrerTest response))
                      = negb (present "referrer-policy")).
  { unfold Tests.referrerTest, present. cbn [recommendation].
    by destruct (truthy (header response "referrer-policy")). }
  assert (Hpermissions :
    truthy (recommendation (Tests.permissionsTest response))
    = negb (present "permissions-policy") && negb (present "feature-policy")).
  { unfold Tests.permissionsTest, present, or_opt. cbn [recommendation].
    destruct (truthy (header response "permissions-policy")) eqn:E;
      cbn [negb andb].
    - by rewrite E.
    - by destruct (truthy (header response "feature-policy")). }
  assert (Hcache : truthy (recommendation (Tests.cacheControlTest response))
                   = false) by reflexivity.
  split; [|split; [cbn [length]; lia
                  |intros Hplain; rewrite (Hnone Hplain); reflexivity]].
  cbn [List.filter].
  rewrite Hcsp, Hxfo, Hxcto, Hxxss, Hreferrer, Hpermissions, Hcache.
  destruct (negb (present "content-security-policy"));
    destruct (negb (present "x-frame-options"));
    destruct (negb (str_is (header response "x-content-type-options") "nosniff"));
    destruct (https && negb (present "strict-transport-security"));
    destruct (negb (present "referrer-policy"));
    destruct (negb (present "permissions-policy") && negb (present "feature-policy"));
    reflexivity.
Qed.

(** X27. When the request is answered, [testCookieSecurity] reports one
    finding per cookie of the [set-cookie] header, in order, named after
    the text before the first [=]. A cookie passes exactly when its text,
    in lower case, contains [httponly], [secure] and [samesite]; any
    other cookie is a warning of medium severity with a recommendation.
    Without cookies there is the single informational finding
    "Cookies". *)
Theorem testCookieSecurity_one_finding_per_cookie u logger (e : Env W)
    response w2 :
  axios_request (plainRequest u) (world e) = (Ok response, w2) ->
  exists r e',
    Tests.testCookieSecurity u logger e = (Ok r, e')
    /\ world e' = w2
    /\ match resp_set_cookie response with
       | None | Some [] => outline (tests r) = [("Cookies", "info", Some "info")]
       | Some cookies =>
           Forall2 (fun cookie t =>
             name t = "Cookie: " +:+ hd "" (split "=" cookie)
             /\ (status t = "pass" <->
                 Tests.hasHttpOnly cookie = true
                 /\ Tests.hasSecure cookie = true
                 /\ Tests.hasSameSite cookie = true)
             /\ (status t = "pass"
                 \/ (status t = "warning" /\ severity t = Some "medium"
                     /\ truthy (recommendation t) = true)))
             cookies (tests r)
       end.
Proof.
  intros Hreq.
  destruct (testCookieSecurity_ok u logger e response w2 Hreq)
    as (lines & Hrun).
  eexists _, _. split; [exact Hrun|]. split; [done|]. cbn [tests].
  assert (Hcookie : forall cookie,
    name (Tests.cookieTest cookie) = "Cookie: " +:+ hd "" (split "=" cookie)
    /\ (status (Tests.cookieTest cookie) = "pass" <->
        Tests.hasHttpOnly cookie = true /\ Tests.hasSecure cookie = true
        /\ Tests.hasSameSite cookie = true)
    /\ (status (Tests.cookieTest cookie) = "pass"
        \/ (status (Tests.cookieTest cookie) = "warning"
            /\ severity (Tests.cookieTest cookie) = Some "medium"
            /\ truthy (recommendation (Tests.cookieTest cookie)) = true))).
  { intros cookie. unfold Tests.cookieTest. cbn [name status severity recommendation].
    split; [done|].
    destruct (Tests.hasHttpOnly cookie); destruct (Tests.hasSecure cookie);
      destruct (Tests.hasSameSite cookie); cbn [andb negb];
      (split; [split; [intros Hp; try discriminate Hp; done
                      |intros (? & ? & ?); try discriminate; done]|]);
      first [by left | right; repeat split; reflexivity]. }
  destruct (resp_set_cookie response) as [[|cookie cookies]|]; [done| |done].
  apply Forall2_fmap_r. apply Forall_Forall2_diag.
  apply Forall_forall. intros c _. apply Hcookie.
Qed.

(** X28. When the request is answered, [testCORS] reports one finding,
    or two for a wildcard origin with credentials. A failure is reported
    exactly when the origin sent by the probe is reflected, or when the
    wildcard comes with [access-control-allow-credentials: true]; a
    wildcard alone is a warning, and a response without the header is
    informational. *)
Theorem testCORS_fails_on_reflection_or_wildcard_credentials u logger
    (e : Env W) response w2 :
  axios_request (corsRequest u) (world e) = (Ok response, w2) ->
  let acao := header response "access-control-allow-origin" in
  let acac := header response "access-control-allow-credentials" in
  exists r e',
    Tests.testCORS u logger e = (Ok r, e')
    /\ world e' = w2
    /\ (1 <= length (tests r) <= 2)%nat
    /\ ((exists t, t ∈ tests r /\ status t = "fail")
        <-> (acao = Some "*" /\ acac = Some "true")
            \/ acao = Some "https://evil-site.com")
    /\ ((exists t, t ∈ tests r /\ status t = "warning") <-> acao = Some "*")
    /\ (truthy acao = false ->
        outline (tests r) = [("CORS Habilitado", "info", Some "info")]).
Proof.
  intros Hreq acao acac.
  destruct (testCORS_ok u logger e response w2 Hreq) as (lines & Hrun).
  eexists _, _. split; [exact Hrun|]. split; [done|].
  cbn [tests]. unfold Tests.corsTests. fold acao acac.
  assert (Hstr : forall v s, str_is v s = true <-> v = Some s).
  { intros [x|] s; simpl; [|by split].
    rewrite String.eqb_eq. split; [by intros ->|by intros [= ->]]. }
  assert (Hone : forall (t : Finding) (P : Finding -> Prop),
            (exists t', t' ∈ [t] /\ P t') <-> P t).
  { intros t P. split.
    - intros (t' & Hin & HP). apply list_elem_of_singleton in Hin. by subst.
    - intros HP. exists t. split; [by left|done]. }
  destruct (truthy acao) eqn:Htruthy; cbn [negb].
  - destruct (str_is acao "*") eqn:Hstar.
    + apply Hstr in Hstar. rewrite Hstar.
      destruct (str_is acac "true") eqn:Hcred.
      * apply Hstr in Hcred. rewrite Hcred. cbn [app length].
        split; [lia|]. split; [|split; [|done]].
        -- split; [intros _; by left|]. intros _.
           eexists. split; [right; by left|done].
        -- split; [done|]. intros _. eexists. split; [by left|done].
      * cbn [app length]. split; [lia|]. split; [|split; [|done]].
        -- rewrite Hone. cbn [status]. split; [done|].
           intros [[_ Hc]|Hc]; [|done].
           apply Hstr in Hc. congruence.
        -- rewrite Hone. by cbn [status].
    + destruct (str_is acao "https://evil-site.com") eqn:Hevil.
      * apply Hstr in Hevil. rewrite Hevil. cbn [length].
        split; [lia|]. split; [|split; [|done]].
        -- rewrite Hone. cbn [status]. split; [intros _; by right|done].
        -- rewrite Hone. cbn [status]. by split.
      * cbn [length]. split; [lia|]. split; [|split; [|done]].
        -- rewrite Hone. cbn [status]. split; [done|].
           intros [[Ha _]|Ha]; apply Hstr in Ha; congruence.
        -- rewrite Hone. cbn [status]. split; [done|].
           intros Ha. apply Hstr in Ha. congruence.
  - cbn [length]. split; [lia|]. split; [|split; [|done]].
    + rewrite Hone. cbn [status]. split; [done|].
      intros [[Ha _]|Ha]; rewrite Ha in Htruthy; done.
    + rewrite Hone. cbn [status]. split; [done|].
      intros Ha. rewrite Ha in Htruthy. done.
Qed.

End ProbeClassification.

(* --------------------------------------------------------------------- *)
(** ** The probe theorems on sample sites *)
(* --------------------------------------------------------------------- *)

(** X19 on a site that refuses the connection. *)
Lemma httpTests_report_connection_failure_witness :
  exists e1 e2,
    Tests.testHttpResponse "https://example.com/" (mkLogger false)
      (mkEnv SampleSite.down []) =
      (Ok (mkCategoryResults "Respuesta HTTP"
             [failureFinding "Conexión" "fail" "critical"
                "No se pudo conectar: " (mkError "connect ECONNREFUSED")]), e1)
    /\ Tests.testRedirects "https://example.com/" (mkLogger false)
         (mkEnv SampleSite.down []) =
         (Ok (mkCategoryResults "Redirecciones"
                [failureFinding "Análisis de Redirecciones" "warning" "low"
                   "No se pudo analizar: " (mkError "connect ECONNREFUSED")]), e2).
Proof.
  destruct (httpTests_report_connection_failure "https://example.com/"
              (mkLogger false) (mkEnv SampleSite.down [])
              (mkError "connect ECONNREFUSED")
              (snd (Date_now SampleSite.down)) SampleSite.down)
    as ((e1 & Hrun1 & _) & (e2 & Hrun2 & _)); [reflexivity|reflexivity|].
  by exists e1, e2.
Defined.

(** X20 on a site that refuses the connection. *)
Lemma securityTests_report_connection_failure_witness :
  exists e',
    Tests.testCookieSecurity "https://example.com/" (mkLogger false)
      (mkEnv SampleSite.down []) =
      (Ok (mkCategoryResults "Seguridad de Cookies"
             [failureFinding "Análisis de Cookies" "fail" "medium"
                "No se pudieron analizar las cookies: "
                (mkError "connect ECONNREFUSED")]), e').
Proof.
  destruct (securityTests_report_connection_failure "https://example.com/"
              (mkLogger false) (mkEnv SampleSite.down [])
              (mkError "connect ECONNREFUSED") SampleSite.down SampleSite.down)
    as (_ & Hcookies & _); [reflexivity|reflexivity|].
  exact Hcookies.
Defined.

(** X21 on a URL that does not parse. *)
Lemma testSSL_reports_failure_witness :
  exists e',
    Tests.testSSL "example.com" (mkLogger false) (mkEnv SampleSite.down []) =
      (Ok (mkCategoryResults "SSL/TLS"
             [failureFinding "Análisis SSL" "fail" "high"
                "No se pudo analizar SSL: " (mkError "Invalid URL")]), e').
Proof.
  apply (testSSL_reports_failure "example.com" (mkLogger false)
           (mkEnv SampleSite.down []) (mkError "Invalid URL")).
  left. reflexivity.
Defined.

(** X22 on an http URL. *)
Lemma testSSL_without_https_is_critical_witness :
  exists r e',
    Tests.testSSL "http://example.com/" (mkLogger false)
      (mkEnv SampleSite.down []) = (Ok r, e')
    /\ world e' = SampleSite.down
    /\ outline (tests r) = [("HTTPS", "fail", Some "critical")].
Proof.
  destruct (testSSL_without_https_is_critical "http://example.com/"
              (mkLogger false) (mkEnv SampleSite.down [])
              (mkUrlObj "http:" "example.com" ""))
    as (r & e' & Hrun & Hworld & Houtline & _); [reflexivity|discriminate|].
  by exists r, e'.
Defined.

(** X23 on a certificate that expires on day 40, seen on day 0. *)
Lemma testSSL_classifies_expiry_witness :
  exists r e' t,
    Tests.testSSL "https://example.com/" (mkLogger false)
      (mkEnv (SampleSite.site (Throw (mkError "unused"))
                (Ok (SampleSite.session "40"))) []) = (Ok r, e')
    /\ t ∈ tests r
    /\ (status t, severity t, truthy (recommendation t)) =
         ("warning", Some "medium", false).
Proof.
  destruct (testSSL_classifies_expiry "https://example.com/" (mkLogger false)
              (mkEnv (SampleSite.site (Throw (mkError "unused"))
                        (Ok (SampleSite.session "40"))) [])
              (mkUrlObj "https:" "example.com" "")
              (SampleSite.session "40")
              (SampleSite.site (Throw (mkError "unused"))
                 (Ok (SampleSite.session "40")))
              "40")
    as (r & e' & t & Hrun & _ & Hin & _ & Hclass);
    [reflexivity|reflexivity|reflexivity|reflexivity|discriminate|].
  exists r, e', t. split; [exact Hrun|]. split; [exact Hin|]. exact Hclass.
Defined.

(** X24 on a site that answers 404 in 120 ms and names its server. *)
Lemma testHttpResponse_classifies_response_witness :
  exists r e',
    Tests.testHttpResponse "https://example.com/" (mkLogger false)
      (mkEnv (SampleSite.site
                (Ok (SampleSite.response 404 [("server", "nginx/1.18.0")]))
                (Throw (mkError "unused"))) []) = (Ok r, e')
    /\ outline (tests r) =
         [ ("Código de Estado", "fail", Some "high");
           ("Tiempo de Respuesta", "pass", Some "info");
           ("Content-Type", "info", Some "info");
           ("Header Server Expuesto", "warning", Some "low") ].
Proof.
  destruct (testHttpResponse_classifies_response "https://example.com/"
              (mkLogger false)
              (mkEnv (SampleSite.site
                        (Ok (SampleSite.response 404 [("server", "nginx/1.18.0")]))
                        (Throw (mkError "unused"))) [])
              (SampleSite.response 404 [("server", "nginx/1.18.0")])
              (snd (Date_now (SampleSite.site
                        (Ok (SampleSite.response 404 [("server", "nginx/1.18.0")]))
                        (Throw (mkError "unused"))))))
    as (r & e' & Hrun & _ & Houtline & _); [reflexivity|].
  exists r, e'. split; [exact Hrun|exact Houtline].
Defined.

(** X25 on an http site that redirects to https. *)
Lemma testRedirects_never_flags_witness :
  exists r e',
    Tests.testRedirects "http://example.com/" (mkLogger false)
      (mkEnv (SampleSite.site
                (Ok {| resp_status := 200; resp_headers := [];
                       resp_set_cookie := None;
                       resp_redirects := ["https://example.com/"] |})
                (Throw (mkError "unused"))) []) = (Ok r, e')
    /\ exists t, t ∈ tests r /\ status t = "pass".
Proof.
  destruct (testRedirects_never_flags "http://example.com/" (mkLogger false)
              (mkEnv (SampleSite.site
                        (Ok {| resp_status := 200; resp_headers := [];
                               resp_set_cookie := None;
                               resp_redirects := ["https://example.com/"] |})
                        (Throw (mkError "unused"))) [])
              {| resp_status := 200; resp_headers := [];
                 resp_set_cookie := None;
                 resp_redirects := ["https://example.com/"] |}
              (SampleSite.site
                 (Ok {| resp_status := 200; resp_headers := [];
                        resp_set_cookie := None;
                        resp_redirects := ["https://example.com/"] |})
                 (Throw (mkError "unused"))))
    as (r & e' & Hrun & _ & _ & _ & Hpass); [reflexivity|].
  exists r, e'. split; [exact Hrun|]. apply Hpass. split; [reflexivity|].
  exists "https://example.com/". split; [by left|reflexivity].
Defined.

(** X26 on an https site that sends no security header: six findings
    carry a recommendation. *)
Lemma testSecurityHeaders_counts_missing_protections_witness :
  exists r e',
    Tests.testSecurityHeaders "https://example.com/" (mkLogger false)
      (mkEnv (SampleSite.site (Ok (SampleSite.response 200 []))
                (Throw (mkError "unused"))) []) = (Ok r, e')
    /\ length (List.filter (fun t => truthy (recommendation t)) (tests r)) = 6%nat.
Proof.
  destruct (testSecurityHeaders_counts_missing_protections
              "https://example.com/" (mkLogger false)
              (mkEnv (SampleSite.site (Ok (SampleSite.response 200 []))
                        (Throw (mkError "unused"))) [])
              (SampleSite.response 200 [])
              (SampleSite.site (Ok (SampleSite.response 200 []))
                 (Throw (mkError "unused"))))
    as (r & e' & Hrun & _ & Hcount & _); [reflexivity|].
  exists r, e'. split; [exact Hrun|exact Hcount].
Defined.

(** X27 on a site that sets a protected and an unprotected cookie. *)
Lemma testCookieSecurity_one_finding_per_cookie_witness :
  exists r e',
    Tests.testCookieSecurity "https://example.com/" (mkLogger false)
      (mkEnv (SampleSite.site
                (Ok {| resp_status := 200; resp_headers := [];
                       resp_set_cookie :=
                         Some ["sid=1; HttpOnly; Secure; SameSite=Lax";
                               "theme=dark"];
                       resp_redirects := [] |})
                (Throw (mkError "unused"))) []) = (Ok r, e')
    /\ length (tests r) = 2%nat.
Proof.
  destruct (testCookieSecurity_one_finding_per_cookie "https://example.com/"
              (mkLogger false)
              (mkEnv (SampleSite.site
                        (Ok {| resp_status := 200; resp_headers := [];
                               resp_set_cookie :=
                                 Some ["sid=1; HttpOnly; Secure; SameSite=Lax";
                                       "theme=dark"];
                               resp_redirects := [] |})
                        (Throw (mkError "unused"))) [])
              {| resp_status := 200; resp_headers := [];
                 resp_set_cookie :=
                   Some ["sid=1; HttpOnly; Secure; SameSite=Lax"; "theme=dark"];
                 resp_redirects := [] |}
              (SampleSite.site
                 (Ok {| resp_status := 200; resp_headers := [];
                        resp_set_cookie :=
                          Some ["sid=1; HttpOnly; Secure; SameSite=Lax";
                                "theme=dark"];
                        resp_redirects := [] |})
                 (Throw (mkError "unused"))))
    as (r & e' & Hrun & _ & Hcookies); [reflexivity|].
  exists r, e'. split; [exact Hrun|].
  cbn [resp_set_cookie] in Hcookies.
  by rewrite <- (Forall2_length _ _ _ Hcookies).
Defined.

(** X28 on a site that reflects the origin it is sent. *)
Lemma testCORS_fails_on_reflection_or_wildcard_credentials_witness :
  exists r e',
    Tests.testCORS "https://example.com/" (mkLogger false)
      (mkEnv (SampleSite.site
                (Ok (SampleSite.response 200
                       [("access-control-allow-origin", "https://evil-site.com")]))
                (Throw (mkError "unused"))) []) = (Ok r, e')
    /\ exists t, t ∈ tests r /\ status t = "fail".
Proof.
  destruct (testCORS_fails_on_reflection_or_wildcard_credentials
              "https://example.com/" (mkLogger false)
              (mkEnv (SampleSite.site
                        (Ok (SampleSite.response 200
                               [("access-control-allow-origin",
                                 "https://evil-site.com")]))
                        (Throw (mkError "unused"))) [])
              (SampleSite.response 200
                 [("access-control-allow-origin", "https://evil-site.com")])
              (SampleSite.site
                 (Ok (SampleSite.response 200
                        [("access-control-allow-origin", "https://evil-site.com")]))
                 (Throw (mkError "unused"))))
    as (r & e' & Hrun & _ & _ & Hfail & _); [reflexivity|].
  exists r, e'. split; [exact Hrun|]. apply Hfail. by right.
Defined.

(* ===================================================================== *)
(** * A scan of the network categories with the imported probes *)
(* ===================================================================== *)

Lemma well_formed_ranked (t : Finding) :
  well_formed t = true -> is_Some (severityOrder (severity t)).
Proof.
  unfold well_formed. intros Hwf.
  apply andb_prop in Hwf as [Hwf _]. apply andb_prop in Hwf as [Hwf _].
  apply andb_prop in Hwf as [_ Hsev].
  destruct (severity t) as [s|]; [|done].
  apply includes_elem_of in Hsev.
  repeat (apply elem_of_cons in Hsev as [->|Hsev]; [by eexists|]).
  by apply elem_of_nil in Hsev.
Qed.

Lemma reported_as_returned (outcomes : list (Result CategoryResults))
    (names : list string) :
  Forall2 reported_as outcomes names ->
  map cr_name (returned outcomes) = names
  /\ Forall (fun t => well_formed t = true) (flat_map tests (returned outcomes)).
Proof.
  induction 1 as [|o nm outcomes names (r & -> & Hname & Hwf) _ [IHn IHw]].
  - by split.
  - change (returned (Ok r :: outcomes)) with (r :: returned outcomes).
    cbn [map flat_map]. rewrite IHn, Hname. split; [done|].
    apply Forall_app. split; [|exact IHw].
    apply Forall_forall. intros t Hin. rewrite forallb_forall in Hwf.
    by apply Hwf, list_elem_of_In.
Qed.

Section NetworkScan.
Context {W : Type} `{Host W} `{ProbeHost W}.

Lemma as_probe_reported nm (testFn : string -> Logger -> M (Env W) CategoryResults)
    u logger w :
  probe_ok nm (testFn u logger (mkEnv w [])) ->
  reported_as (fst (fst (Tests.as_probe testFn u logger w))) nm.
Proof.
  intros (r & e' & Hrun & Hname & _ & Hwf). unfold Tests.as_probe.
  rewrite Hrun. by exists r.
Qed.

Lemma probe_outcomes_reported u logger (plan : list (Probe W))
    (names : list string) :
  Forall2 (fun testFn nm =>
             forall w, reported_as (fst (fst (testFn u logger w))) nm) plan names ->
  forall w, Forall2 reported_as (fst (probe_outcomes u logger plan w)) names.
Proof.
  induction 1 as [|testFn nm plan names Hfirst _ IH]; intros w; simpl.
  - constructor.
  - specialize (Hfirst w).
    destruct (testFn u logger w) as [[r printed] w'].
    specialize (IH w'). destruct (probe_outcomes u logger plan w') as [rs w''].
    by constructor.
Qed.

Variables testWithBrowser testPerformance testResponsive takeScreenshots : Probe W.

Lemma network_plan_reported u logger (categories : list string) :
  Forall (fun key => key ∈ ["http"; "ssl"; "security"]) categories ->
  Forall2 (fun testFn nm =>
             forall w, reported_as (fst (fst (testFn u logger w))) nm)
    (planned (TEST_CATEGORIES
                (Tests.imported testWithBrowser testPerformance testResponsive
                   takeScreenshots)) categories)
    (flat_map probe_names categories).
Proof.
  induction 1 as [|key categories Hkey _ IH]; [constructor|].
  unfold planned in *. cbn [flat_map]. apply Forall2_app; [|exact IH].
  repeat (apply elem_of_cons in Hkey as [->|Hkey]);
    [| | |by apply elem_of_nil in Hkey]; cbn.
  - repeat constructor; intros w; apply as_probe_reported.
    + apply testHttpResponse_probe_ok.
    + apply testRedirects_probe_ok.
  - repeat constructor; intros w; apply as_probe_reported.
    apply testSSL_probe_ok.
  - repeat constructor; intros w; apply as_probe_reported.
    + apply testSecurityHeaders_probe_ok.
    + apply testCookieSecurity_probe_ok.
    + apply testCORS_probe_ok.
Qed.

(** X29. With the probes index.js imports, a scan of the categories
    [http], [ssl] and [security] (in any order and number) always returns
    a report, whatever the site and the network do: it holds one result
    for every probe of the selected categories, under the probe's name
    and in call order; every finding in it is well formed; and so the
    recommendation list is sorted by severity rank, critical first. *)
Theorem network_scan_reports_every_probe u categories verbose (e : Env W) :
  Forall (fun key => key ∈ ["http"; "ssl"; "security"]) categories ->
  exists reporter e',
    runTests (Tests.imported testWithBrowser testPerformance testResponsive
                takeScreenshots) u categories verbose e = (Ok reporter, e')
    /\ map cr_name (results reporter) = flat_map probe_names categories
    /\ Forall (fun t => well_formed t = true) (allFindings reporter)
    /\ StronglySorted (fun a b => claimed_rank a <= claimed_rank b)
         (recommendations reporter).
Proof.
  intros Hkeys.
  assert (Hown : Forall (fun key => key ∈ Object_keys
                   (Tests.imported testWithBrowser testPerformance
                      testResponsive takeScreenshots)) categories).
  { eapply Forall_impl; [exact Hkeys|]. intros key Hkey. cbn.
    repeat (apply elem_of_cons in Hkey as [->|Hkey]);
      [| | |by apply elem_of_nil in Hkey];
      repeat first [by left | right]. }
  destruct (runTests_run_own _ u categories verbose e Hown)
    as (reporter & e' & Hrun & Hresults).
  pose proof (probe_outcomes_reported u (mkLogger verbose) _ _
                (network_plan_reported u (mkLogger verbose) categories Hkeys)
                (snd (Date_now (world e)))) as Hreported.
  apply reported_as_returned in Hreported as [Hnames Hwf].
  rewrite <- Hresults in Hnames, Hwf.
  exists reporter, e'. split; [exact Hrun|]. split; [exact Hnames|].
  split; [exact Hwf|].
  apply (Array_sort_stable_by_rank rankOf (collectRecommendations reporter)).
  rewrite collectRecommendations_filter. apply Forall_forall.
  intros x Hx. apply list_elem_of_fmap in Hx as (t & -> & Ht).
  apply list_elem_of_In, List.filter_In in Ht as [Ht _].
  apply list_elem_of_In in Ht. rewrite Forall_forall in Hwf.
  apply well_formed_ranked, Hwf, Ht.
Qed.

End NetworkScan.

(** X29 on a site that is down: [--only security,http]. *)
Lemma network_scan_reports_every_probe_witness :
  exists reporter e',
    runTests (Tests.imported (fun _ _ w => (Throw (mkError "no browser"), [], w))
                (fun _ _ w => (Throw (mkError "no browser"), [], w))
                (fun _ _ w => (Throw (mkError "no browser"), [], w))
                (fun _ _ w => (Throw (mkError "no browser"), [], w)))
      "https://example.com/" ["security"; "http"] false
      (mkEnv SampleSite.down []) = (Ok reporter, e')
    /\ map cr_name (results reporter) =
         ["Headers de Seguridad"; "Seguridad de Cookies"; "CORS";
          "Respuesta HTTP"; "Redirecciones"].
Proof.
  destruct (network_scan_reports_every_probe
              (fun _ _ w => (Throw (mkError "no browser"), [], w))
              (fun _ _ w => (Throw (mkError "no browser"), [], w))
              (fun _ _ w => (Throw (mkError "no browser"), [], w))
              (fun _ _ w => (Throw (mkError "no browser"), [], w))
              "https://example.com/" ["security"; "http"] false
              (mkEnv SampleSite.down []))
    as (reporter & e' & Hrun & Hnames & _).
  - repeat constructor.
  - exists reporter, e'. split; [exact Hrun|exact Hnames].
Defined.

(* ===================================================================== *)
(** * src/monitor.js: setTeam, setAssignee and getStatus *)
(* ===================================================================== *)

Section StatusProperties.
Context {W : Type} `{Host W} `{MonitorHost W}.

(** X30. [setTeam] and [setAssignee] each replace their own field, leave
    the rest of the monitor as it is and write the new configuration to
    the configuration file. [getStatus] afterwards shows the two values,
    and reports the monitor as configured exactly when there is at least
    one URL and the team id is truthy; whether an API key is present
    plays no part in it. *)
Theorem setTeam_setAssignee_then_getStatus team assignee m (e : Env W) :
  exists m1 m2 e1 e2,
    setTeam team m e = (Ok m1, e1)
    /\ setAssignee assignee m1 e1 = (Ok m2, e2)
    /\ world e1 =
         fs_writeFileSync CONFIG_PATH (JSON_stringify_config (config m1)) (world e)
    /\ world e2 =
         fs_writeFileSync CONFIG_PATH (JSON_stringify_config (config m2)) (world e1)
    /\ state m2 = state m /\ linear m2 = linear m
    /\ checks (config m2) = checks (config m)
    /\ st_urls (getStatus m2) = urls (config m)
    /\ st_teamId (getStatus m2) = team
    /\ st_assigneeId (getStatus m2) = assignee
    /\ st_thresholds (getStatus m2) = thresholds (config m)
    /\ (st_configured (getStatus m2) = true
        <-> urls (config m) <> [] /\ truthy team = true).
Proof.
  eexists _, _, _, _. unfold setTeam, setAssignee.
  split; [erewrite bind_ok by apply saveConfig_run; reflexivity|].
  split; [erewrite bind_ok by apply saveConfig_run; reflexivity|].
  cbn. repeat split; try done.
  - intros Hnil. rewrite Hnil in *. done.
  - by destruct (truthy team); destruct (urls (config m)).
  - intros [Hurls Hteam]. rewrite Hteam.
    by destruct (urls (config m)).
Qed.

End StatusProperties.
